(** * TLDMotto: the reaction-role engine (botto/mixins/reaction_roles.py)

    A shallow embedding of the reaction event router and the testing-request
    state machine.  Every handler of [ReactionRoles] is a computation in a
    state-and-exception monad over a [World] that holds the Discord side
    (guilds, channels, messages, member roles), the Airtable side (testers,
    requests, apps, reaction roles, per-guild configuration) and the App Store
    Connect side (beta testers).  A Python exception keeps every mutation made
    before it was raised, so a computation returns an outcome together with the
    world it leaves behind. *)

From Stdlib Require Import String List ZArith Bool Arith Lia.
Import ListNotations.
Open Scope string_scope.
Open Scope Z_scope.
Open Scope list_scope.

Set Implicit Arguments.

(** ** Python values that the code converts with [int(...)] *)

(** A message id as the storage model hands it out: a Python [int], or the
    [str] of its decimal digits ([PStr 7] stands for ["7"]).  The source applies
    [int(...)] to the ids of a [TestingRequest] before it compares them. *)
Inductive pyid : Type :=
| PInt (z : Z)
| PStr (z : Z).

(** [int(v)] *)
Definition py_int (v : pyid) : Z :=
  match v with PInt z => z | PStr z => z end.

(** [a != b] on Python values: an [int] is never equal to a [str]. *)
Definition py_ne (a b : pyid) : bool :=
  match a, b with
  | PInt x, PInt y => negb (x =? y)
  | PStr x, PStr y => negb (x =? y)
  | _, _ => true
  end.

(** ** Data model *)

Inductive RequestStatus : Type := PENDING | APPROVED | REJECTED.

Definition status_eqb (a b : RequestStatus) : bool :=
  match a, b with
  | PENDING, PENDING | APPROVED, APPROVED | REJECTED, REJECTED => true
  | _, _ => false
  end.

Inductive RequestApprovalFilter : Type := FilterALL | FilterAPPROVED.

Record Tester : Type := mkTester {
  tester_id : option Z;               (* Airtable record id, None before the first upsert *)
  username : string;
  discord_id : Z;
  email : option string;
  given_name : string;
  family_name : string;
  registration_message_id : option Z;
  leave_message_ids : list Z
}.

Record TestingRequest : Type := mkTestingRequest {
  request_id : option Z;              (* Airtable record id *)
  tester : option Z;                  (* record id of the owning tester *)
  tester_discord_id : Z;
  app : option Z;
  server_id : Z;
  approval_channel_id : option Z;
  status : RequestStatus;
  notification_message_id : option pyid;
  further_notification_message_ids : list pyid;
  removed : bool;
  created : Z;
  app_reaction_roles_ids : list Z
}.

Record App : Type := mkApp {
  app_id : Z;
  app_name : string;
  beta_open : bool;
  beta_group_id : Z;
  app_store_key_id : Z
}.

Record ReactionRole : Type := mkReactionRole {
  rr_server_id : Z;
  rr_message_id : Z;
  rr_emoji : string;
  role_id : Z;
  app_ids : list (option Z);          (* None stands for a None or empty app id *)
  requires_rules_approval : bool
}.

Record Member : Type := mkMember {
  member_guild : Z;
  member_id : Z;
  member_name : string;
  member_roles : list Z
}.

Record Guild : Type := mkGuild {
  guild_ident : Z;
  guild_channels : list Z;
  guild_roles : list Z
}.

(** The texts the engine sends, one constructor per message of the source. *)
Inductive Text : Type :=
| TxtRulesNotAgreed (rules_link : option (Z * Z))
| TxtBetasNotOpen (requested closed : list string)
| TxtRegistration
| TxtRequestNotification (is_repeat : bool) (original : option Z)
                         (already_approved : bool) (user : Z) (r : TestingRequest)
| TxtApproved (r : TestingRequest) (tester_email : option string)
| TxtNoRequestForApproval (mention : Z) (emoji : string)
| TxtPreviouslyRejected (r : TestingRequest)
| TxtNoRequestForRejection (mention : Z) (emoji : string)
| TxtPreviouslyApproved (r : TestingRequest)
| TxtNoTesterForLeaveMessage (message : Z)
| TxtNoApiKey (mention : Z) (a : App)
| TxtNoBetaGroup (mention : Z) (a : App)
| TxtInvalidAttribute (mention : Z) (details : string)
| TxtNoTestersWithEmail (mention : Z) (tester_email : option string)
| TxtFailedToHandle (mention : Z) (err : string)
| TxtReactionRoleError (mention : option Z) (err : string)
| TxtTesterLeft (user : Z) (apps : list string)
| TxtNoTesterRecord (user : Z)
| TxtFailedToUpdateTester (t : Tester) (err : string)
| TxtOther.

Record Message : Type := mkMessage {
  message_ident : Z;
  message_channel : Z;                (* the channel, or the user of a private message *)
  message_author : Z;
  created_at : Z;                     (* seconds *)
  reactions : list (string * Z);      (* emoji, reacting user *)
  cached : bool;                      (* held in the client's message cache *)
  content : Text
}.

Inductive EventType : Type := REACTION_ADD | REACTION_REMOVE.

(** [discord.RawReactionActionEvent] *)
Record Payload : Type := mkPayload {
  event_type : EventType;
  user_id : Z;
  message_id : Z;
  channel_id : Z;
  guild_id : option Z;
  emoji : string;
  member : option Member
}.

(** [discord.RawMemberRemoveEvent] *)
Record MemberRemovePayload : Type := mkMemberRemovePayload {
  leaving_user : Z;
  leaving_guild : Z
}.

(** Per-guild rows of the configuration storage. *)
Record GuildConfig : Type := mkGuildConfig {
  approval_emojis : option (list string);
  rejection_emojis : option (list string);
  removal_emojis : option (list string);
  default_approvals_channel_id : option Z;
  rule_agreement_role_id : option Z;
  rule_agreement_message : option (option Z * option Z);  (* "channel", "message" *)
  tester_exit_notification_channel : option Z
}.

(** A tester as App Store Connect knows it. *)
Record BetaTester : Type := mkBetaTester {
  beta_tester_id : Z;
  beta_tester_email : option string;
  beta_group_ids : list Z
}.

(** ** Exceptions *)

(** Modelled from the spec: the error classes of [botto.storage.beta_testers.model],
    which is not part of the sources at hand.  The distribution API fails with a
    distinguished "credentials not configured", "group not configured" or
    "invalid attribute" condition, or with a generic failure; the source catches
    all four as [AppStoreConnectError] and matches the first three by class. *)
Inductive AppStoreConnectFailure : Type :=
| ApiKeyNotSetError
| BetaGroupNotSetError
| InvalidAttributeError (details : string)
| GenericAppStoreConnectError.

Inductive exn : Type :=
| AirTableError (msg : string)
| ReactionRoleError (message : string) (discord_message_reference : Z)
                    (mention_member : option Z)
| AppStoreConnectError (f : AppStoreConnectFailure)
| DiscordException
| AttributeError                      (* an attribute of None *)
| TypeError                           (* int(None) *)
| NameError                           (* an unbound local *)
| ExceptionGroup (inner : exn).       (* raised by asyncio.TaskGroup *)

(** ** External calls and injected failures *)

Inductive Op : Type :=
(* chat platform *)
| OpFetchMessage | OpChannelSend | OpMemberSend | OpMemberFetchMessage
| OpAddReaction | OpRemoveReaction | OpAddRoles | OpFetchUser | OpFetchChannel
| OpTyping
(* record store *)
| OpListWatchedMessageIds | OpGetReactionRole | OpFetchApp | OpFindTester
| OpUpsertTester | OpListRequests | OpAddRequest | OpUpdateRequest
| OpUpdateRequests | OpFetchRequest | OpFetchTester
| OpFindTesterByLeaveMessage | OpFindAppsByBetaGroup
(* configuration store *)
| OpGetConfig | OpGetRuleAgreementRoleId | OpGetDefaultApprovalsChannelId
| OpGetTesterExitNotificationChannel
(* distribution API *)
| OpFindBetaTester | OpCreateBetaTester | OpDeleteBetaTester
| OpRemoveFromBetaGroup.

Definition Op_eqb (a b : Op) : bool :=
  match a, b with
  | OpFetchMessage, OpFetchMessage | OpChannelSend, OpChannelSend
  | OpMemberSend, OpMemberSend | OpMemberFetchMessage, OpMemberFetchMessage
  | OpAddReaction, OpAddReaction | OpRemoveReaction, OpRemoveReaction
  | OpAddRoles, OpAddRoles | OpFetchUser, OpFetchUser
  | OpFetchChannel, OpFetchChannel | OpTyping, OpTyping
  | OpListWatchedMessageIds, OpListWatchedMessageIds
  | OpGetReactionRole, OpGetReactionRole | OpFetchApp, OpFetchApp
  | OpFindTester, OpFindTester | OpUpsertTester, OpUpsertTester
  | OpListRequests, OpListRequests | OpAddRequest, OpAddRequest
  | OpUpdateRequest, OpUpdateRequest | OpUpdateRequests, OpUpdateRequests
  | OpFetchRequest, OpFetchRequest | OpFetchTester, OpFetchTester
  | OpFindTesterByLeaveMessage, OpFindTesterByLeaveMessage
  | OpFindAppsByBetaGroup, OpFindAppsByBetaGroup | OpGetConfig, OpGetConfig
  | OpGetRuleAgreementRoleId, OpGetRuleAgreementRoleId
  | OpGetDefaultApprovalsChannelId, OpGetDefaultApprovalsChannelId
  | OpGetTesterExitNotificationChannel, OpGetTesterExitNotificationChannel
  | OpFindBetaTester, OpFindBetaTester | OpCreateBetaTester, OpCreateBetaTester
  | OpDeleteBetaTester, OpDeleteBetaTester
  | OpRemoveFromBetaGroup, OpRemoveFromBetaGroup => true
  | _, _ => false
  end.

(** What the engine did to the outside, in order (newest first in [trace]). *)
Inductive Effect : Type :=
| EChannelSend (channel : Z) (text : Text) (reference : option Z) (new_message : Z)
| EMemberSend (user : Z) (text : Text) (new_message : Z)
| EAddReaction (message : Z) (e : string)
| ERemoveReaction (message : Z) (e : string)
| EAddRoles (user : Z) (roles : list Z)
| EUpsertTester (t : Tester)
| EAddRequest (r : TestingRequest)
| EUpdateRequest (r : TestingRequest)
| EUpdateRequests (rs : list TestingRequest)
| ECreateBetaTester (a : App) (tester_email : option string)
| EDeleteBetaTester (beta_tester : Z) (a : App)
| ERemoveFromBetaGroup (group : Z) (a : App).

Record World : Type := mkWorld {
  (* the client *)
  bot_user : Z;
  guilds : list Guild;
  channels : list Z;                           (* channels [get_channel] resolves *)
  members : list Member;
  messages : list Message;
  (* the record store *)
  watched_message_ids : list Z;                (* the cache *)
  stored_watched_message_ids : list Z;         (* what a listing returns *)
  approvals_channel_ids : list Z;
  reaction_roles : list ReactionRole;
  apps : list App;
  testers : list Tester;
  requests : list TestingRequest;
  stored_message_id : Z -> pyid;               (* how the model keeps a further id *)
  (* the configuration store *)
  guild_configs : list (Z * GuildConfig);
  (* the distribution API *)
  beta_testers : list BetaTester;
  (* bookkeeping *)
  next_id : Z;                                 (* fresh message and record ids *)
  utcnow : Z;                                  (* wall clock, seconds *)
  calls : nat;                                 (* external calls made so far *)
  faults : nat -> Op -> option exn;            (* the n-th call, if it is [op], fails *)
  trace : list Effect
}.

(** ** The monad: state, and exceptions that keep the state *)

Inductive outcome (A : Type) : Type :=
| Returned (a : A)
| Raised (e : exn).

Arguments Raised {A} e.

Definition M (A : Type) : Type := World -> outcome A * World.

Definition ret {A : Type} (a : A) : M A := fun w => (Returned a, w).

Definition raise {A : Type} (e : exn) : M A := fun w => (Raised e, w).

Definition bind {A B : Type} (m : M A) (k : A -> M B) : M B :=
  fun w =>
    match m w with
    | (Returned a, w') => k a w'
    | (Raised e, w') => (Raised e, w')
    end.

(** [try: m  except ... as e: h e]; a handler re-raises what no clause matches. *)
Definition catch {A : Type} (m : M A) (h : exn -> M A) : M A :=
  fun w =>
    match m w with
    | (Returned a, w') => (Returned a, w')
    | (Raised e, w') => h e w'
    end.

(** [try: m  finally: c]: [c] runs on every outcome of [m]; an exception of [c]
    replaces the outcome of [m]. *)
Definition try_finally {A : Type} (m : M A) (c : M unit) : M A :=
  fun w =>
    match m w with
    | (r, w') =>
        match c w' with
        | (Returned _, w'') => (r, w'')
        | (Raised e, w'') => (Raised e, w'')
        end
    end.

(** [async with asyncio.TaskGroup()]: a failure of a task leaves the group as
    an [ExceptionGroup]. *)
Definition task_group {A : Type} (m : M A) : M A :=
  catch m (fun e => raise (ExceptionGroup e)).

Definition gets {A : Type} (f : World -> A) : M A := fun w => (Returned (f w), w).

Definition modify (f : World -> World) : M unit := fun w => (Returned tt, f w).

Declare Scope monad_scope.
Delimit Scope monad_scope with monad.
Notation "x <- m ;; k" := (bind m (fun x => k))
  (at level 61, m at next level, right associativity) : monad_scope.
Notation "m ;; k" := (bind m (fun _ => k))
  (at level 61, right associativity) : monad_scope.
Open Scope monad_scope.

Fixpoint mapM {A B : Type} (f : A -> M B) (l : list A) : M (list B) :=
  match l with
  | [] => ret []
  | a :: l' => b <- f a ;; bs <- mapM f l' ;; ret (b :: bs)
  end.

Fixpoint forM_ {A : Type} (l : list A) (f : A -> M unit) : M unit :=
  match l with
  | [] => ret tt
  | a :: l' => f a ;; forM_ l' f
  end.

(** An attribute or method of a value that may be None. *)
Definition deref {A : Type} (o : option A) : M A :=
  match o with
  | Some a => ret a
  | None => raise AttributeError
  end.

(** ** World updates *)

Definition set_calls (n : nat) (w : World) : World :=
  mkWorld (bot_user w) (guilds w) (channels w) (members w) (messages w)
    (watched_message_ids w) (stored_watched_message_ids w)
    (approvals_channel_ids w) (reaction_roles w) (apps w) (testers w)
    (requests w) (stored_message_id w) (guild_configs w) (beta_testers w)
    (next_id w) (utcnow w) n (faults w) (trace w).

Definition set_messages (ms : list Message) (w : World) : World :=
  mkWorld (bot_user w) (guilds w) (channels w) (members w) ms
    (watched_message_ids w) (stored_watched_message_ids w)
    (approvals_channel_ids w) (reaction_roles w) (apps w) (testers w)
    (requests w) (stored_message_id w) (guild_configs w) (beta_testers w)
    (next_id w) (utcnow w) (calls w) (faults w) (trace w).

Definition set_members (ms : list Member) (w : World) : World :=
  mkWorld (bot_user w) (guilds w) (channels w) ms (messages w)
    (watched_message_ids w) (stored_watched_message_ids w)
    (approvals_channel_ids w) (reaction_roles w) (apps w) (testers w)
    (requests w) (stored_message_id w) (guild_configs w) (beta_testers w)
    (next_id w) (utcnow w) (calls w) (faults w) (trace w).

Definition set_watched_message_ids (ids : list Z) (w : World) : World :=
  mkWorld (bot_user w) (guilds w) (channels w) (members w) (messages w)
    ids (stored_watched_message_ids w)
    (approvals_channel_ids w) (reaction_roles w) (apps w) (testers w)
    (requests w) (stored_message_id w) (guild_configs w) (beta_testers w)
    (next_id w) (utcnow w) (calls w) (faults w) (trace w).

Definition set_testers (ts : list Tester) (w : World) : World :=
  mkWorld (bot_user w) (guilds w) (channels w) (members w) (messages w)
    (watched_message_ids w) (stored_watched_message_ids w)
    (approvals_channel_ids w) (reaction_roles w) (apps w) ts
    (requests w) (stored_message_id w) (guild_configs w) (beta_testers w)
    (next_id w) (utcnow w) (calls w) (faults w) (trace w).

Definition set_requests (rs : list TestingRequest) (w : World) : World :=
  mkWorld (bot_user w) (guilds w) (channels w) (members w) (messages w)
    (watched_message_ids w) (stored_watched_message_ids w)
    (approvals_channel_ids w) (reaction_roles w) (apps w) (testers w)
    rs (stored_message_id w) (guild_configs w) (beta_testers w)
    (next_id w) (utcnow w) (calls w) (faults w) (trace w).

Definition set_beta_testers (bs : list BetaTester) (w : World) : World :=
  mkWorld (bot_user w) (guilds w) (channels w) (members w) (messages w)
    (watched_message_ids w) (stored_watched_message_ids w)
    (approvals_channel_ids w) (reaction_roles w) (apps w) (testers w)
    (requests w) (stored_message_id w) (guild_configs w) bs
    (next_id w) (utcnow w) (calls w) (faults w) (trace w).

Definition set_next_id (n : Z) (w : World) : World :=
  mkWorld (bot_user w) (guilds w) (channels w) (members w) (messages w)
    (watched_message_ids w) (stored_watched_message_ids w)
    (approvals_channel_ids w) (reaction_roles w) (apps w) (testers w)
    (requests w) (stored_message_id w) (guild_configs w) (beta_testers w)
    n (utcnow w) (calls w) (faults w) (trace w).

Definition set_utcnow (t : Z) (w : World) : World :=
  mkWorld (bot_user w) (guilds w) (channels w) (members w) (messages w)
    (watched_message_ids w) (stored_watched_message_ids w)
    (approvals_channel_ids w) (reaction_roles w) (apps w) (testers w)
    (requests w) (stored_message_id w) (guild_configs w) (beta_testers w)
    (next_id w) t (calls w) (faults w) (trace w).

Definition set_trace (tr : list Effect) (w : World) : World :=
  mkWorld (bot_user w) (guilds w) (channels w) (members w) (messages w)
    (watched_message_ids w) (stored_watched_message_ids w)
    (approvals_channel_ids w) (reaction_roles w) (apps w) (testers w)
    (requests w) (stored_message_id w) (guild_configs w) (beta_testers w)
    (next_id w) (utcnow w) (calls w) (faults w) tr.

Definition set_faults (f : nat -> Op -> option exn) (w : World) : World :=
  mkWorld (bot_user w) (guilds w) (channels w) (members w) (messages w)
    (watched_message_ids w) (stored_watched_message_ids w)
    (approvals_channel_ids w) (reaction_roles w) (apps w) (testers w)
    (requests w) (stored_message_id w) (guild_configs w) (beta_testers w)
    (next_id w) (utcnow w) (calls w) f (trace w).

Definition emit (e : Effect) : M unit :=
  modify (fun w => set_trace (e :: trace w) w).

(** One external call: it counts, and it fails when the fault table says so. *)
Definition call (op : Op) : M unit :=
  fun w =>
    match faults w (calls w) op with
    | Some e => (Raised e, set_calls (S (calls w)) w)
    | None => (Returned tt, set_calls (S (calls w)) w)
    end.

Definition fresh_id : M Z :=
  fun w => (Returned (next_id w), set_next_id (next_id w + 1) w).

Definition mem_Z (x : Z) (l : list Z) : bool := existsb (Z.eqb x) l.

Definition mem_string (x : string) (l : list string) : bool :=
  existsb (String.eqb x) l.

Definition opt_Z_eqb (a b : option Z) : bool :=
  match a, b with
  | Some x, Some y => x =? y
  | None, None => true
  | _, _ => false
  end.

Definition opt_string_eqb (a b : option string) : bool :=
  match a, b with
  | Some x, Some y => String.eqb x y
  | None, None => true
  | _, _ => false
  end.

(** ** Record updates of the engine's local objects *)

Definition with_tester_id (i : option Z) (t : Tester) : Tester :=
  mkTester i (username t) (discord_id t) (email t) (given_name t)
    (family_name t) (registration_message_id t) (leave_message_ids t).

Definition with_username (n : string) (t : Tester) : Tester :=
  mkTester (tester_id t) n (discord_id t) (email t) (given_name t)
    (family_name t) (registration_message_id t) (leave_message_ids t).

Definition with_discord_id (d : Z) (t : Tester) : Tester :=
  mkTester (tester_id t) (username t) d (email t) (given_name t)
    (family_name t) (registration_message_id t) (leave_message_ids t).

Definition with_registration_message_id (m : option Z) (t : Tester) : Tester :=
  mkTester (tester_id t) (username t) (discord_id t) (email t) (given_name t)
    (family_name t) m (leave_message_ids t).

Definition with_leave_message_ids (l : list Z) (t : Tester) : Tester :=
  mkTester (tester_id t) (username t) (discord_id t) (email t) (given_name t)
    (family_name t) (registration_message_id t) l.

Definition with_request_id (i : option Z) (r : TestingRequest) : TestingRequest :=
  mkTestingRequest i (tester r) (tester_discord_id r) (app r) (server_id r)
    (approval_channel_id r) (status r) (notification_message_id r)
    (further_notification_message_ids r) (removed r) (created r)
    (app_reaction_roles_ids r).

Definition with_status (s : RequestStatus) (r : TestingRequest) : TestingRequest :=
  mkTestingRequest (request_id r) (tester r) (tester_discord_id r) (app r)
    (server_id r) (approval_channel_id r) s (notification_message_id r)
    (further_notification_message_ids r) (removed r) (created r)
    (app_reaction_roles_ids r).

Definition with_notification_message_id (m : option pyid) (r : TestingRequest)
  : TestingRequest :=
  mkTestingRequest (request_id r) (tester r) (tester_discord_id r) (app r)
    (server_id r) (approval_channel_id r) (status r) m
    (further_notification_message_ids r) (removed r) (created r)
    (app_reaction_roles_ids r).

Definition with_further_notification_message_ids (l : list pyid)
  (r : TestingRequest) : TestingRequest :=
  mkTestingRequest (request_id r) (tester r) (tester_discord_id r) (app r)
    (server_id r) (approval_channel_id r) (status r)
    (notification_message_id r) l (removed r) (created r)
    (app_reaction_roles_ids r).

Definition with_removed (b : bool) (r : TestingRequest) : TestingRequest :=
  mkTestingRequest (request_id r) (tester r) (tester_discord_id r) (app r)
    (server_id r) (approval_channel_id r) (status r)
    (notification_message_id r) (further_notification_message_ids r) b
    (created r) (app_reaction_roles_ids r).

Definition with_created_and_roles (c : Z) (roles : list Z) (r : TestingRequest)
  : TestingRequest :=
  mkTestingRequest (request_id r) (tester r) (tester_discord_id r) (app r)
    (server_id r) (approval_channel_id r) (status r)
    (notification_message_id r) (further_notification_message_ids r)
    (removed r) c roles.

Definition with_reactions (rs : list (string * Z)) (m : Message) : Message :=
  mkMessage (message_ident m) (message_channel m) (message_author m)
    (created_at m) rs (cached m) (content m).

Definition with_member_roles (rs : list Z) (m : Member) : Member :=
  mkMember (member_guild m) (member_id m) (member_name m) rs.

Definition with_beta_group_ids (gs : list Z) (b : BetaTester) : BetaTester :=
  mkBetaTester (beta_tester_id b) (beta_tester_email b) gs.

(** Modelled from the spec: the constructor of [model.TestingRequest], which is
    not part of the sources at hand; a request is created PENDING, not removed,
    with no notification message yet. *)
Definition new_TestingRequest (tester_record : option Z) (tester_discord : Z)
  (app_record : option Z) (server : Z) : TestingRequest :=
  mkTestingRequest None tester_record tester_discord app_record server None
    PENDING None [] false 0 [].

(** Modelled from the spec: the constructor of [model.Tester]. *)
Definition new_Tester (name : string) (discord : Z) : Tester :=
  mkTester None name discord None "" "" None [].

(** Modelled from the spec: [TestingRequest.approved]. *)
Definition approved (r : TestingRequest) : bool := status_eqb (status r) APPROVED.

(** [if not tester.email]: None and the empty string are falsy. *)
Definition has_email (t : Tester) : bool :=
  match email t with
  | Some s => negb (String.eqb s "")
  | None => false
  end.

(** ** The chat platform *)

Definition get_guild (gid : Z) (w : World) : option Guild :=
  find (fun g => guild_ident g =? gid) (guilds w).

Definition get_channel (cid : Z) (w : World) : option Z :=
  if mem_Z cid (channels w) then Some cid else None.

Definition guild_get_channel (g : Guild) (cid : Z) : option Z :=
  if mem_Z cid (guild_channels g) then Some cid else None.

Definition guild_get_role (g : Guild) (rid : Z) : option Z :=
  if mem_Z rid (guild_roles g) then Some rid else None.

Definition guild_get_member (g : Guild) (uid : Z) (w : World) : option Member :=
  find (fun m => (member_guild m =? guild_ident g) && (member_id m =? uid))
       (members w).

(** [partial_message.to_reference().cached_message] *)
Definition cached_message (mid : Z) (w : World) : option Message :=
  find (fun m => (message_ident m =? mid) && cached m) (messages w).

Definition find_message (channel mid : Z) (w : World) : option Message :=
  find (fun m => (message_ident m =? mid) && (message_channel m =? channel))
       (messages w).

(** [partial_message.fetch()] *)
Definition fetch_message (channel mid : Z) : M Message :=
  call OpFetchMessage ;;
  o <- gets (find_message channel mid) ;;
  match o with
  | Some m => ret m
  | None => raise DiscordException
  end.

Definition get_or_fetch_message (channel : option Z) (mid : Z) : M Message :=
  ch <- deref channel ;;
  c <- gets (cached_message mid) ;;
  match c with
  | Some m => ret m
  | None => fetch_message ch mid
  end.

Definition new_message (channel : Z) (text : Text) : M Message :=
  i <- fresh_id ;;
  now <- gets utcnow ;;
  bot <- gets bot_user ;;
  let m := mkMessage i channel bot now [] false text in
  modify (fun w => set_messages (messages w ++ [m]) w) ;;
  ret m.

(** [channel.send(text, reference=...)] *)
Definition channel_send (channel : Z) (text : Text) (reference : option Z)
  : M Message :=
  call OpChannelSend ;;
  m <- new_message channel text ;;
  emit (EChannelSend channel text reference (message_ident m)) ;;
  ret m.

(** [member.send(text)]: a private message; its channel is the user. *)
Definition member_send (user : Z) (text : Text) : M Message :=
  call OpMemberSend ;;
  m <- new_message user text ;;
  emit (EMemberSend user text (message_ident m)) ;;
  ret m.

(** [member.fetch_message(id)] *)
Definition member_fetch_message (user mid : Z) : M Message :=
  call OpMemberFetchMessage ;;
  o <- gets (find_message user mid) ;;
  match o with
  | Some m => ret m
  | None => raise DiscordException
  end.

(** [e in m.reactions] *)
Definition carries (e : string) (m : Message) : bool :=
  existsb (fun r => String.eqb (fst r) e) (reactions m).

Definition carries_by (e : string) (u : Z) (m : Message) : bool :=
  existsb (fun r => String.eqb (fst r) e && (snd r =? u)) (reactions m).

Definition add_reaction_by (e : string) (u : Z) (m : Message) : Message :=
  if carries_by e u m then m else with_reactions (reactions m ++ [(e, u)]) m.

Definition remove_reaction_by (e : string) (u : Z) (m : Message) : Message :=
  with_reactions
    (filter (fun r => negb (String.eqb (fst r) e && (snd r =? u))) (reactions m)) m.

Definition update_message (mid : Z) (f : Message -> Message) (w : World) : World :=
  set_messages
    (map (fun m => if message_ident m =? mid then f m else m) (messages w)) w.

(** [message.add_reaction(e)] *)
Definition add_reaction (mid : Z) (e : string) : M unit :=
  call OpAddReaction ;;
  bot <- gets bot_user ;;
  modify (update_message mid (add_reaction_by e bot)) ;;
  emit (EAddReaction mid e).

(** [message.remove_reaction(e, self.user)] *)
Definition remove_reaction (mid : Z) (e : string) : M unit :=
  call OpRemoveReaction ;;
  bot <- gets bot_user ;;
  modify (update_message mid (remove_reaction_by e bot)) ;;
  emit (ERemoveReaction mid e).

Definition add_new_roles (rs : list Z) (m : Member) : Member :=
  with_member_roles
    (member_roles m ++ filter (fun r => negb (mem_Z r (member_roles m))) rs) m.

(** [member.add_roles]: the roles are added at once; a None among them has no [id]. *)
Definition add_roles (m : Member) (roles : list (option Z)) : M unit :=
  rs <- mapM deref roles ;;
  call OpAddRoles ;;
  modify (fun w =>
    set_members
      (map (fun m' =>
              if (member_guild m' =? member_guild m) && (member_id m' =? member_id m)
              then add_new_roles rs m' else m') (members w)) w) ;;
  emit (EAddRoles (member_id m) rs).

(** Modelled from the spec: [ExtendedClient.get_or_fetch_channel], which is not
    part of the sources at hand: the cached channel, else a fetch. *)
Definition get_or_fetch_channel (cid : option Z) : M Z :=
  match cid with
  | None => call OpFetchChannel ;; raise DiscordException
  | Some c =>
      known <- gets (get_channel c) ;;
      match known with
      | Some ch => ret ch
      | None => call OpFetchChannel ;; raise DiscordException
      end
  end.

(** Modelled from the spec: [ExtendedClient.get_or_fetch_user]. *)
Definition get_or_fetch_user (uid : Z) : M Z :=
  call OpFetchUser ;; ret uid.

(** ** The record store

    Modelled from the spec: [BetaTestersStorage] is not part of the sources at
    hand.  The adapter exposes lookup, upsert keyed by the chat user id, filtered
    listing (by tester, app set, approval status and removed flag), and the
    mutations of a request; a request is resolvable from any of its notification
    message ids.  Records are listed in the order they were created. *)

Definition list_watched_message_ids : M (list Z) :=
  call OpListWatchedMessageIds ;;
  ids <- gets stored_watched_message_ids ;;
  modify (set_watched_message_ids ids) ;;
  ret ids.

Definition get_reaction_role (server msg : Z) (e : string) : M (option ReactionRole) :=
  call OpGetReactionRole ;;
  gets (fun w =>
    find (fun rr => (rr_server_id rr =? server) && (rr_message_id rr =? msg)
                    && String.eqb (rr_emoji rr) e) (reaction_roles w)).

Definition fetch_app (aid : option Z) : M (option App) :=
  call OpFetchApp ;;
  match aid with
  | None => ret None
  | Some a => gets (fun w => find (fun x => app_id x =? a) (apps w))
  end.

Definition find_tester (discord : Z) : M (option Tester) :=
  call OpFindTester ;;
  gets (fun w => find (fun t => discord_id t =? discord) (testers w)).

Definition upsert_tester (t : Tester) : M Tester :=
  call OpUpsertTester ;;
  ts <- gets testers ;;
  match find (fun s => discord_id s =? discord_id t) ts with
  | Some s =>
      let t' := with_tester_id (tester_id s) t in
      modify (set_testers
                (map (fun s' => if discord_id s' =? discord_id t then t' else s') ts)) ;;
      emit (EUpsertTester t') ;;
      ret t'
  | None =>
      i <- fresh_id ;;
      let t' := with_tester_id (Some i) t in
      modify (set_testers (ts ++ [t'])) ;;
      emit (EUpsertTester t') ;;
      ret t'
  end.

Definition request_matches (tester_discord : Z) (wanted : option (list (option Z)))
  (approval_filter : RequestApprovalFilter) (exclude_removed : bool)
  (r : TestingRequest) : bool :=
  (tester_discord_id r =? tester_discord)
  && match wanted with
     | None => true
     | Some l => existsb (opt_Z_eqb (app r)) l
     end
  && match approval_filter with
     | FilterALL => true
     | FilterAPPROVED => approved r
     end
  && (if exclude_removed then negb (removed r) else true).

Definition list_requests (tester_discord : Z) (wanted : option (list (option Z)))
  (approval_filter : RequestApprovalFilter) (exclude_removed : bool)
  : M (list TestingRequest) :=
  call OpListRequests ;;
  gets (fun w =>
    filter (request_matches tester_discord wanted approval_filter exclude_removed)
           (requests w)).

Definition roles_for_app (a : option Z) (w : World) : list Z :=
  map role_id (filter (fun rr => existsb (opt_Z_eqb a) (app_ids rr)) (reaction_roles w)).

Definition add_request (r : TestingRequest) : M TestingRequest :=
  call OpAddRequest ;;
  i <- fresh_id ;;
  now <- gets utcnow ;;
  roles <- gets (roles_for_app (app r)) ;;
  let r' := with_created_and_roles now roles (with_request_id (Some i) r) in
  modify (fun w => set_requests (requests w ++ [r']) w) ;;
  emit (EAddRequest r') ;;
  ret r'.

Definition replace_request (r : TestingRequest) (rs : list TestingRequest)
  : list TestingRequest :=
  map (fun s => if opt_Z_eqb (request_id s) (request_id r) then r else s) rs.

Definition update_request (r : TestingRequest) : M unit :=
  call OpUpdateRequest ;;
  modify (fun w => set_requests (replace_request r (requests w)) w) ;;
  emit (EUpdateRequest r).

Definition update_requests (rs : list TestingRequest) : M unit :=
  call OpUpdateRequests ;;
  modify (fun w => set_requests (fold_left (fun acc r => replace_request r acc) rs
                                           (requests w)) w) ;;
  emit (EUpdateRequests rs).

Definition request_has_message (mid : Z) (r : TestingRequest) : bool :=
  match notification_message_id r with
  | Some v => py_int v =? mid
  | None => false
  end
  || existsb (fun v => py_int v =? mid) (further_notification_message_ids r).

Definition fetch_request (mid : Z) : M (option TestingRequest) :=
  call OpFetchRequest ;;
  gets (fun w => find (request_has_message mid) (requests w)).

Definition fetch_tester (rid : option Z) : M (option Tester) :=
  call OpFetchTester ;;
  match rid with
  | None => ret None
  | Some i => gets (fun w => find (fun t => opt_Z_eqb (tester_id t) (Some i)) (testers w))
  end.

Definition find_tester_by_leave_message (mid : Z) : M (option Tester) :=
  call OpFindTesterByLeaveMessage ;;
  gets (fun w => find (fun t => mem_Z mid (leave_message_ids t)) (testers w)).

Definition find_apps_by_beta_group (groups : list Z) : M (list App) :=
  call OpFindAppsByBetaGroup ;;
  gets (fun w => filter (fun a => mem_Z (beta_group_id a) groups) (apps w)).

(** Modelled from the spec: [TestingRequest.add_further_notification_message_id]
    appends to the list of further notification ids. *)
Definition add_further_notification_message_id (v : pyid) (r : TestingRequest)
  : TestingRequest :=
  with_further_notification_message_ids (further_notification_message_ids r ++ [v]) r.

(** ** The configuration store (modelled from the spec, as the record store) *)

Definition guild_config (gid : Z) (w : World) : option GuildConfig :=
  match find (fun c => fst c =? gid) (guild_configs w) with
  | Some c => Some (snd c)
  | None => None
  end.

Definition get_config {A : Type} (gid : option Z) (key : GuildConfig -> option A)
  : M (option A) :=
  call OpGetConfig ;;
  gets (fun w => match gid with
                 | Some g => match guild_config g w with
                             | Some c => key c
                             | None => None
                             end
                 | None => None
                 end).

Definition get_rule_agreement_role_id (gid : Z) : M (option Z) :=
  call OpGetRuleAgreementRoleId ;;
  gets (fun w => match guild_config gid w with
                 | Some c => rule_agreement_role_id c
                 | None => None
                 end).

Definition get_default_approvals_channel_id (gid : option Z) : M (option Z) :=
  call OpGetDefaultApprovalsChannelId ;;
  gets (fun w => match gid with
                 | Some g => match guild_config g w with
                             | Some c => default_approvals_channel_id c
                             | None => None
                             end
                 | None => None
                 end).

Definition get_tester_exit_notification_channel (gid : Z) : M (option Z) :=
  call OpGetTesterExitNotificationChannel ;;
  gets (fun w => match guild_config gid w with
                 | Some c => tester_exit_notification_channel c
                 | None => None
                 end).

(** ** The distribution API (modelled from the spec: [AppStoreConnectClient])

    Find a tester by email, create a tester in the group of an app, delete a
    tester; each call may fail with one of the [AppStoreConnectFailure]s. *)

Definition find_beta_tester (mail : option string) (a : option App)
  : M (list BetaTester) :=
  call OpFindBetaTester ;;
  gets (fun w => filter (fun b => opt_string_eqb (beta_tester_email b) mail)
                        (beta_testers w)).

Definition create_beta_tester (a : App) (mail : option string)
  (given family : string) : M unit :=
  call OpCreateBetaTester ;;
  bs <- gets beta_testers ;;
  (if existsb (fun b => opt_string_eqb (beta_tester_email b) mail) bs
   then modify (set_beta_testers
                  (map (fun b => if opt_string_eqb (beta_tester_email b) mail
                                 then with_beta_group_ids
                                        (beta_group_ids b ++ [beta_group_id a]) b
                                 else b) bs))
   else i <- fresh_id ;;
        modify (set_beta_testers (bs ++ [mkBetaTester i mail [beta_group_id a]]))) ;;
  emit (ECreateBetaTester a mail).

Definition delete_beta_tester (bid : Z) (a : App) : M unit :=
  call OpDeleteBetaTester ;;
  modify (fun w => set_beta_testers
                     (filter (fun b => negb (beta_tester_id b =? bid)) (beta_testers w)) w) ;;
  emit (EDeleteBetaTester bid a).

(** ** The engine: module-level functions *)

Definition processing_emoji : string := "⏳".

(** The add-reaction calls are gathered but the gather is returned without
    being awaited: they are issued, and a failure of one is never seen by the
    handler. *)
Definition mark_request_messages_handled (msgs : list Message)
  (reaction primary_reaction : string) : M unit :=
  forM_ (filter (fun m => negb (carries primary_reaction m)
                          && negb (carries reaction m)) msgs)
        (fun m => catch (add_reaction (message_ident m) reaction)
                        (fun _ => ret tt)).

Definition mark_request_message_approved (msgs : list Message) : M unit :=
  mark_request_messages_handled msgs "✔️" "✅".

Definition mark_request_message_rejected (msgs : list Message) : M unit :=
  mark_request_messages_handled msgs "🚫" "⛔".

(** The comprehension over [further_notification_message_ids] binds its own
    [message_id]: its condition [int(message_id) != message_id] compares each
    further id with itself, not with the parameter [message_id]. *)
Definition further_other_ids (message_id : Z) (r : TestingRequest) : list pyid :=
  filter (fun further_id => py_ne (PInt (py_int further_id)) further_id)
         (further_notification_message_ids r).

(** The partial messages of [other_messages], by id, in order. *)
Definition other_message_ids (message_id : Z) (r : TestingRequest) : M (list pyid) :=
  n <- match notification_message_id r with
       | Some v => ret (py_int v)
       | None => raise TypeError
       end ;;
  ret (further_other_ids message_id r
       ++ (if negb (n =? message_id) then [PInt n] else [])).

(** The loop inside the task group: a cached message is kept, any other is
    fetched.  A partial message stands for the message its id denotes. *)
Fixpoint cached_or_fetched (channel : Z) (ids : list pyid)
  : M (list Message * list Message) :=
  match ids with
  | [] => ret ([], [])
  | v :: rest =>
      c <- gets (cached_message (py_int v)) ;;
      match c with
      | Some m =>
          p <- cached_or_fetched channel rest ;;
          ret (m :: fst p, snd p)
      | None =>
          m <- fetch_message channel (py_int v) ;;
          p <- cached_or_fetched channel rest ;;
          ret (fst p, m :: snd p)
      end
  end.

Definition get_other_request_messages (channel : option Z) (message_id : Z)
  (testing_request : TestingRequest) : M (list Message * list Message) :=
  (if negb (Nat.eqb (length (further_other_ids message_id testing_request)) 0)
   then ch <- deref channel ;; ret tt else ret tt) ;;
  other_messages <- other_message_ids message_id testing_request ;;
  match other_messages with
  | [] => ret ([], [])
  | _ =>
      ch <- deref channel ;;
      task_group (cached_or_fetched ch other_messages)
  end.

(** ** The engine: [ReactionRoles] *)

Definition get_rule_agreement_message (gid : Z) : M (option (Z * Z)) :=
  result <- get_config (Some gid) rule_agreement_message ;;
  ret match result with
      | Some (Some ch, Some msg) => Some (ch, msg)
      | _ => None
      end.

Definition get_approval_emojis (gid : option Z) : M (list string) :=
  result <- get_config gid approval_emojis ;;
  ret match result with Some l => l | None => [] end.

Definition get_rejection_emojis (gid : option Z) : M (list string) :=
  result <- get_config gid rejection_emojis ;;
  ret match result with Some l => l | None => [] end.

Definition get_removal_emojis (gid : option Z) : M (list string) :=
  result <- get_config gid removal_emojis ;;
  ret match result with Some l => l | None => [] end.

Definition send_registration_message (m : Member) : M Message :=
  member_send (member_id m) TxtRegistration.

(** [bool(v)] of an id. *)
Definition py_truthy (v : option pyid) : bool :=
  match v with
  | Some (PInt z) => negb (z =? 0)
  | Some (PStr _) => true
  | None => false
  end.

Definition send_request_notification_message (user : Z) (t : Tester)
  (request : TestingRequest) : M unit :=
  let is_repeat := py_truthy (notification_message_id request) in
  resolved <-
    match approval_channel_id request with
    | Some c => known <- gets (get_channel c) ;; ret (Some known)
    | None =>
        d <- get_default_approvals_channel_id (Some (server_id request)) ;;
        match d with
        | Some c =>
            known <- gets (get_channel c) ;;
            ret match known with Some ch => Some (Some ch) | None => None end
        | None => ret None
        end
    end ;;
  match resolved with
  | None => ret tt
  | Some approval_channel =>
      original <-
        (if is_repeat
         then ch <- deref approval_channel ;;
              ret (option_map py_int (notification_message_id request))
         else ret None) ;;
      ch <- deref approval_channel ;;
      msg <- channel_send ch
               (TxtRequestNotification is_repeat original
                  (is_repeat && approved request) user request) None ;;
      stored <- gets stored_message_id ;;
      let request' :=
        if negb is_repeat
        then with_notification_message_id (Some (PInt (message_ident msg))) request
        else add_further_notification_message_id (stored (message_ident msg)) request in
      update_request request'
  end.

Definition send_approval_notification (request : TestingRequest) (t : Tester)
  : M unit :=
  user <- get_or_fetch_user (tester_discord_id request) ;;
  member_send user (TxtApproved request (email t)) ;;
  ret tt.

Definition is_approval_channel (channel : Z) (gid : Z) : M bool :=
  listed <- gets approvals_channel_ids ;;
  if mem_Z channel listed then ret true
  else
    d <- get_default_approvals_channel_id (Some gid) ;;
    ret (opt_Z_eqb (Some channel) d).

Definition is_own_message (payload : Payload) : M (bool * Message) :=
  channel <- gets (get_channel (channel_id payload)) ;;
  msg <- get_or_fetch_message channel (message_id payload) ;;
  bot <- gets bot_user ;;
  ret (message_author msg =? bot, msg).

Definition check_valid_role_reaction_channel (payload : Payload)
  : M (option (Guild * Message)) :=
  match guild_id payload with
  | None => ret None
  | Some gid =>
      ok <- is_approval_channel (channel_id payload) gid ;;
      if negb ok then ret None
      else
        g <- gets (get_guild gid) ;;
        match g with
        | None => ret None
        | Some guild =>
            own <- is_own_message payload ;;
            if negb (fst own) then ret None
            else ret (Some (guild, snd own))
        end
  end.

(** The private explanation to a member who has not agreed to the rules
    (the body of the rules check of [handle_role_reaction]). *)
Definition rules_not_agreed (gid : Z) (guild : Guild) (mem : Member) : M unit :=
  details <- get_rule_agreement_message gid ;;
  match details with
  | Some (ch, msg) =>
      match guild_get_channel guild ch with
      | None => ret tt
      | Some _ =>
          member_send (member_id mem) (TxtRulesNotAgreed (Some (ch, msg))) ;;
          ret tt
      end
  | None =>
      member_send (member_id mem) (TxtRulesNotAgreed None) ;;
      ret tt
  end.

(** [if not tester.email: ...] of [handle_role_reaction]; every path of it
    ends the handler.  The cool-down is 30 minutes of wall-clock time. *)
Definition registration_branch (mem : Member) (t : Tester) : M unit :=
  recent <-
    match registration_message_id t with
    | Some registration_message =>
        previous <- member_fetch_message (member_id mem) registration_message ;;
        now <- gets utcnow ;;
        ret (created_at previous >? now - 30 * 60)
    | None => ret false
    end ;;
  if recent then ret tt
  else
    registration_message <- send_registration_message mem ;;
    upsert_tester
      (with_registration_message_id (Some (message_ident registration_message)) t) ;;
    ret tt.

(** The part of [handle_role_reaction] that runs under the tester's lock
    ([self.tester_locks], keyed by the user id).  Here a handler runs alone,
    so taking the lock changes nothing; two handlers at once are the subject
    of [request_access_task] below.  The result is None when the handler has
    returned inside the section. *)
Definition locked_section (mem : Member) (gid : Z) (reaction_role : ReactionRole)
  : M (option (Tester * list TestingRequest * option TestingRequest)) :=
  found <- find_tester (member_id mem) ;;
  let t0 :=
    match found with
    | None => new_Tester (member_name mem) (member_id mem)
    | Some t => with_discord_id (member_id mem) (with_username (member_name mem) t)
    end in
  t <- upsert_tester t0 ;;
  existing_testing_requests <-
    list_requests (discord_id t) (Some (app_ids reaction_role)) FilterALL true ;;
  created <-
    (if Nat.eqb (length existing_testing_requests) 0
     then r <- add_request
                 (new_TestingRequest (tester_id t) (discord_id t)
                    (hd None (app_ids reaction_role)) gid) ;;
          ret (Some (Some r))
     else if existsb (fun r => status_eqb (status r) REJECTED)
                     existing_testing_requests
          then ret None
          else ret (Some None)) ;;
  match created with
  | None => ret None
  | Some testing_request =>
      if negb (has_email t)
      then registration_branch mem t ;; ret None
      else ret (Some (t, existing_testing_requests, testing_request))
  end.

(** The end of [handle_role_reaction], for a reaction role with apps: the
    section under the lock, then the notification of the new request, or of
    the oldest existing one. *)
Definition request_access (mem : Member) (gid : Z) (reaction_role : ReactionRole)
  : M unit :=
  locked <- locked_section mem gid reaction_role ;;
  match locked with
  | None => ret tt
  | Some (t, existing_testing_requests, testing_request) =>
      match existing_testing_requests with
      | [] =>
          r <- deref testing_request ;;
          send_request_notification_message (member_id mem) t r
      | oldest_existing_request :: _ =>
          send_request_notification_message (member_id mem) t
            oldest_existing_request
      end
  end.

Definition handle_role_reaction (payload : Payload) : M unit :=
  cache <- gets watched_message_ids ;;
  watched <- (if Nat.ltb 0 (length cache) then ret cache
              else list_watched_message_ids) ;;
  if negb (mem_Z (message_id payload) watched) then ret tt
  else
  match member payload with
  | None => ret tt
  | Some mem =>
  match guild_id payload with
  | None => ret tt
  | Some gid =>
  g <- gets (get_guild gid) ;;
  match g with
  | None => ret tt
  | Some guild =>
  rr <- get_reaction_role gid (message_id payload) (emoji payload) ;;
  match rr with
  | None => ret tt
  | Some reaction_role =>
  stop <-
    (if requires_rules_approval reaction_role
     then
       rule_agreement_role <- get_rule_agreement_role_id gid ;;
       match rule_agreement_role with
       | Some role =>
           if negb (mem_Z role (member_roles mem))
           then rules_not_agreed gid guild mem ;; ret true
           else ret false
       | None => ret false
       end
     else ret false) ;;
  if stop then ret tt
  else
  fetched <- mapM fetch_app (app_ids reaction_role) ;;
  the_apps <- mapM deref fetched ;;
  let not_open_betas :=
    map app_name (filter (fun a => negb (beta_open a)) the_apps) in
  if negb (Nat.eqb (length not_open_betas) 0)
  then
    ch <- gets (get_channel (channel_id payload)) ;;
    deref ch ;;
    member_send (member_id mem)
      (TxtBetasNotOpen (map app_name the_apps) not_open_betas) ;;
    ret tt
  else
  if Nat.eqb (length (app_ids reaction_role)) 0
     || existsb (fun a => match a with None => true | Some _ => false end)
                (app_ids reaction_role)
  then
    match guild_get_role guild (role_id reaction_role) with
    | None => ret tt
    | Some role =>
        if negb (mem_Z role (member_roles mem))
        then add_roles mem [Some role]
        else ret tt
    end
  else request_access mem gid reaction_role
  end end end end.

(** The three reported failures of the distribution API; only the invalid
    attribute is raised again, and a failure of no listed class falls out of
    the [match] with nothing done. *)
Definition add_tester_to_group (payload : Payload) (t : Tester) (a : App) : M unit :=
  catch
    (testers_with_email <- find_beta_tester (email t) (Some a) ;;
     let groups_for_testers := concat (map beta_group_ids testers_with_email) in
     if mem_Z (beta_group_id a) groups_for_testers then ret tt
     else create_beta_tester a (email t) (given_name t) (family_name t))
    (fun error =>
       match error with
       | AppStoreConnectError failure =>
           channel <- gets (get_channel (channel_id payload)) ;;
           ch <- deref channel ;;
           match failure with
           | ApiKeyNotSetError =>
               mem <- deref (member payload) ;;
               channel_send ch (TxtNoApiKey (member_id mem) a)
                 (Some (message_id payload)) ;;
               ret tt
           | BetaGroupNotSetError =>
               mem <- deref (member payload) ;;
               channel_send ch (TxtNoBetaGroup (member_id mem) a)
                 (Some (message_id payload)) ;;
               ret tt
           | InvalidAttributeError details =>
               mem <- deref (member payload) ;;
               channel_send ch (TxtInvalidAttribute (member_id mem) details)
                 (Some (message_id payload)) ;;
               raise error
           | GenericAppStoreConnectError => ret tt
           end
       | _ => raise error
       end).

(** The tail of [handle_role_approval] and of [handle_role_rejection]: the
    other notification messages of the request are marked. *)
Definition mark_other_messages (channel : option Z) (payload : Payload)
  (testing_request : TestingRequest) (mark : list Message -> M unit)
  (failure : string) (msg : Message) : M bool :=
  catch
    (others <- get_other_request_messages channel (message_id payload)
                 testing_request ;;
     match fst others, snd others with
     | [], [] => ret false
     | cached_messages, non_cached_messages =>
         task_group (mark cached_messages ;; mark non_cached_messages) ;;
         ret true
     end)
    (fun e =>
       match e with
       | DiscordException =>
           raise (ReactionRoleError failure (message_ident msg)
                    (option_map member_id (member payload)))
       | _ => raise e
       end).

Definition handle_role_approval (payload : Payload) : M unit :=
  guild_and_message <- check_valid_role_reaction_channel payload ;;
  match guild_and_message with
  | None => ret tt
  | Some (guild, msg) =>
  let channel := guild_get_channel guild (channel_id payload) in
  the_approval_emojis <- get_approval_emojis (guild_id payload) ;;
  if negb (mem_string (emoji payload) the_approval_emojis) then ret tt
  else
  found <- fetch_request (message_id payload) ;;
  match found with
  | None =>
      ch <- deref channel ;;
      call OpTyping ;;
      mem <- deref (member payload) ;;
      channel_send ch (TxtNoRequestForApproval (member_id mem) (emoji payload))
        (Some (message_ident msg)) ;;
      ret tt
  | Some testing_request =>
  if status_eqb (status testing_request) REJECTED
  then
    ch <- deref channel ;;
    channel_send ch (TxtPreviouslyRejected testing_request)
      (Some (message_ident msg)) ;;
    ret tt
  else
  let is_previously_approved_testing_request := approved testing_request in
  fetched <- task_group
               (t <- fetch_tester (tester testing_request) ;;
                a <- fetch_app (app testing_request) ;;
                ret (t, a)) ;;
  let mention := option_map member_id (member payload) in
  match fst fetched with
  | None =>
      raise (ReactionRoleError "could not find tester" (message_ident msg) mention)
  | Some t =>
  match snd fetched with
  | None =>
      raise (ReactionRoleError "Failed to fetch app" (message_ident msg) mention)
  | Some a =>
  let testing_request := with_status APPROVED testing_request in
  added <- catch (add_tester_to_group payload t a ;; ret true)
                 (fun e =>
                    match e with
                    | AppStoreConnectError (InvalidAttributeError _) => ret false
                    | _ => raise e
                    end) ;;
  if negb added then ret tt
  else
  let roles := map (guild_get_role guild) (app_reaction_roles_ids testing_request) in
  (match roles with
   | [] => ret tt
   | _ =>
       tester_member <- gets (guild_get_member guild (discord_id t)) ;;
       tester_user <- deref tester_member ;;
       if forallb (fun r => match r with
                            | Some role => mem_Z role (member_roles tester_user)
                            | None => false
                            end) roles
       then ret tt
       else
         catch (add_roles tester_user roles)
               (fun e =>
                  match e with
                  | DiscordException =>
                      raise (ReactionRoleError "failed to add roles to member"
                               (message_ident msg) mention)
                  | _ => raise e
                  end)
   end) ;;
  (if negb is_previously_approved_testing_request
   then
     catch (send_approval_notification testing_request t)
           (fun e =>
              match e with
              | DiscordException =>
                  raise (ReactionRoleError "failed to send notification"
                           (message_ident msg) mention)
              | _ => raise e
              end)
   else ret tt) ;;
  catch (update_request testing_request)
        (fun e =>
           match e with
           | AirTableError _ =>
               raise (ReactionRoleError
                        "Failed to mark request as approved in airtable"
                        (message_ident msg) mention)
           | _ => raise e
           end) ;;
  catch (add_reaction (message_ident msg) "✅")
        (fun e =>
           match e with
           | DiscordException =>
               raise (ReactionRoleError "failed to mark message with ✅"
                        (message_ident msg) mention)
           | _ => raise e
           end) ;;
  mark_other_messages channel payload testing_request
    mark_request_message_approved "failed to mark other message with ✔️" msg ;;
  ret tt
  end end end end.

Definition handle_role_rejection (payload : Payload) : M bool :=
  guild_and_message <- check_valid_role_reaction_channel payload ;;
  match guild_and_message with
  | None => ret false
  | Some (guild, msg) =>
  let channel := guild_get_channel guild (channel_id payload) in
  the_rejection_emojis <- get_rejection_emojis (guild_id payload) ;;
  if negb (mem_string (emoji payload) the_rejection_emojis) then ret false
  else
  found <- fetch_request (message_id payload) ;;
  match found with
  | None =>
      ch <- deref channel ;;
      call OpTyping ;;
      mem <- deref (member payload) ;;
      channel_send ch (TxtNoRequestForRejection (member_id mem) (emoji payload))
        (Some (message_ident msg)) ;;
      ret false
  | Some testing_request =>
  if status_eqb (status testing_request) APPROVED
  then
    ch <- deref channel ;;
    channel_send ch (TxtPreviouslyApproved testing_request)
      (Some (message_ident msg)) ;;
    ret true
  else
  let mention := option_map member_id (member payload) in
  let testing_request := with_status REJECTED testing_request in
  catch (update_request testing_request)
        (fun e =>
           match e with
           | AirTableError _ =>
               raise (ReactionRoleError
                        "Failed to mark request as rejected in airtable"
                        (message_ident msg) mention)
           | _ => raise e
           end) ;;
  catch (add_reaction (message_ident msg) "⛔")
        (fun e =>
           match e with
           | DiscordException =>
               raise (ReactionRoleError "failed to mark message with ⛔"
                        (message_ident msg) mention)
           | _ => raise e
           end) ;;
  mark_other_messages channel payload testing_request
    mark_request_message_rejected "failed to mark other message with 🚫" msg ;;
  ret true
  end end.

(** The [except AppStoreConnectError] clause of [remove_tester_from_app_store].
    Its first two cases format the local [app], which is bound only once the
    loop over the apps of a beta group has run ([bound_app]). *)
Definition removal_failure_reported (payload : Payload) (bound_app : option App)
  (error : exn) : M unit :=
  match error with
  | AppStoreConnectError failure =>
      channel <- gets (get_channel (channel_id payload)) ;;
      ch <- deref channel ;;
      match failure with
      | ApiKeyNotSetError =>
          match bound_app with
          | None => raise NameError
          | Some a =>
              mem <- deref (member payload) ;;
              channel_send ch (TxtNoApiKey (member_id mem) a)
                (Some (message_id payload)) ;;
              ret tt
          end
      | BetaGroupNotSetError =>
          match bound_app with
          | None => raise NameError
          | Some a =>
              mem <- deref (member payload) ;;
              channel_send ch (TxtNoBetaGroup (member_id mem) a)
                (Some (message_id payload)) ;;
              ret tt
          end
      | InvalidAttributeError details =>
          mem <- deref (member payload) ;;
          channel_send ch (TxtInvalidAttribute (member_id mem) details)
            (Some (message_id payload)) ;;
          raise error
      | GenericAppStoreConnectError => ret tt
      end
  | _ => raise error
  end.

(** [{a.app_store_key_id: a for a in apps}]: a key keeps its first position
    and its last value. *)
Fixpoint dict_set (k : Z) (v : App) (d : list (Z * App)) : list (Z * App) :=
  match d with
  | [] => [(k, v)]
  | (k', v') :: d' =>
      if k' =? k then (k, v) :: d' else (k', v') :: dict_set k v d'
  end.

Definition apps_by_key (l : list App) : list App :=
  map snd (fold_left (fun d a => dict_set (app_store_key_id a) a d) l []).

(** The loop over the testers found, for a removal from all apps.  The result
    is None when the [except] clause has ended the function. *)
Fixpoint remove_from_all_groups (payload : Payload) (found : list BetaTester)
  (bound_app : option App) (removed_app_ids : list Z)
  : M (option (option App * list Z)) :=
  match found with
  | [] => ret (Some (bound_app, removed_app_ids))
  | app_store_tester :: rest =>
      listed <- catch (l <- find_apps_by_beta_group (beta_group_ids app_store_tester) ;;
                       ret (Some l))
                      (fun e => removal_failure_reported payload bound_app e ;;
                                ret None) ;;
      match listed with
      | None => ret None
      | Some apps_for_beta_group =>
          let to_delete := apps_by_key apps_for_beta_group in
          task_group
            (forM_ to_delete
               (fun a => delete_beta_tester (beta_tester_id app_store_tester) a)) ;;
          remove_from_all_groups payload rest
            (match rev to_delete with a :: _ => Some a | [] => bound_app end)
            (removed_app_ids ++ map app_id to_delete)
      end
  end.

(** [remove_tester_from_app_store(payload, tester)]: the engine calls it with
    no [apps], the removal from all apps. *)
Definition remove_tester_from_app_store (payload : Payload) (t : Tester) : M unit :=
  first <- catch
    (testers_with_email <- find_beta_tester (email t) None ;;
     channel <- gets (get_channel (channel_id payload)) ;;
     ch <- deref channel ;;
     match testers_with_email with
     | [] =>
         mem <- deref (member payload) ;;
         channel_send ch (TxtNoTestersWithEmail (member_id mem) (email t))
           (Some (message_id payload)) ;;
         ret None
     | _ => ret (Some testers_with_email)
     end)
    (fun e => removal_failure_reported payload None e ;; ret None) ;;
  match first with
  | None => ret tt
  | Some testers_with_email =>
      looped <- remove_from_all_groups payload testers_with_email None [] ;;
      match looped with
      | None => ret tt
      | Some (bound_app, removed_app_ids) =>
          catch
            (records_to_update <-
               list_requests (discord_id t) (Some (map Some removed_app_ids))
                 FilterAPPROVED true ;;
             update_requests (map (with_removed true) records_to_update))
            (removal_failure_reported payload bound_app)
      end
  end.

Definition handle_removal_reaction (payload : Payload) : M bool :=
  guild_and_message <- check_valid_role_reaction_channel payload ;;
  match guild_and_message with
  | None => ret false
  | Some (guild, msg) =>
      add_reaction (message_ident msg) processing_emoji ;;
      the_removal_emojis <- get_removal_emojis (guild_id payload) ;;
      if negb (mem_string (emoji payload) the_removal_emojis) then ret false
      else
        found <- find_tester_by_leave_message (message_id payload) ;;
        match found with
        | None =>
            ch <- deref (guild_get_channel guild (channel_id payload)) ;;
            channel_send ch (TxtNoTesterForLeaveMessage (message_id payload)) None ;;
            ret false
        | Some t =>
            remove_tester_from_app_store payload t ;;
            add_reaction (message_ident msg) "🚪" ;;
            ret true
        end
  end.

(** The [try] block of [handle_reaction]; its value is [handled]. *)
Definition handle_reaction_try (payload : Payload) : M bool :=
  match event_type payload with
  | REACTION_ADD =>
      handle_role_reaction payload ;;
      handle_role_approval payload ;;
      rejected <- handle_role_rejection payload ;;
      if rejected then ret true else handle_removal_reaction payload
  | REACTION_REMOVE => ret false
  end.

(** The two [except] clauses of [handle_reaction]. *)
Definition handle_reaction_except (payload : Payload) (e : exn) : M bool :=
  match e with
  | AirTableError err =>
      reaction_channel <- get_or_fetch_channel (Some (channel_id payload)) ;;
      in_approval_channel <-
        match guild_id payload with
        | Some gid => is_approval_channel (channel_id payload) gid
        | None => ret false
        end ;;
      channel <-
        (if in_approval_channel then ret reaction_channel
         else d <- get_default_approvals_channel_id (guild_id payload) ;;
              get_or_fetch_channel d) ;;
      mem <- deref (member payload) ;;
      channel_send channel (TxtFailedToHandle (member_id mem) err)
        (Some (message_id payload)) ;;
      ret false
  | ReactionRoleError err reference mention =>
      channel <- get_or_fetch_channel (Some (channel_id payload)) ;;
      channel_send channel (TxtReactionRoleError mention err) (Some reference) ;;
      ret true
  | _ => raise e
  end.

(** The [finally] clause of [handle_reaction]. *)
Definition handle_reaction_finally (payload : Payload) : M unit :=
  channel <- gets (get_channel (channel_id payload)) ;;
  msg <- get_or_fetch_message channel (message_id payload) ;;
  remove_reaction (message_ident msg) processing_emoji.

Definition handle_reaction (payload : Payload) : M bool :=
  try_finally
    (catch (handle_reaction_try payload) (handle_reaction_except payload))
    (handle_reaction_finally payload).

(** [fetch_apps_for_tester] returns an async generator: the app of a request
    is fetched when the consumer, [consume], asks for the next one. *)
Definition fetch_apps_for_tester {A : Type} (user : Z)
  (approval_filter : RequestApprovalFilter) (consume : option App -> M A)
  : M (list A) :=
  rs <- list_requests user None approval_filter true ;;
  mapM (fun r => a <- fetch_app (app r) ;; consume a) rs.

Definition on_raw_member_remove (payload : MemberRemovePayload) : M unit :=
  exit_notification_channel_id <-
    get_tester_exit_notification_channel (leaving_guild payload) ;;
  match exit_notification_channel_id with
  | None => ret tt
  | Some cid =>
      user_testing_apps <-
        fetch_apps_for_tester (leaving_user payload) FilterAPPROVED
          (fun t => a <- deref t ;; ret (app_name a)) ;;
      if Nat.eqb (length user_testing_apps) 0 then ret tt
      else
        channel <- gets (get_channel cid) ;;
        match channel with
        | None => ret tt
        | Some exit_notification_channel =>
            msg <- channel_send exit_notification_channel
                     (TxtTesterLeft (leaving_user payload) user_testing_apps) None ;;
            found <- find_tester (leaving_user payload) ;;
            match found with
            | None =>
                channel_send exit_notification_channel
                  (TxtNoTesterRecord (leaving_user payload)) None ;;
                ret tt
            | Some t =>
                let t' := with_leave_message_ids
                            (leave_message_ids t ++ [message_ident msg]) t in
                catch (upsert_tester t' ;; ret tt)
                      (fun e =>
                         match e with
                         | AirTableError err =>
                             channel_send exit_notification_channel
                               (TxtFailedToUpdateTester t' err) None ;;
                             ret tt
                         | _ => raise e
                         end)
            end
        end
  end.

(** ** Vocabulary of the statements *)

Definition result {A : Type} (m : M A) (w : World) : outcome A := fst (m w).

Definition after {A : Type} (m : M A) (w : World) : World := snd (m w).

(** No external call fails. *)
Definition no_faults (w : World) : Prop := forall n op, faults w n op = None.

(** Only the calls [op] fail, each time with [e]. *)
Definition only_fails (op : Op) (e : exn) (w : World) : Prop :=
  forall n o, faults w n o = if Op_eqb o op then Some e else None.

(** The message [get_or_fetch_message] yields when no call fails. *)
Definition resolve_message (channel mid : Z) (w : World) : option Message :=
  match cached_message mid w with
  | Some m => Some m
  | None => find_message channel mid w
  end.

(** [is_approval_channel], read off the stores. *)
Definition approval_channel_of (w : World) (channel gid : Z) : bool :=
  mem_Z channel (approvals_channel_ids w)
  || opt_Z_eqb (Some channel)
       (match guild_config gid w with
        | Some c => default_approvals_channel_id c
        | None => None
        end).

(** [check_valid_role_reaction_channel], read off the stores, for an event
    whose channel and message resolve. *)
Definition valid_role_reaction_channel (payload : Payload) (w : World)
  : option (Guild * Message) :=
  match guild_id payload with
  | None => None
  | Some gid =>
      if negb (approval_channel_of w (channel_id payload) gid) then None
      else
        match get_guild gid w with
        | None => None
        | Some guild =>
            match get_channel (channel_id payload) w with
            | None => None
            | Some c =>
                match resolve_message c (message_id payload) w with
                | None => None
                | Some msg =>
                    if negb (message_author msg =? bot_user w) then None
                    else Some (guild, msg)
                end
            end
        end
  end.

(** The watched message ids [handle_role_reaction] works with. *)
Definition watched (w : World) : list Z :=
  if Nat.ltb 0 (length (watched_message_ids w)) then watched_message_ids w
  else stored_watched_message_ids w.

(** An emoji set of a guild, empty when it is not configured. *)
Definition configured (key : GuildConfig -> option (list string)) (gid : Z)
  (w : World) : list string :=
  match match guild_config gid w with
        | Some c => key c
        | None => None
        end
  with
  | Some l => l
  | None => []
  end.


(** The tester-exit notification channel configured for a guild. *)
Definition exit_channel_of (gid : Z) (w : World) : option Z :=
  match guild_config gid w with
  | Some c => tester_exit_notification_channel c
  | None => None
  end.

(** The approved requests of a user that are not removed. *)
Definition approved_requests (user : Z) (w : World) : list TestingRequest :=
  filter (request_matches user None FilterAPPROVED true) (requests w).

Definition app_of (r : TestingRequest) (known : list App) : option App :=
  match app r with
  | None => None
  | Some a => find (fun x => app_id x =? a) known
  end.

(** The names of the apps of the requests, when every app is on record. *)
Fixpoint names_of (rs : list TestingRequest) (known : list App)
  : option (list string) :=
  match rs with
  | [] => Some []
  | r :: rs' =>
      match app_of r known, names_of rs' known with
      | Some a, Some l => Some (app_name a :: l)
      | _, _ => None
      end
  end.

(** What a read leaves as it is, among what [on_raw_member_remove] looks at. *)
Definition quiet (w w' : World) : Prop :=
  trace w' = trace w /\ channels w' = channels w /\ testers w' = testers w.

(** The reaction role of an event, read off the store. *)
Definition reaction_role_of (payload : Payload) (gid : Z) (w : World)
  : option ReactionRole :=
  find (fun rr => (rr_server_id rr =? gid) && (rr_message_id rr =? message_id payload)
                  && String.eqb (rr_emoji rr) (emoji payload)) (reaction_roles w).

(** The member has agreed to the rules, where the role asks for it and the
    guild has a rules role. *)
Definition rules_in_order (rr : ReactionRole) (mem : Member) (gid : Z) (w : World)
  : bool :=
  if requires_rules_approval rr
  then match match guild_config gid w with
             | Some c => rule_agreement_role_id c
             | None => None
             end
       with
       | Some role => mem_Z role (member_roles mem)
       | None => true
       end
  else true.

(** The apps of the ids, when each id is an app on record. *)
Fixpoint apps_of (ids : list (option Z)) (known : list App) : option (list App) :=
  match ids with
  | [] => Some []
  | None :: _ => None
  | Some a :: rest =>
      match find (fun x => app_id x =? a) known, apps_of rest known with
      | Some ap, Some l => Some (ap :: l)
      | _, _ => None
      end
  end.

(** The event asks for access to apps: the message is watched, the member,
    the guild and the reaction role are known, the rules are agreed to, and
    the role has apps, all on record and all with an open beta. *)
Definition asks_for_access (payload : Payload) (w : World) (mem : Member) (gid : Z)
  (rr : ReactionRole) : Prop :=
  mem_Z (message_id payload) (watched w) = true
  /\ member payload = Some mem
  /\ guild_id payload = Some gid
  /\ get_guild gid w <> None
  /\ reaction_role_of payload gid w = Some rr
  /\ rules_in_order rr mem gid w = true
  /\ app_ids rr <> []
  /\ exists l, apps_of (app_ids rr) (apps w) = Some l
               /\ forallb beta_open l = true.

(** The tester record of a member, and whether it has an email. *)
Definition tester_on_record (mem : Member) (w : World) : option Tester :=
  find (fun t => discord_id t =? member_id mem) (testers w).

Definition email_on_file (mem : Member) (w : World) : bool :=
  match tester_on_record mem w with
  | Some t => has_email t
  | None => false
  end.

(** The registration prompt last sent to a member, if any. *)
Definition prior_prompt (mem : Member) (w : World) : option Z :=
  match tester_on_record mem w with
  | Some t => registration_message_id t
  | None => None
  end.

(** The requests of a member for the apps of a role that are not removed, as
    [handle_role_reaction] lists them. *)
Definition existing_requests (mem : Member) (rr : ReactionRole) (w : World)
  : list TestingRequest :=
  filter (request_matches (member_id mem) (Some (app_ids rr)) FilterALL true)
         (requests w).

Definition any_rejected (rs : list TestingRequest) : bool :=
  existsb (fun r => status_eqb (status r) REJECTED) rs.

(** The default approval channel of a guild, when the client resolves it. *)
Definition default_channel (gid : Z) (w : World) : option Z :=
  match match guild_config gid w with
        | Some c => default_approvals_channel_id c
        | None => None
        end
  with
  | Some c => get_channel c w
  | None => None
  end.

(** The reply or notification a channel or a person can read. *)
Definition is_send (e : Effect) : bool :=
  match e with
  | EChannelSend _ _ _ _ | EMemberSend _ _ _ => true
  | _ => false
  end.


Definition is_request_write (e : Effect) : bool :=
  match e with
  | EAddRequest _ | EUpdateRequest _ | EUpdateRequests _ => true
  | _ => false
  end.

Definition is_new_request (e : Effect) : bool :=
  match e with EAddRequest _ => true | _ => false end.

Definition is_approval_channel_notification (e : Effect) : bool :=
  match e with
  | EChannelSend _ (TxtRequestNotification _ _ _ _ _) _ _ => true
  | _ => false
  end.

Definition is_registration_prompt (e : Effect) : bool :=
  match e with
  | EMemberSend _ TxtRegistration _ => true
  | _ => false
  end.

Definition is_reaction (emoji_name : string) (e : Effect) : bool :=
  match e with
  | EAddReaction _ x => String.eqb x emoji_name
  | _ => false
  end.


Definition is_tester_write (e : Effect) : bool :=
  match e with EUpsertTester _ => true | _ => false end.


(** The record store, the member roles and the distribution groups of [w']
    are those of [w]. *)
Definition unchanged_stores (w w' : World) : Prop :=
  requests w' = requests w /\ testers w' = testers w /\ members w' = members w
  /\ beta_testers w' = beta_testers w.

(** The effects of [w'] that [w] did not have yet, newest first. *)
Definition new_effects (w w' : World) : list Effect :=
  firstn (length (trace w') - length (trace w)) (trace w').

(** Message [mid] shows the bot's processing marker. *)
Definition shows_processing_marker (mid : Z) (w : World) : bool :=
  existsb (fun m => (message_ident m =? mid)
                    && carries_by processing_emoji (bot_user w) m) (messages w).

(** What a handler never changes: the fault table, the channels the client
    resolves, the identity of the bot; and a message, once there, stays (with
    its id and channel). *)
Definition stable (w w' : World) : Prop :=
  faults w' = faults w
  /\ channels w' = channels w
  /\ bot_user w' = bot_user w
  /\ forall c mid, find_message c mid w <> None -> find_message c mid w' <> None.

(** [R] relates a world to every world a computation may leave behind when it
    only makes calls. *)
Class Frame (R : World -> World -> Prop) : Prop := {
  frame_refl : forall w, R w w;
  frame_trans : forall a b c, R a b -> R b c -> R a c;
  frame_calls : forall w n, R w (set_calls n w)
}.

(** [R] moreover does not look at the ids drawn, the effects logged, the
    messages sent or the beta groups. *)
Class OutwardFrame (R : World -> World -> Prop) : Prop := {
  outward_frame :: Frame R;
  frame_next_id : forall w z, R w (set_next_id z w);
  frame_trace : forall w t, R w (set_trace t w);
  frame_new_message : forall w m, R w (set_messages (messages w ++ [m]) w);
  frame_beta_testers : forall w bs, R w (set_beta_testers bs w)
}.

(** [m] leaves every world in relation [R] with the world it started from,
    whatever its outcome. *)
Definition preserves (R : World -> World -> Prop) {A : Type} (m : M A) : Prop :=
  forall w, R w (after m w).

(** *** The registration prompt *)

Definition same_setting (w w' : World) : Prop :=
  guilds w' = guilds w /\ channels w' = channels w
  /\ reaction_roles w' = reaction_roles w /\ apps w' = apps w
  /\ guild_configs w' = guild_configs w /\ faults w' = faults w
  /\ watched w' = watched w.

Definition ids_are_fresh (w : World) : Prop :=
  forall m, In m (messages w) -> message_ident m < next_id w.

(** The world [W] in which [handle_role_reaction], started in [w], reaches the
    check of the tester's email, with the upserted tester [t]. *)
Definition reached_email_check (w W : World) (mem : Member) (rr : ReactionRole)
  (t : Tester) : Prop :=
  same_setting w W
  /\ messages W = messages w
  /\ utcnow W = utcnow w
  /\ next_id w <= next_id W
  /\ tester_on_record mem W = Some t
  /\ discord_id t = member_id mem
  /\ email t = match tester_on_record mem w with Some s => email s | None => None end
  /\ registration_message_id t = prior_prompt mem w
  /\ filter is_send (trace W) = filter is_send (trace w).

Definition recent_prompt (mem : Member) (w : World) : option bool :=
  match prior_prompt mem w with
  | None => Some false
  | Some rid =>
      match find_message (member_id mem) rid w with
      | Some prev => Some (created_at prev >? utcnow w - 30 * 60)
      | None => None
      end
  end.

Definition sends (w : World) : list Effect := filter is_send (trace w).

(** [w'] is [w] after one registration prompt, message [prompt], to the member. *)
Definition prompted (w w' : World) (mem : Member) (rr : ReactionRole) (prompt : Z)
  : Prop :=
  same_setting w w'
  /\ email_on_file mem w' = false
  /\ any_rejected (existing_requests mem rr w') = false
  /\ prior_prompt mem w' = Some prompt
  /\ (exists m, find_message (member_id mem) prompt w' = Some m
                /\ created_at m = utcnow w)
  /\ sends w' = EMemberSend (member_id mem) TxtRegistration prompt :: sends w.

(** *** The creation of a request *)

(** The end of [handle_role_reaction], from [if not tester.email:] on: the
    email check, then the notification of the created request or of the
    oldest listed one. *)
Definition after_creation (mem : Member) (t : Tester) (existing : list TestingRequest)
  (created : option TestingRequest) : M unit :=
  locked <- (if negb (has_email t)
             then registration_branch mem t ;; ret None
             else ret (Some (t, existing, created))) ;;
  match locked with
  | None => ret tt
  | Some (t, existing_testing_requests, testing_request) =>
      match existing_testing_requests with
      | [] =>
          r <- deref testing_request ;;
          send_request_notification_message (member_id mem) t r
      | oldest_existing_request :: _ =>
          send_request_notification_message (member_id mem) t
            oldest_existing_request
      end
  end.

Definition new_requests (w : World) : list Effect := filter is_new_request (trace w).

(** The world [W] in which [handle_role_reaction], started in [w], has
    upserted the tester [t] and has created the request [created], if any. *)
Definition creation_step (w W : World) (mem : Member) (rr : ReactionRole) (gid : Z)
  (t : Tester) (created : option TestingRequest) : Prop :=
  same_setting w W
  /\ tester_on_record mem W = Some t
  /\ discord_id t = member_id mem
  /\ has_email t = email_on_file mem w
  /\ sends W = sends w
  /\ match created with
     | None => requests W = requests w /\ new_requests W = new_requests w
     | Some r =>
         requests W = requests w ++ [r]
         /\ new_requests W = EAddRequest r :: new_requests w
         /\ status r = PENDING
         /\ tester_discord_id r = member_id mem
         /\ app r = hd None (app_ids rr)
         /\ server_id r = gid
         /\ approval_channel_id r = None
         /\ notification_message_id r = None
     end.

(** No request was added between [w] and [w']. *)
Definition no_new_request (w w' : World) : Prop :=
  length (requests w') = length (requests w) /\ new_requests w' = new_requests w.

(** The channel a request is notified in, when the client resolves it. *)
Definition notification_channel (r : TestingRequest) (w : World) : option Z :=
  match approval_channel_id r with
  | Some c => get_channel c w
  | None => default_channel (server_id r) w
  end.

(** The notification of a request of [user], as
    [send_request_notification_message] words it. *)
Definition request_notification (user : Z) (r : TestingRequest) : Text :=
  let is_repeat := py_truthy (notification_message_id r) in
  TxtRequestNotification is_repeat
    (if is_repeat then option_map py_int (notification_message_id r) else None)
    (is_repeat && approved r) user r.

Definition notifications (w : World) : list Effect :=
  filter is_approval_channel_notification (trace w).

(** Nothing was sent to an approval channel between [w] and [w']. *)
Definition unnotified (w w' : World) : Prop := notifications w' = notifications w.

(** *** The approval of a request *)

(** The tester of a request, as [fetch_tester] finds it. *)
Definition tester_of (r : TestingRequest) (w : World) : option Tester :=
  match tester r with
  | Some i => find (fun t => opt_Z_eqb (tester_id t) (Some i)) (testers w)
  | None => None
  end.

(** The event is an approval of request [r] of tester [t] for app [a], by
    member [mem] in channel [c]: the checks of the approval channel pass, the
    emoji is an approval emoji, and the request, which is not REJECTED, its
    tester and its app are on record. *)
Definition approves (payload : Payload) (w : World) (guild : Guild) (msg : Message)
  (c : Z) (mem : Member) (r : TestingRequest) (t : Tester) (a : App) : Prop :=
  exists gid,
    guild_id payload = Some gid
    /\ approval_channel_of w (channel_id payload) gid = true
    /\ get_guild gid w = Some guild
    /\ get_channel (channel_id payload) w = Some c
    /\ resolve_message c (message_id payload) w = Some msg
    /\ message_author msg = bot_user w
    /\ mem_string (emoji payload) (configured approval_emojis gid w) = true
    /\ member payload = Some mem
    /\ find (request_has_message (message_id payload)) (requests w) = Some r
    /\ status r <> REJECTED
    /\ tester_of r w = Some t
    /\ app_of r (apps w) = Some a.


(** The member holds every role of the list. *)
Definition holds_all (m : Member) (roles : list Z) : bool :=
  forallb (fun role => mem_Z role (member_roles m)) roles.

(** ** Two handlers at once

    [handle_role_reaction] takes the lock of the acting user for the lookup
    and the creation of the tester and of the request: [self.tester_locks] is a
    [WeakValueDictionary] of [asyncio.Lock], and [setdefault] hands the lock
    of a user to every handler of that user for as long as one of them holds
    it or waits for it.  Between two awaits a handler runs alone; at an await
    the event loop may give the turn to another handler. *)

(** A handler as the event loop sees it.  [Await m cleanup k]: the handler
    runs [m], which holds one call, up to its next [await], where another
    handler may run, and goes on with the value of [m]; an exception of [m]
    ends the handler, after [cleanup].  [Acquire] and [Release] are the entry
    and the exit of [async with lock]. *)
Inductive Task : Type :=
| Finished
| Await {A : Type} (m : M A) (cleanup : Task) (k : A -> Task)
| Acquire (key : Z) (k : Task)
| Release (key : Z) (k : Task).

(** The three awaits of [send_request_notification_message]: the default
    approval channel, the message, the update of the request. *)
Definition resolve_approval_channel (request : TestingRequest)
  : M (option (option Z)) :=
  match approval_channel_id request with
  | Some c => known <- gets (get_channel c) ;; ret (Some known)
  | None =>
      d <- get_default_approvals_channel_id (Some (server_id request)) ;;
      match d with
      | Some c =>
          known <- gets (get_channel c) ;;
          ret match known with Some ch => Some (Some ch) | None => None end
      | None => ret None
      end
  end.

Definition post_request_notification (user : Z) (request : TestingRequest)
  (approval_channel : option Z) : M Message :=
  let is_repeat := py_truthy (notification_message_id request) in
  original <-
    (if is_repeat
     then ch <- deref approval_channel ;;
          ret (option_map py_int (notification_message_id request))
     else ret None) ;;
  ch <- deref approval_channel ;;
  channel_send ch
    (TxtRequestNotification is_repeat original
       (is_repeat && approved request) user request) None.

Definition store_notification (request : TestingRequest) (msg : Message) : M unit :=
  let is_repeat := py_truthy (notification_message_id request) in
  stored <- gets stored_message_id ;;
  let request' :=
    if negb is_repeat
    then with_notification_message_id (Some (PInt (message_ident msg))) request
    else add_further_notification_message_id (stored (message_ident msg)) request in
  update_request request'.

(** ** The event loop *)

Definition remove_key (key : Z) (held : list Z) : list Z :=
  filter (fun k => negb (k =? key)) held.

(** One turn of a task: None when it has finished or waits for a lock. *)
Definition turn (t : Task) (held : list Z) (w : World)
  : option (Task * list Z * World) :=
  match t with
  | Finished => None
  | Await m cleanup k =>
      match m w with
      | (Returned a, w') => Some (k a, held, w')
      | (Raised _, w') => Some (cleanup, held, w')
      end
  | Acquire k t' => if mem_Z k held then None else Some (t', k :: held, w)
  | Release k t' => Some (t', remove_key k held, w)
  end.

(** Two handlers, the locks that are held, and the world. *)
Record Loop : Type := mkLoop {
  first_task : Task;
  second_task : Task;
  locks : list Z;
  loop_world : World
}.

(** The event loop gives a turn to the first ([false]) or to the second
    ([true]) handler; a handler that cannot run leaves the loop as it is. *)
Definition schedule_turn (who : bool) (s : Loop) : Loop :=
  if who
  then match turn (second_task s) (locks s) (loop_world s) with
       | Some (t, held, w) => mkLoop (first_task s) t held w
       | None => s
       end
  else match turn (first_task s) (locks s) (loop_world s) with
       | Some (t, held, w) => mkLoop t (second_task s) held w
       | None => s
       end.

Definition event_loop (schedule : list bool) (s : Loop) : Loop :=
  fold_left (fun s who => schedule_turn who s) schedule s.

Definition finished (s : Loop) : Prop :=
  first_task s = Finished /\ second_task s = Finished.

(** A handler alone. *)
Fixpoint alone (fuel : nat) (t : Task) (held : list Z) (w : World)
  : Task * list Z * World :=
  match fuel with
  | O => (t, held, w)
  | S n =>
      match turn t held w with
      | Some (t', held', w') => alone n t' held' w'
      | None => (t, held, w)
      end
  end.

(** The ids of the requests on record were drawn before [w]. *)
Definition fresh_requests (w : World) : Prop :=
  forall s i, In s (requests w) -> request_id s = Some i -> i < next_id w.

Section Tasks.

(** The key of the lock is the id of the acting user. *)
Variables (key : Z) (mem : Member) (gid : Z) (reaction_role : ReactionRole).

(** An await inside [async with]: an exception releases the lock. *)
Definition locked {A : Type} (m : M A) (k : A -> Task) : Task :=
  Await m (Release key Finished) k.

Definition unlocked {A : Type} (m : M A) (k : A -> Task) : Task :=
  Await m Finished k.

Definition store_task (request : TestingRequest) (msg : Message) : Task :=
  unlocked (store_notification request msg) (fun _ => Finished).

Definition post_task (request : TestingRequest) (approval_channel : option Z) : Task :=
  unlocked (post_request_notification (member_id mem) request approval_channel)
    (store_task request).

Definition notification_task (request : TestingRequest) : Task :=
  unlocked (resolve_approval_channel request) (fun resolved =>
  match resolved with
  | None => Finished
  | Some approval_channel => post_task request approval_channel
  end).

Definition persist_task (t : Tester) (registration_message : Message) : Task :=
  locked (upsert_tester
            (with_registration_message_id
               (Some (message_ident registration_message)) t)) (fun _ =>
  Release key Finished).

Definition prompt_task (t : Tester) : Task :=
  locked (send_registration_message mem) (persist_task t).

Definition registration_task (t : Tester) : Task :=
  match registration_message_id t with
  | Some registration_message =>
      locked (previous <- member_fetch_message (member_id mem) registration_message ;;
              now <- gets utcnow ;;
              ret (created_at previous >? now - 30 * 60)) (fun recent =>
      if recent then Release key Finished else prompt_task t)
  | None => prompt_task t
  end.

Definition email_task (t : Tester) (existing_testing_requests : list TestingRequest)
  (testing_request : option TestingRequest) : Task :=
  if negb (has_email t) then registration_task t
  else
    Release key
      match existing_testing_requests with
      | [] =>
          match testing_request with
          | Some r => notification_task r
          | None => Finished
          end
      | oldest_existing_request :: _ => notification_task oldest_existing_request
      end.

Definition add_task (t : Tester) (existing_testing_requests : list TestingRequest)
  : Task :=
  locked (add_request
            (new_TestingRequest (tester_id t) (discord_id t)
               (hd None (app_ids reaction_role)) gid)) (fun r =>
  email_task t existing_testing_requests (Some r)).

Definition list_task (t : Tester) : Task :=
  locked (list_requests (discord_id t) (Some (app_ids reaction_role)) FilterALL true)
    (fun existing_testing_requests =>
  if Nat.eqb (length existing_testing_requests) 0
  then add_task t existing_testing_requests
  else if existsb (fun r => status_eqb (status r) REJECTED) existing_testing_requests
       then Release key Finished
       else email_task t existing_testing_requests None).

Definition upsert_task (found : option Tester) : Task :=
  let t0 :=
    match found with
    | None => new_Tester (member_name mem) (member_id mem)
    | Some t => with_discord_id (member_id mem) (with_username (member_name mem) t)
    end in
  locked (upsert_tester t0) list_task.

Definition find_task : Task :=
  locked (find_tester (member_id mem)) upsert_task.

(** [request_access], await by await. *)
Definition request_access_task : Task := Acquire key find_task.

(** *** What the two handlers have done so far

    [w0] is the world in which the two reactions arrive. *)

Variable w0 : World.

Definition is_member (t : Tester) : bool := discord_id t =? member_id mem.

Definition listed : TestingRequest -> bool :=
  request_matches (member_id mem) (Some (app_ids reaction_role)) FilterALL true.

(** Neither the tester nor a request of theirs is on record. *)
Definition untouched (w : World) : Prop :=
  filter is_member (testers w) = []
  /\ filter listed (requests w) = []
  /\ length (testers w) = length (testers w0)
  /\ length (requests w) = length (requests w0).

Definition tester_created (w : World) : Prop :=
  length (filter is_member (testers w)) = 1%nat
  /\ filter listed (requests w) = []
  /\ length (testers w) = S (length (testers w0))
  /\ length (requests w) = length (requests w0).

(** [r] is the request with id [rid], as a handler holds it. *)
Definition version (rid : Z) (r : TestingRequest) : Prop :=
  request_id r = Some rid /\ status r = PENDING /\ listed r = true.

Definition both_created (rid : Z) (w : World) : Prop :=
  length (filter is_member (testers w)) = 1%nat
  /\ (exists r, filter listed (requests w) = [r] /\ version rid r)
  /\ (forall s, In s (requests w) -> request_id s = Some rid -> listed s = true)
  /\ rid < next_id w
  /\ length (testers w) = S (length (testers w0))
  /\ length (requests w) = S (length (requests w0)).

(** The handler that entered the locked section first, up to the creation of
    the request. *)
Inductive opening (w : World) : Task -> Prop :=
| opening_find : untouched w -> opening w find_task
| opening_upsert found : untouched w -> opening w (upsert_task found)
| opening_list t : is_member t = true -> tester_created w -> opening w (list_task t)
| opening_add t : is_member t = true -> tester_created w -> opening w (add_task t []).

(** A handler that has left the locked section. *)
Inductive outside (rid : Z) : Task -> Prop :=
| outside_finished : outside rid Finished
| outside_notification r : version rid r -> outside rid (notification_task r)
| outside_post r ch : version rid r -> outside rid (post_task r ch)
| outside_store r msg : version rid r -> outside rid (store_task r msg).

(** A handler in the locked section, once the request is on record. *)
Inductive holding (rid : Z) : Task -> Prop :=
| holding_find : holding rid find_task
| holding_upsert found : holding rid (upsert_task found)
| holding_list t : is_member t = true -> holding rid (list_task t)
| holding_registration t : is_member t = true -> holding rid (registration_task t)
| holding_prompt t : is_member t = true -> holding rid (prompt_task t)
| holding_persist t msg : is_member t = true -> holding rid (persist_task t msg)
| holding_release k : outside rid k -> holding rid (Release key k).

(** A handler that does not hold the lock. *)
Definition free (rid : Z) (t : Task) : Prop :=
  t = request_access_task \/ outside rid t.

Definition invariant (s : Loop) : Prop :=
  let w := loop_world s in
  no_faults w
  /\ fresh_requests w
  /\ ((first_task s = request_access_task /\ second_task s = request_access_task
       /\ locks s = [] /\ untouched w)
      \/ (opening w (first_task s) /\ second_task s = request_access_task
          /\ locks s = [key])
      \/ (first_task s = request_access_task /\ opening w (second_task s)
          /\ locks s = [key])
      \/ exists rid,
           both_created rid w
           /\ ((holding rid (first_task s) /\ free rid (second_task s)
                /\ locks s = [key])
               \/ (free rid (first_task s) /\ holding rid (second_task s)
                   /\ locks s = [key])
               \/ (free rid (first_task s) /\ free rid (second_task s)
                   /\ locks s = []))).

End Tasks.

(** The event loop gives the turns to the two handlers in alternation. *)
Definition taking_turns (n : nat) : list bool :=
  flat_map (fun _ => [false; true]) (seq 0 n).

(** ** A small server, used by the examples below

    One guild (10) with two approval channels, 20 for the requests and 22 for
    the notices of testers who left, and a sign-up channel (21); the bot is
    user 1, the moderator user 200, the tester user 100.  Message 500 is the
    watched sign-up post; the apple emoji on it asks for access to app 40,
    whose testers get role 30. *)
Module Sample.

Definition never : nat -> Op -> option exn := fun _ _ => None.

Definition failing (op : Op) (e : exn) : nat -> Op -> option exn :=
  fun _ o => if Op_eqb o op then Some e else None.

Definition the_guild : Guild := mkGuild 10 [20; 21; 22] [30; 31].

Definition app_a : App := mkApp 40 "App A" true 41 42.

Definition config : GuildConfig :=
  mkGuildConfig (Some ["👍"]) (Some ["👎"]) (Some ["🗑️"]) (Some 20) (Some 31)
    None (Some 22).

Definition signup_post : Message := mkMessage 500 21 200 0 [] true TxtOther.

Definition tester_member : Member := mkMember 10 100 "tess" [31].

Definition moderator : Member := mkMember 10 200 "mod" [].

Definition world : World :=
  mkWorld 1 [the_guild] [20; 21; 22] [tester_member; moderator] [signup_post]
    [500] [500] [20; 22]
    [mkReactionRole 10 500 "🍎" 30 [Some 40] false]
    [app_a] [] [] PStr [(10, config)] []
    1000 100000 0%nat never [].

(** The tester asks for access to app 40. *)
Definition signup_reaction : Payload :=
  mkPayload REACTION_ADD 100 500 21 (Some 10) "🍎" (Some tester_member).

(** The moderator reacts to message [m] of channel [c]. *)
Definition moderator_reaction (e : string) (c m : Z) : Payload :=
  mkPayload REACTION_ADD 200 m c (Some 10) e (Some moderator).

Definition registered_tester : Tester :=
  mkTester (Some 900) "tess" 100 (Some "tess@example.org") "Tess" "Ter" None [].

Definition unregistered_tester : Tester :=
  mkTester (Some 900) "tess" 100 None "" "" None [].

(** A message of the bot in channel [c]. *)
Definition bot_message (i c : Z) (rs : list (string * Z)) : Message :=
  mkMessage i c 1 50 rs true TxtOther.

Definition request_of (st : RequestStatus) (n : option pyid) (further : list pyid)
  : TestingRequest :=
  mkTestingRequest (Some 950) (Some 900) 100 (Some 40) 10 None st n further
    false 10 [30].

(** The world once a request of the registered tester was notified in message
    600 of channel 20, and again in the [further] messages, with status [st];
    [extra] are the other messages of the bot. *)
Definition world_with_request (st : RequestStatus) (further : list pyid)
  (extra : list Message) : World :=
  set_messages (signup_post :: bot_message 600 20 [] :: extra)
    (set_requests [request_of st (Some (PStr 600)) further]
       (set_testers [registered_tester] world)).

(** A notice "the tester has left" (message 700, channel 22) that no tester
    record refers to. *)
Definition leave_world : World :=
  set_messages [signup_post; bot_message 700 22 []]
    (set_testers [registered_tester] world).




(** A reaction of the tester to the sign-up post that is mapped to nothing. *)
Definition unmapped_reaction : Payload :=
  mkPayload REACTION_ADD 100 500 21 (Some 10) "🍌" (Some tester_member).


Definition tester_leaves : MemberRemovePayload := mkMemberRemovePayload 100 10.

(** The tester of notice 700 is on record, and the distribution API has no
    credentials. *)
Definition departed_tester : Tester :=
  mkTester (Some 900) "tess" 100 (Some "tess@example.org") "Tess" "Ter" None [700].

Definition departed_world : World :=
  set_faults (failing OpFindBetaTester (AppStoreConnectError ApiKeyNotSetError))
    (set_messages [signup_post; bot_message 700 22 []]
       (set_testers [departed_tester] world)).



End Sample.

(** ** Vocabulary of the further properties *)

(** What no handler changes of the client and of the configuration. *)
Definition same_client (w w' : World) : Prop :=
  faults w' = faults w /\ channels w' = channels w /\ bot_user w' = bot_user w
  /\ guilds w' = guilds w /\ approvals_channel_ids w' = approvals_channel_ids w
  /\ guild_configs w' = guild_configs w.

(** The event is a reaction to [msg], a message of the bot in channel [c], an
    approval channel of guild [guild]: the checks of
    [check_valid_role_reaction_channel] pass. *)
Definition reacts_to_bot_message (payload : Payload) (w : World) (gid : Z)
  (guild : Guild) (c : Z) (msg : Message) : Prop :=
  guild_id payload = Some gid
  /\ approval_channel_of w (channel_id payload) gid = true
  /\ get_guild gid w = Some guild
  /\ get_channel (channel_id payload) w = Some c
  /\ resolve_message c (message_id payload) w = Some msg
  /\ message_author msg = bot_user w.

(** A message that resolves in [w] resolves in [w'], with its id and author. *)
Definition keeps_messages (w w' : World) : Prop :=
  forall c mid m,
    resolve_message c mid w = Some m ->
    exists m', resolve_message c mid w' = Some m'
               /\ message_ident m' = message_ident m
               /\ message_author m' = message_author m.

(** The requests are those of [w]. *)
Definition same_requests (w w' : World) : Prop := requests w' = requests w.

(** The email of the tester is in the beta group of the app already, as
    [add_tester_to_group] finds out. *)
Definition in_beta_group (t : Tester) (a : App) (w : World) : bool :=
  mem_Z (beta_group_id a)
    (concat (map beta_group_ids
               (filter (fun b => opt_string_eqb (beta_tester_email b) (email t))
                       (beta_testers w)))).

(** The event is a reaction of member [mem] to a watched message, mapped to
    the reaction role [rr] of guild [guild]. *)
Definition reacts_for_role (payload : Payload) (w : World) (mem : Member) (gid : Z)
  (guild : Guild) (rr : ReactionRole) : Prop :=
  mem_Z (message_id payload) (watched w) = true
  /\ member payload = Some mem
  /\ guild_id payload = Some gid
  /\ get_guild gid w = Some guild
  /\ reaction_role_of payload gid w = Some rr.

(** What a member who has not agreed to the rules is told: the reminder links
    the rules message when one is configured, and nothing is sent when the
    channel of that message is not a channel of the guild. *)
Definition rules_reminder (gid : Z) (guild : Guild) (w : World) : option Text :=
  match match guild_config gid w with
        | Some c => rule_agreement_message c
        | None => None
        end
  with
  | Some (Some ch, Some msg) =>
      match guild_get_channel guild ch with
      | Some _ => Some (TxtRulesNotAgreed (Some (ch, msg)))
      | None => None
      end
  | _ => Some (TxtRulesNotAgreed None)
  end.

(** The event is no reaction of a guild member to a watched message that is
    mapped to a reaction role. *)
Definition unmapped (payload : Payload) (w : World) : Prop :=
  mem_Z (message_id payload) (watched w) = false
  \/ member payload = None
  \/ match guild_id payload with
     | None => True
     | Some gid => get_guild gid w = None \/ reaction_role_of payload gid w = None
     end.

(** The store keeps the id of a further notification as the integer it was
    given or as its decimal string. *)
Definition keeps_ids (w : World) : Prop :=
  forall z, py_int (stored_message_id w z) = z.

(** No request refers to the message that will be sent next. *)
Definition notes_are_past (w : World) : Prop :=
  forall s, In s (requests w) -> request_has_message (next_id w) s = false.

(** The apps a beta tester is deleted from: the apps on record for one of its
    beta groups, one per API key. *)
Definition apps_to_leave (b : BetaTester) (known : list App) : list App :=
  apps_by_key (filter (fun a => mem_Z (beta_group_id a) (beta_group_ids b)) known).

(** The deletions [remove_tester_from_app_store] asks the distribution API
    for, in order, and the ids of the apps they concern. *)
Definition deletions (found : list BetaTester) (known : list App) : list Effect :=
  flat_map (fun b => map (EDeleteBetaTester (beta_tester_id b)) (apps_to_leave b known))
           found.

Definition left_apps (found : list BetaTester) (known : list App) : list Z :=
  flat_map (fun b => map app_id (apps_to_leave b known)) found.

(** [w'] is [w] but for the beta testers, the effects logged and the count of
    calls. *)
Definition but_for_beta_testers (w w' : World) : Prop :=
  faults w' = faults w /\ apps w' = apps w /\ requests w' = requests w
  /\ testers w' = testers w /\ members w' = members w /\ messages w' = messages w
  /\ bot_user w' = bot_user w /\ next_id w' = next_id w.

(** Every request of the list names an app. *)
Definition all_name_an_app (rs : list TestingRequest) : bool :=
  forallb (fun r => match app r with Some _ => true | None => false end) rs.

(** ** More of the small server

    The server of [Sample] in other states: a request without its tester, a
    store that is down, rules to agree to, a closed beta, a role without an
    app, a notification that is gone, a tester in a beta group, and so on. *)
Module Cases.

(** The request of message 600, whose tester has no record. *)
Definition untested_world : World :=
  set_testers [] (Sample.world_with_request PENDING [] []).

(** The record store is down for the lookup of a request. *)
Definition store_down : World :=
  set_faults (Sample.failing OpFetchRequest (AirTableError "down"))
    (Sample.world_with_request PENDING [] []).

(** The sign-up post asks for agreement to the rules (role 31), which are in
    message 510 of channel 21; a newcomer has no role yet. *)
Definition rules_config : GuildConfig :=
  mkGuildConfig (Some ["👍"]) (Some ["👎"]) (Some ["🗑️"]) (Some 20) (Some 31)
    (Some (Some 21, Some 510)) (Some 22).

Definition newcomer : Member := mkMember 10 101 "newt" [].

Definition newcomer_reaction : Payload :=
  mkPayload REACTION_ADD 101 500 21 (Some 10) "🍎" (Some newcomer).

Definition strict_world : World :=
  mkWorld 1 [Sample.the_guild] [20; 21; 22] [Sample.tester_member; newcomer]
    [Sample.signup_post] [500] [500] [20; 22]
    [mkReactionRole 10 500 "🍎" 30 [Some 40] true]
    [Sample.app_a] [] [] PStr [(10, rules_config)] []
    1000 100000 0%nat Sample.never [].

(** App 40 has closed its beta. *)
Definition closed_app : App := mkApp 40 "App A" false 41 42.

Definition closed_world : World :=
  mkWorld 1 [Sample.the_guild] [20; 21; 22] [Sample.tester_member]
    [Sample.signup_post] [500] [500] [20; 22]
    [mkReactionRole 10 500 "🍎" 30 [Some 40] false]
    [closed_app] [] [] PStr [(10, Sample.config)] []
    1000 100000 0%nat Sample.never [].

(** The bell on the sign-up post gives role 30 at once: it has no app. *)
Definition bell_world : World :=
  mkWorld 1 [Sample.the_guild] [20; 21; 22] [Sample.tester_member]
    [Sample.signup_post] [500] [500] [20; 22]
    [mkReactionRole 10 500 "🔔" 30 [] false]
    [Sample.app_a] [] [] PStr [(10, Sample.config)] []
    1000 100000 0%nat Sample.never [].

Definition bell_reaction : Payload :=
  mkPayload REACTION_ADD 100 500 21 (Some 10) "🔔" (Some Sample.tester_member).


(** The tester of notice 700 is in the beta group of app 40. *)
Definition enrolled_world : World :=
  set_beta_testers [mkBetaTester 800 (Some "tess@example.org") [41]]
    (set_requests [Sample.request_of APPROVED (Some (PStr 600)) []]
       (set_messages [Sample.signup_post; Sample.bot_message 700 22 []]
          (set_testers [Sample.departed_tester] Sample.world))).

(** An approved request for app 41, of which the store has no record. *)
Definition forgotten_app_world : World :=
  set_requests
    [mkTestingRequest (Some 950) (Some 900) 100 (Some 41) 10 None APPROVED
       (Some (PStr 600)) [] false 10 [30]]
    (set_testers [Sample.registered_tester] Sample.world).

(** The tester was prompted in message 777, which is no longer there. *)
Definition lost_prompt_world : World :=
  set_testers [mkTester (Some 900) "tess" 100 None "" "" (Some 777) []] Sample.world.

(** The lookup in the distribution API fails for no distinguished reason. *)
Definition flaky_world : World :=
  set_faults
    (Sample.failing OpFindBetaTester (AppStoreConnectError GenericAppStoreConnectError))
    Sample.departed_world.

(** The tester of the request of message 600 is no member of the guild any more. *)
Definition departed_member_world : World :=
  set_members [Sample.moderator] (Sample.world_with_request PENDING [] []).

End Cases.

(** * Reasoning about handlers

    [wp m w Q]: running [m] from [w] ends in an outcome and a world that
    satisfy [Q].  One rule per combinator of the monad; a handler is verified
    by applying the rules along its text. *)

Definition wp {A : Type} (m : M A) (w : World) (Q : outcome A -> World -> Prop)
  : Prop :=
  Q (result m w) (after m w).

Section Rules.

Context {A B : Type}.

Lemma wp_ret (a : A) w (Q : outcome A -> World -> Prop) :
  Q (Returned a) w -> wp (ret a) w Q.
Proof. exact (fun H => H). Qed.

Lemma wp_raise e w (Q : outcome A -> World -> Prop) :
  Q (Raised e) w -> wp (raise e) w Q.
Proof. exact (fun H => H). Qed.

Lemma wp_gets (f : World -> A) w (Q : outcome A -> World -> Prop) :
  Q (Returned (f w)) w -> wp (gets f) w Q.
Proof. exact (fun H => H). Qed.

Lemma wp_bind (m : M A) (k : A -> M B) w (Q : outcome B -> World -> Prop) :
  wp m w (fun r w' => match r with
                      | Returned a => wp (k a) w' Q
                      | Raised e => Q (Raised e) w'
                      end) ->
  wp (bind m k) w Q.
Proof.
  unfold wp, result, after, bind.
  destruct (m w) as [[a | e] w']; cbn; auto.
Qed.

Lemma wp_catch (m : M A) (h : exn -> M A) w (Q : outcome A -> World -> Prop) :
  wp m w (fun r w' => match r with
                      | Returned a => Q (Returned a) w'
                      | Raised e => wp (h e) w' Q
                      end) ->
  wp (catch m h) w Q.
Proof.
  unfold wp, result, after, catch.
  destruct (m w) as [[a | e] w']; cbn; auto.
Qed.

Lemma wp_try_finally (m : M A) (c : M unit) w (Q : outcome A -> World -> Prop) :
  wp m w (fun r w' =>
            wp c w' (fun rc w'' => match rc with
                                   | Returned _ => Q r w''
                                   | Raised e => Q (Raised e) w''
                                   end)) ->
  wp (try_finally m c) w Q.
Proof.
  unfold wp, result, after, try_finally.
  destruct (m w) as [r w']; cbn.
  destruct (c w') as [[u | e] w'']; cbn; auto.
Qed.

Lemma wp_weaken (m : M A) w (Q Q' : outcome A -> World -> Prop) :
  wp m w Q -> (forall r w', Q r w' -> Q' r w') -> wp m w Q'.
Proof. unfold wp. auto. Qed.

End Rules.

Lemma wp_modify f w (Q : outcome unit -> World -> Prop) :
  Q (Returned tt) (f w) -> wp (modify f) w Q.
Proof. exact (fun H => H). Qed.

Lemma wp_fresh_id w (Q : outcome Z -> World -> Prop) :
  Q (Returned (next_id w)) (set_next_id (next_id w + 1) w) -> wp fresh_id w Q.
Proof. exact (fun H => H). Qed.

Lemma wp_call op w (Q : outcome unit -> World -> Prop) :
  match faults w (calls w) op with
  | Some e => Q (Raised e) (set_calls (S (calls w)) w)
  | None => Q (Returned tt) (set_calls (S (calls w)) w)
  end ->
  wp (call op) w Q.
Proof.
  unfold wp, result, after, call.
  destruct (faults w (calls w) op); cbn; auto.
Qed.

(** Projections of an updated world. *)
Ltac wproj :=
  cbn [fst snd negb
       bot_user guilds channels members messages watched_message_ids
       stored_watched_message_ids approvals_channel_ids reaction_roles apps
       testers requests stored_message_id guild_configs beta_testers next_id
       utcnow calls faults trace
       set_calls set_messages set_members set_watched_message_ids set_testers
       set_requests set_beta_testers set_next_id set_utcnow set_trace set_faults
       update_message].

Ltac wproj_in H :=
  cbn [fst snd negb
       bot_user guilds channels members messages watched_message_ids
       stored_watched_message_ids approvals_channel_ids reaction_roles apps
       testers requests stored_message_id guild_configs beta_testers next_id
       utcnow calls faults trace
       set_calls set_messages set_members set_watched_message_ids set_testers
       set_requests set_beta_testers set_next_id set_utcnow set_trace set_faults
       update_message] in H.

(** One rule, chosen by the head of the computation. *)
Ltac wp_rule :=
  lazymatch goal with
  | |- wp (bind _ _) _ _ => apply wp_bind
  | |- wp (ret _) _ _ => apply wp_ret
  | |- wp (raise _) _ _ => apply wp_raise
  | |- wp (gets _) _ _ => apply wp_gets
  | |- wp (modify _) _ _ => apply wp_modify
  | |- wp (call _) _ _ => apply wp_call
  | |- wp (catch _ _) _ _ => apply wp_catch
  | |- wp (try_finally _ _) _ _ => apply wp_try_finally
  | |- wp fresh_id _ _ => apply wp_fresh_id
  | |- wp (task_group _) _ _ => unfold task_group
  | |- wp (emit _) _ _ => unfold emit
  | |- wp (deref _) _ _ => unfold deref
  | |- wp (fetch_message _ _) _ _ => unfold fetch_message
  | |- wp (new_message _ _) _ _ => unfold new_message
  | |- wp (channel_send _ _ _) _ _ => unfold channel_send
  | |- wp (member_send _ _) _ _ => unfold member_send
  | |- wp (member_fetch_message _ _) _ _ => unfold member_fetch_message
  | |- wp (add_reaction _ _) _ _ => unfold add_reaction
  | |- wp (remove_reaction _ _) _ _ => unfold remove_reaction
  | |- wp (get_or_fetch_channel _) _ _ => unfold get_or_fetch_channel
  | |- wp (get_or_fetch_user _) _ _ => unfold get_or_fetch_user
  | |- wp list_watched_message_ids _ _ => unfold list_watched_message_ids
  | |- wp (get_reaction_role _ _ _) _ _ => unfold get_reaction_role
  | |- wp (fetch_app _) _ _ => unfold fetch_app
  | |- wp (find_tester _) _ _ => unfold find_tester
  | |- wp (upsert_tester _) _ _ => unfold upsert_tester
  | |- wp (list_requests _ _ _ _) _ _ => unfold list_requests
  | |- wp (add_request _) _ _ => unfold add_request
  | |- wp (update_request _) _ _ => unfold update_request
  | |- wp (update_requests _) _ _ => unfold update_requests
  | |- wp (fetch_request _) _ _ => unfold fetch_request
  | |- wp (fetch_tester _) _ _ => unfold fetch_tester
  | |- wp (find_tester_by_leave_message _) _ _ => unfold find_tester_by_leave_message
  | |- wp (find_apps_by_beta_group _) _ _ => unfold find_apps_by_beta_group
  | |- wp (get_config _ _) _ _ => unfold get_config
  | |- wp (get_rule_agreement_role_id _) _ _ => unfold get_rule_agreement_role_id
  | |- wp (get_default_approvals_channel_id _) _ _ =>
      unfold get_default_approvals_channel_id
  | |- wp (get_tester_exit_notification_channel _) _ _ =>
      unfold get_tester_exit_notification_channel
  | |- wp (find_beta_tester _ _) _ _ => unfold find_beta_tester
  | |- wp (create_beta_tester _ _ _ _) _ _ => unfold create_beta_tester
  | |- wp (delete_beta_tester _ _) _ _ => unfold delete_beta_tester
  | |- wp (get_rule_agreement_message _) _ _ => unfold get_rule_agreement_message
  | |- wp (get_approval_emojis _) _ _ => unfold get_approval_emojis
  | |- wp (get_rejection_emojis _) _ _ => unfold get_rejection_emojis
  | |- wp (get_removal_emojis _) _ _ => unfold get_removal_emojis
  | |- wp (send_registration_message _) _ _ => unfold send_registration_message
  | |- wp (send_approval_notification _ _) _ _ => unfold send_approval_notification
  end.

(** Reads of a world that only differs from [w] where the read does not look
    are reads of [w]. *)
Ltac wnorm1 w :=
  match goal with
  | |- context [get_guild ?a ?W] =>
      lazymatch W with w => fail | _ => change (get_guild a W) with (get_guild a w) end
  | |- context [get_channel ?a ?W] =>
      lazymatch W with w => fail | _ => change (get_channel a W) with (get_channel a w) end
  | |- context [guild_config ?a ?W] =>
      lazymatch W with w => fail | _ => change (guild_config a W) with (guild_config a w) end
  | |- context [cached_message ?a ?W] =>
      lazymatch W with w => fail
      | _ => change (cached_message a W) with (cached_message a w) end
  | |- context [find_message ?a ?b ?W] =>
      lazymatch W with w => fail
      | _ => change (find_message a b W) with (find_message a b w) end
  | |- context [guild_get_member ?a ?b ?W] =>
      lazymatch W with w => fail
      | _ => change (guild_get_member a b W) with (guild_get_member a b w) end
  | |- context [roles_for_app ?a ?W] =>
      lazymatch W with w => fail
      | _ => change (roles_for_app a W) with (roles_for_app a w) end
  | |- context [resolve_message ?a ?b ?W] =>
      lazymatch W with w => fail
      | _ => change (resolve_message a b W) with (resolve_message a b w) end
  | |- context [approval_channel_of ?W ?a ?b] =>
      lazymatch W with w => fail
      | _ => change (approval_channel_of W a b) with (approval_channel_of w a b) end
  | |- context [configured ?a ?b ?W] =>
      lazymatch W with w => fail
      | _ => change (configured a b W) with (configured a b w) end
  | |- context [valid_role_reaction_channel ?a ?W] =>
      lazymatch W with w => fail
      | _ => change (valid_role_reaction_channel a W)
             with (valid_role_reaction_channel a w) end
  | |- context [reaction_role_of ?a ?b ?W] =>
      lazymatch W with w => fail
      | _ => change (reaction_role_of a b W) with (reaction_role_of a b w) end
  | |- context [rules_in_order ?a ?b ?c ?W] =>
      lazymatch W with w => fail
      | _ => change (rules_in_order a b c W) with (rules_in_order a b c w) end
  | |- context [tester_on_record ?a ?W] =>
      lazymatch W with w => fail
      | _ => change (tester_on_record a W) with (tester_on_record a w) end
  | |- context [existing_requests ?a ?b ?W] =>
      lazymatch W with w => fail
      | _ => change (existing_requests a b W) with (existing_requests a b w) end
  | |- context [default_channel ?a ?W] =>
      lazymatch W with w => fail
      | _ => change (default_channel a W) with (default_channel a w) end
  end.

Ltac wnorm w := repeat wnorm1 w.

Ltac wp_simpl := cbv beta iota zeta; wproj.

Ltac wp_steps := wp_simpl; repeat (wp_rule; wp_simpl).

(** The same, with the fault table of [w] consulted by [look]. *)
Ltac wp_run_with look w :=
  wp_simpl; wnorm w;
  repeat (first [ wp_rule | look ]; wp_simpl; wnorm w).

(** No call fails ([Hnf : no_faults w]). *)
Ltac wp_run Hnf w := wp_run_with ltac:(rewrite Hnf) w.

(** Only one kind of call fails ([Hof : only_fails op e w]). *)
Ltac wp_run_failing Hof w := wp_run_with ltac:(rewrite Hof; cbn [Op_eqb]) w.

Lemma set_calls_same w : set_calls (calls w) w = w.
Proof. destruct w; reflexivity. Qed.

(** ** Reads, when no call fails

    Each lemma runs one read of the engine from [w] and hands the value to the
    continuation, in a world that differs from [w] by the count of calls. *)

Lemma wp_is_approval_channel w channel gid (Q : outcome bool -> World -> Prop) :
  no_faults w ->
  (forall n, Q (Returned (approval_channel_of w channel gid)) (set_calls n w)) ->
  wp (is_approval_channel channel gid) w Q.
Proof.
  intros Hnf HQ. unfold is_approval_channel, approval_channel_of in *.
  wp_run Hnf w.
  destruct (mem_Z channel (approvals_channel_ids w)) eqn:E.
  - wp_run Hnf w. specialize (HQ (calls w)).
    rewrite set_calls_same in HQ. exact HQ.
  - wp_run Hnf w. apply HQ.
Qed.

Lemma wp_get_or_fetch_message w c mid msg (Q : outcome Message -> World -> Prop) :
  no_faults w ->
  resolve_message c mid w = Some msg ->
  (forall n, Q (Returned msg) (set_calls n w)) ->
  wp (get_or_fetch_message (Some c) mid) w Q.
Proof.
  intros Hnf Hm HQ. unfold resolve_message in Hm.
  unfold get_or_fetch_message. wp_run Hnf w.
  destruct (cached_message mid w) as [m |].
  - inversion Hm; subst m. wp_run Hnf w.
    rewrite <- (set_calls_same w). apply HQ.
  - wp_run Hnf w. rewrite Hm. wp_run Hnf w. apply HQ.
Qed.

Lemma wp_check_valid w payload gid guild msg c
  (Q : outcome (option (Guild * Message)) -> World -> Prop) :
  no_faults w ->
  guild_id payload = Some gid ->
  approval_channel_of w (channel_id payload) gid = true ->
  get_guild gid w = Some guild ->
  get_channel (channel_id payload) w = Some c ->
  resolve_message c (message_id payload) w = Some msg ->
  message_author msg = bot_user w ->
  (forall n, Q (Returned (Some (guild, msg))) (set_calls n w)) ->
  wp (check_valid_role_reaction_channel payload) w Q.
Proof.
  intros Hnf Hgid Hap Hg Hc Hm Hauth HQ.
  unfold check_valid_role_reaction_channel. rewrite Hgid.
  wp_run Hnf w. apply wp_is_approval_channel; [ exact Hnf | ].
  intro n. rewrite Hap.
  wp_run Hnf w. rewrite Hg. wp_run Hnf w.
  unfold is_own_message. wp_run Hnf w. rewrite Hc.
  apply wp_get_or_fetch_message with (msg := msg); [ exact Hnf | exact Hm | ].
  intro k. wp_run Hnf w. rewrite Hauth, Z.eqb_refl. wp_run Hnf w. apply HQ.
Qed.

(** ** Preservation

    Relations that every step of a handler respects are respected by the
    handler, on each of its paths and whatever fails. *)

Section Preservation.

Context {R : World -> World -> Prop} {HR : Frame R}.

Lemma preserves_ret {A : Type} (a : A) : preserves R (ret a).
Proof. intro w. apply frame_refl. Qed.

Lemma preserves_raise {A : Type} e : preserves R (raise (A := A) e).
Proof. intro w. apply frame_refl. Qed.

Lemma preserves_gets {A : Type} (f : World -> A) : preserves R (gets f).
Proof. intro w. apply frame_refl. Qed.

Lemma preserves_bind {A B : Type} (m : M A) (k : A -> M B) :
  preserves R m -> (forall a, preserves R (k a)) -> preserves R (bind m k).
Proof.
  intros Hm Hk w. specialize (Hm w). unfold after, bind in *.
  destruct (m w) as [[a | e] w']; cbn in *; [ | exact Hm ].
  eapply frame_trans; [ exact Hm | apply Hk ].
Qed.

Lemma preserves_catch {A : Type} (m : M A) (h : exn -> M A) :
  preserves R m -> (forall e, preserves R (h e)) -> preserves R (catch m h).
Proof.
  intros Hm Hh w. specialize (Hm w). unfold after, catch in *.
  destruct (m w) as [[a | e] w']; cbn in *; [ exact Hm | ].
  eapply frame_trans; [ exact Hm | apply Hh ].
Qed.

Lemma preserves_try_finally {A : Type} (m : M A) (c : M unit) :
  preserves R m -> preserves R c -> preserves R (try_finally m c).
Proof.
  intros Hm Hc w. specialize (Hm w). unfold after, try_finally in *.
  destruct (m w) as [r w']; cbn in *. specialize (Hc w'). unfold after in Hc.
  destruct (c w') as [[u | e] w'']; cbn in *;
    exact (frame_trans _ _ _ Hm Hc).
Qed.

Lemma preserves_mapM {A B : Type} (f : A -> M B) l :
  (forall a, preserves R (f a)) -> preserves R (mapM f l).
Proof.
  intro Hf. induction l as [| a l IH]; cbn [mapM].
  - apply preserves_ret.
  - apply preserves_bind; [ apply Hf | intro b ].
    apply preserves_bind; [ exact IH | intro bs; apply preserves_ret ].
Qed.

Lemma preserves_forM_ {A : Type} (l : list A) (f : A -> M unit) :
  (forall a, preserves R (f a)) -> preserves R (forM_ l f).
Proof.
  intro Hf. induction l as [| a l IH]; cbn [forM_].
  - apply preserves_ret.
  - apply preserves_bind; [ apply Hf | intro; exact IH ].
Qed.

Lemma preserves_call op : preserves R (call op).
Proof.
  intro w. unfold after, call.
  destruct (faults w (calls w) op); apply frame_calls.
Qed.

Lemma preserves_modify f : (forall w, R w (f w)) -> preserves R (modify f).
Proof. intros H w. apply H. Qed.

End Preservation.

Section Outward_preservation.

Context {R : World -> World -> Prop} {HR : OutwardFrame R}.

Lemma preserves_fresh_id : preserves R fresh_id.
Proof. intro w. apply frame_next_id. Qed.

Lemma preserves_emit e : preserves R (emit e).
Proof. intro w. apply frame_trace. Qed.

Lemma preserves_new_message c t : preserves R (new_message c t).
Proof.
  unfold new_message.
  apply preserves_bind; [ apply preserves_fresh_id | intro i ].
  apply preserves_bind; [ apply preserves_gets | intro now ].
  apply preserves_bind; [ apply preserves_gets | intro bot ].
  apply preserves_bind; [ | intro; apply preserves_ret ].
  apply preserves_modify. intro w. apply frame_new_message.
Qed.

Lemma preserves_set_beta_testers (f : World -> list BetaTester) :
  preserves R (modify (fun w => set_beta_testers (f w) w)).
Proof. intro w. apply frame_beta_testers. Qed.

End Outward_preservation.

Ltac head_of t :=
  lazymatch t with
  | ?f _ => head_of f
  | _ => t
  end.

(** One step along the text of a computation; a [modify] of a store is left
    to the relation at hand. *)
Ltac preserve_step :=
  lazymatch goal with
  | |- preserves _ (bind _ _) => apply preserves_bind; [ | intro ]
  | |- preserves _ (ret _) => apply preserves_ret
  | |- preserves _ (raise _) => apply preserves_raise
  | |- preserves _ (gets _) => apply preserves_gets
  | |- preserves _ (call _) => apply preserves_call
  | |- preserves _ fresh_id => apply preserves_fresh_id
  | |- preserves _ (emit _) => apply preserves_emit
  | |- preserves _ (new_message _ _) => apply preserves_new_message
  | |- preserves _ (modify (set_beta_testers _)) =>
      apply (preserves_set_beta_testers (fun _ => _))
  | |- preserves _ (modify (fun w => set_beta_testers _ w)) =>
      apply (preserves_set_beta_testers (fun w => _))
  | |- preserves _ (modify _) => apply preserves_modify; intro
  | |- preserves _ (catch _ _) => apply preserves_catch; [ | intro ]
  | |- preserves _ (try_finally _ _) => apply preserves_try_finally
  | |- preserves _ (mapM _ _) => apply preserves_mapM; intro
  | |- preserves _ (forM_ _ _) => apply preserves_forM_; intro
  | |- preserves _ (cached_or_fetched _ _) => fail
  | |- preserves _ (remove_from_all_groups _ _ _ _) => fail
  | |- preserves _ (match ?x with _ => _ end) => destruct x
  | |- preserves _ ?m => let h := head_of m in unfold h
  end.

Ltac preserve := repeat (preserve_step; cbv beta iota zeta).

Lemma preserves_cached_or_fetched {R : World -> World -> Prop} {HR : Frame R}
  channel ids :
  preserves R (cached_or_fetched channel ids).
Proof.
  induction ids as [| v rest IH]; cbn [cached_or_fetched]; [ apply preserves_ret | ].
  preserve; exact IH.
Qed.

Section Preservation_of_loops.

Context {R : World -> World -> Prop} {HR : OutwardFrame R}.

Lemma preserves_removal_failure_reported payload bound e :
  preserves R (removal_failure_reported payload bound e).
Proof. preserve. Qed.

Lemma preserves_remove_from_all_groups payload found :
  forall bound removed,
    preserves R (remove_from_all_groups payload found bound removed).
Proof.
  induction found as [| t rest IH]; intros bound removed;
    cbn [remove_from_all_groups]; [ apply preserves_ret | ].
  apply preserves_bind.
  - apply preserves_catch; [ preserve | intro e ].
    apply preserves_bind; [ apply preserves_removal_failure_reported | intro ].
    apply preserves_ret.
  - intros [l |]; [ | apply preserves_ret ].
    apply preserves_bind; [ preserve | intro; apply IH ].
Qed.

End Preservation_of_loops.

(** ** What no handler changes *)

Lemma find_message_app c mid w ms :
  find_message c mid w <> None ->
  find_message c mid (set_messages (messages w ++ ms) w) <> None.
Proof.
  unfold find_message. cbn [messages set_messages].
  induction (messages w) as [| m l IH]; cbn [find List.app]; [ congruence | ].
  destruct ((message_ident m =? mid) && (message_channel m =? c));
    first [ exact IH | intros _; discriminate ].
Qed.

Lemma find_message_update c mid w i f :
  (forall m, message_ident (f m) = message_ident m
             /\ message_channel (f m) = message_channel m) ->
  find_message c mid w <> None ->
  find_message c mid (update_message i f w) <> None.
Proof.
  intro Hf. unfold find_message, update_message. cbn [messages set_messages].
  induction (messages w) as [| m l IH]; cbn [find map]; [ congruence | ].
  destruct (message_ident m =? i).
  - destruct (Hf m) as [-> ->].
    destruct ((message_ident m =? mid) && (message_channel m =? c));
      first [ exact IH | intros _; discriminate ].
  - destruct ((message_ident m =? mid) && (message_channel m =? c));
      first [ exact IH | intros _; discriminate ].
Qed.

Lemma find_message_ident c mid w m :
  find_message c mid w = Some m -> message_ident m = mid.
Proof.
  unfold find_message. intro H. apply find_some in H. destruct H as [_ H].
  apply andb_prop in H. destruct H as [H _]. apply Z.eqb_eq in H. exact H.
Qed.

Lemma cached_message_ident mid w m :
  cached_message mid w = Some m -> message_ident m = mid.
Proof.
  unfold cached_message. intro H. apply find_some in H. destruct H as [_ H].
  apply andb_prop in H. destruct H as [H _]. apply Z.eqb_eq in H. exact H.
Qed.

#[export] Instance stable_frame : Frame stable.
Proof.
  split; unfold stable.
  - intros w. repeat split; auto.
  - intros a b c (F1 & C1 & B1 & M1) (F2 & C2 & B2 & M2).
    repeat split; try congruence. auto.
  - intros w n. repeat split; auto.
Qed.

#[export] Instance stable_outward : OutwardFrame stable.
Proof.
  split; [ exact stable_frame | | | | ]; unfold stable.
  - intros w z. repeat split; auto.
  - intros w t. repeat split; auto.
  - intros w m. repeat split; auto. intros c mid. apply find_message_app.
  - intros w bs. repeat split; auto.
Qed.

(** The stores a handler writes are none of what [stable] speaks of, and a
    reaction leaves the id and the channel of its message alone. *)
Ltac stable_side :=
  lazymatch goal with
  | |- stable _ (update_message _ _ _) =>
      unfold stable; repeat split; try reflexivity;
      intros ? ?; apply find_message_update; intro;
      unfold add_reaction_by, remove_reaction_by;
      repeat match goal with |- context [if ?b then _ else _] => destruct b end;
      split; reflexivity
  | |- stable _ _ => unfold stable; repeat split; auto
  end.

Lemma stable_handle_reaction_try p : preserves stable (handle_reaction_try p).
Proof.
  preserve;
    try apply preserves_cached_or_fetched;
    try apply preserves_remove_from_all_groups;
    try stable_side.
Qed.

Lemma stable_handle_reaction_except p e :
  preserves stable (handle_reaction_except p e).
Proof. preserve; try stable_side. Qed.

(** Once the bot's reaction [e] is taken off message [mid], no message [mid]
    shows it. *)
Lemma marker_removed mid e u l :
  existsb (fun m => (message_ident m =? mid) && carries_by e u m)
    (map (fun m => if message_ident m =? mid then remove_reaction_by e u m else m) l)
  = false.
Proof.
  induction l as [| m l IH]; [ reflexivity | ]. cbn [map existsb].
  rewrite IH, orb_false_r.
  destruct (message_ident m =? mid) eqn:E.
  - cbn [message_ident remove_reaction_by with_reactions]. rewrite E. cbn [andb].
    unfold carries_by. cbn [reactions remove_reaction_by with_reactions].
    induction (reactions m) as [| r rs IHr]; [ reflexivity | ].
    cbn [filter]. destruct (String.eqb (fst r) e && (snd r =? u)) eqn:Er; cbn [negb].
    + exact IHr.
    + cbn [existsb]. rewrite Er, IHr. reflexivity.
  - rewrite E. reflexivity.
Qed.

(** ** More reads *)


Lemma set_watched_same w :
  set_watched_message_ids (watched_message_ids w) (set_calls (calls w) w) = w.
Proof. destruct w; reflexivity. Qed.

Lemma wp_handle_role_reaction_unwatched w payload
  (Q : outcome unit -> World -> Prop) :
  no_faults w ->
  mem_Z (message_id payload) (watched w) = false ->
  (forall n ids, Q (Returned tt) (set_watched_message_ids ids (set_calls n w))) ->
  wp (handle_role_reaction payload) w Q.
Proof.
  intros Hnf Hw HQ. unfold handle_role_reaction, watched in *. wp_run Hnf w.
  destruct (Nat.ltb 0 (length (watched_message_ids w))).
  - wp_run Hnf w. rewrite Hw. wp_run Hnf w.
    rewrite <- (set_watched_same w). apply HQ.
  - wp_run Hnf w. rewrite Hw. wp_run Hnf w. apply HQ.
Qed.

Lemma find_map_update (f : Message -> Message) (i : Z) (P : Message -> bool) l :
  (forall m, P (f m) = P m) ->
  find P (map (fun m => if message_ident m =? i then f m else m) l)
  = option_map (fun m => if message_ident m =? i then f m else m) (find P l).
Proof.
  intro HP. induction l as [| m l IH]; [ reflexivity | ].
  cbn [map find]. destruct (message_ident m =? i) eqn:E.
  - rewrite HP. destruct (P m); [ cbn; rewrite E; reflexivity | exact IH ].
  - destruct (P m); [ cbn; rewrite E; reflexivity | exact IH ].
Qed.

Lemma resolve_message_update c mid w i f :
  (forall m, message_ident (f m) = message_ident m
             /\ message_channel (f m) = message_channel m
             /\ cached (f m) = cached m) ->
  resolve_message c mid (update_message i f w)
  = option_map (fun m => if message_ident m =? i then f m else m)
      (resolve_message c mid w).
Proof.
  intro Hf.
  unfold resolve_message, cached_message, find_message, update_message.
  cbn [messages set_messages].
  rewrite !find_map_update.
  - destruct (find _ (messages w)); reflexivity.
  - intro m. destruct (Hf m) as (-> & -> & _). reflexivity.
  - intro m. destruct (Hf m) as (-> & _ & ->). reflexivity.
Qed.

Lemma resolve_message_ident c mid w m :
  resolve_message c mid w = Some m -> message_ident m = mid.
Proof.
  unfold resolve_message. intro H.
  destruct (cached_message mid w) eqn:E.
  - inversion H; subst. eapply cached_message_ident; eauto.
  - eapply find_message_ident; eauto.
Qed.

(** ** The member-leave handler *)

#[export] Instance quiet_frame : Frame quiet.
Proof.
  split; unfold quiet.
  - intros w. repeat split; reflexivity.
  - intros a b c (T1 & C1 & S1) (T2 & C2 & S2). repeat split; congruence.
  - intros w n. repeat split; reflexivity.
Qed.


Lemma wp_preserved {A} (R : World -> World -> Prop) (m : M A) w
  (Q : outcome A -> World -> Prop) :
  preserves R m -> (forall r w', R w w' -> Q r w') -> wp m w Q.
Proof. intros Hm HQ. apply HQ. apply Hm. Qed.




(** ** The request-creation path *)

Lemma wp_fetch_apps w ids l (Q : outcome (list (option App)) -> World -> Prop) :
  no_faults w ->
  apps_of ids (apps w) = Some l ->
  (forall n, Q (Returned (map Some l)) (set_calls n w)) ->
  wp (mapM fetch_app ids) w Q.
Proof.
  intros Hnf. revert l Q w Hnf.
  induction ids as [| o ids IH]; intros l Q w Hnf Hl HQ; cbn [mapM apps_of] in *.
  - inversion Hl; subst. wp_steps. rewrite <- (set_calls_same w). apply HQ.
  - destruct o as [a |]; [ | discriminate ].
    wp_run Hnf w.
    destruct (find (fun x => app_id x =? a) (apps w)) as [ap |]; [ | discriminate ].
    destruct (apps_of ids (apps w)) as [l' |] eqn:El; [ | discriminate ].
    inversion Hl; subst.
    apply (IH l'); [ exact Hnf | exact El | ].
    intro n. wp_steps. apply HQ.
Qed.

Lemma wp_deref_all {A} w (l : list A) (Q : outcome (list A) -> World -> Prop) :
  Q (Returned l) w -> wp (mapM deref (map Some l)) w Q.
Proof.
  revert Q. induction l as [| a l IH]; intros Q HQ; cbn [map mapM].
  - wp_steps. exact HQ.
  - wp_steps. apply IH. wp_steps. exact HQ.
Qed.

Lemma no_closed_beta l :
  forallb beta_open l = true -> filter (fun a => negb (beta_open a)) l = [].
Proof.
  induction l as [| a l IH]; [ reflexivity | ]. cbn [forallb filter].
  intro H. apply andb_prop in H. destruct H as [Ha Hl]. rewrite Ha. cbn [negb].
  apply IH. exact Hl.
Qed.

Lemma apps_of_no_missing ids known l :
  apps_of ids known = Some l ->
  existsb (fun a : option Z => match a with None => true | Some _ => false end) ids = false.
Proof.
  revert l. induction ids as [| o ids IH]; intros l H; [ reflexivity | ].
  cbn [apps_of existsb] in *. destruct o as [a |]; [ | discriminate ].
  destruct (find _ known); [ | discriminate ].
  destruct (apps_of ids known) eqn:E; [ | discriminate ].
  cbn [orb]. eapply IH. reflexivity.
Qed.

Lemma wp_handle_role_reaction_access w payload mem gid rr
  (Q : outcome unit -> World -> Prop) :
  no_faults w ->
  asks_for_access payload w mem gid rr ->
  (forall n, wp (request_access mem gid rr)
               (set_watched_message_ids (watched w) (set_calls n w)) Q) ->
  wp (handle_role_reaction payload) w Q.
Proof.
  intros Hnf (Hw & Hmem & Hgid & Hg & Hrr & Hrules & Hne & l & Hl & Hopen) HQ.
  unfold handle_role_reaction. wp_run Hnf w.
  match goal with |- wp _ w ?K =>
    assert (HK : forall n, K (Returned (watched w))
                             (set_watched_message_ids (watched w) (set_calls n w)))
  end.
  { intro n. wp_run Hnf w. rewrite Hw, Hmem, Hgid. wp_run Hnf w.
    destruct (get_guild gid w) as [guild |]; [ | congruence ].
    wp_run Hnf w. unfold reaction_role_of in Hrr. rewrite Hrr. wp_run Hnf w.
    assert (Hclosed := @no_closed_beta _ Hopen).
    assert (Hmissing := @apps_of_no_missing _ _ _ Hl).
    assert (Hlen : Nat.eqb (length (app_ids rr)) 0 = false)
      by (destruct (app_ids rr); [ congruence | reflexivity ]).
    unfold rules_in_order in Hrules.
    destruct (requires_rules_approval rr).
    - wp_run Hnf w.
      destruct (match guild_config gid w with
                | Some c => rule_agreement_role_id c
                | None => None
                end) as [role |].
      + rewrite Hrules. wp_run Hnf w.
        match goal with |- wp _ ?W _ => apply wp_fetch_apps with (w := W) (l := l) end;
          [ exact Hnf | exact Hl | ].
        intro k. wp_simpl. apply wp_bind. apply wp_deref_all. wp_simpl.
        rewrite Hclosed, Hlen, Hmissing. wp_simpl.
        match goal with |- wp _ ?W _ =>
          change W with (set_watched_message_ids (watched w) (set_calls k w)) end.
        apply HQ.
      + wp_run Hnf w.
        match goal with |- wp _ ?W _ => apply wp_fetch_apps with (w := W) (l := l) end;
          [ exact Hnf | exact Hl | ].
        intro k. wp_simpl. apply wp_bind. apply wp_deref_all. wp_simpl.
        rewrite Hclosed, Hlen, Hmissing. wp_simpl.
        match goal with |- wp _ ?W _ =>
          change W with (set_watched_message_ids (watched w) (set_calls k w)) end.
        apply HQ.
    - wp_run Hnf w.
      match goal with |- wp _ ?W _ => apply wp_fetch_apps with (w := W) (l := l) end;
        [ exact Hnf | exact Hl | ].
      intro k. wp_simpl. apply wp_bind. apply wp_deref_all. wp_simpl.
      rewrite Hclosed, Hlen, Hmissing. wp_simpl.
      match goal with |- wp _ ?W _ =>
        change W with (set_watched_message_ids (watched w) (set_calls k w)) end.
      apply HQ. }
  unfold watched in *.
  destruct (Nat.ltb 0 (length (watched_message_ids w))).
  - wp_steps. rewrite <- (set_watched_same w) at 2. apply HK.
  - wp_run Hnf w. apply HK.
Qed.

Lemma watched_set_watched w n :
  mem_Z n (watched w) = true ->
  forall W, watched_message_ids W = watched w -> watched W = watched w.
Proof.
  intros Hm W HW. unfold watched at 1. rewrite HW.
  destruct (watched w) as [| x l]; [ discriminate | reflexivity ].
Qed.

Lemma asks_for_access_same_setting payload w w' mem gid rr :
  same_setting w w' ->
  asks_for_access payload w mem gid rr ->
  asks_for_access payload w' mem gid rr.
Proof.
  intros (Hg & Hc & Hr & Ha & Hcfg & Hf & Hw).
  unfold asks_for_access, get_guild, reaction_role_of, rules_in_order, guild_config.
  rewrite Hg, Hr, Ha, Hcfg, Hw. exact (fun H => H).
Qed.

Lemma find_map_replace (d : Z) (x : Tester) l s :
  discord_id x = d ->
  find (fun t => discord_id t =? d) l = Some s ->
  find (fun t => discord_id t =? d)
       (map (fun s' => if discord_id s' =? d then x else s') l) = Some x.
Proof.
  intros Hx. induction l as [| a l IH]; [ discriminate | ]. cbn [find map].
  destruct (discord_id a =? d) eqn:E.
  - intros _. rewrite Hx, Z.eqb_refl. reflexivity.
  - rewrite E. exact IH.
Qed.

Lemma find_app_new (d : Z) (x : Tester) l :
  discord_id x = d ->
  find (fun t => discord_id t =? d) l = None ->
  find (fun t => discord_id t =? d) (l ++ [x]) = Some x.
Proof.
  intros Hx. induction l as [| a l IH]; cbn [find List.app].
  - intros _. rewrite Hx, Z.eqb_refl. reflexivity.
  - destruct (discord_id a =? d); [ discriminate | exact IH ].
Qed.

Lemma any_rejected_after_add (P : TestingRequest -> bool) l r :
  any_rejected (filter P l) = false ->
  status r = PENDING ->
  any_rejected (filter P (l ++ [r])) = false.
Proof.
  intros Hl Hr. unfold any_rejected in *.
  rewrite filter_app, existsb_app, Hl. cbn [filter orb].
  destruct (P r); [ | reflexivity ]. cbn [existsb]. rewrite Hr. reflexivity.
Qed.

Lemma wp_handle_role_reaction_to_email_check w payload mem gid rr
  (Q : outcome unit -> World -> Prop) :
  no_faults w ->
  asks_for_access payload w mem gid rr ->
  email_on_file mem w = false ->
  any_rejected (existing_requests mem rr w) = false ->
  (forall W t,
     reached_email_check w W mem rr t ->
     any_rejected (existing_requests mem rr W) = false ->
     wp (registration_branch mem t) W Q) ->
  wp (handle_role_reaction payload) w Q.
Proof.
  intros Hnf Hacc Hemail Hrej HQ.
  assert (Hwatched : mem_Z (message_id payload) (watched w) = true) by apply Hacc.
  apply wp_handle_role_reaction_access with (mem := mem) (gid := gid) (rr := rr);
    [ exact Hnf | exact Hacc | ].
  intro n. unfold request_access, locked_section.
  unfold email_on_file, tester_on_record, existing_requests, any_rejected in *.
  wp_run Hnf w.
  assert (Hset : forall W,
            guilds W = guilds w -> channels W = channels w ->
            reaction_roles W = reaction_roles w -> apps W = apps w ->
            guild_configs W = guild_configs w -> faults W = faults w ->
            watched_message_ids W = watched w -> same_setting w W).
  { intros W H1 H2 H3 H4 H5 H6 H7. repeat split; try assumption.
    eapply watched_set_watched; eauto. }
  assert (Hcheck : forall W t (Q0 : outcome (option (Tester * list TestingRequest
                                      * option TestingRequest)) -> World -> Prop),
            reached_email_check w W mem rr t ->
            any_rejected (existing_requests mem rr W) = false ->
            has_email t = false ->
            (forall r w', Q r w' ->
               match r with
               | Returned _ => Q0 (Returned None) w'
               | Raised e => Q0 (Raised e) w'
               end) ->
            wp (registration_branch mem t ;; ret None) W Q0).
  { intros W t Q0 Hreach HrejW Hmail HQ0. apply wp_bind.
    eapply wp_weaken; [ apply HQ; assumption | ].
    intros [u | e] w' Hq; specialize (HQ0 _ _ Hq); exact HQ0. }
  assert (Hw0 : forall W, watched_message_ids W = watched w -> watched W = watched w)
    by (intros W HW; eapply watched_set_watched; eauto).
  destruct (find (fun t => discord_id t =? member_id mem) (testers w)) as [s |] eqn:Efound.
  - cbn [discord_id with_discord_id with_username]. rewrite Efound.
    wp_run Hnf w. cbn [discord_id with_discord_id with_username with_tester_id].
    set (t1 := with_tester_id (tester_id s)
                 (with_discord_id (member_id mem) (with_username (member_name mem) s))).
    assert (Hmail : has_email t1 = false) by exact Hemail.
    assert (Hfind1 : find (fun t => discord_id t =? member_id mem)
                       (map (fun s' => if discord_id s' =? member_id mem then t1 else s')
                            (testers w)) = Some t1)
      by (eapply find_map_replace; [ reflexivity | exact Efound ]).
    destruct (filter (request_matches (member_id mem) (Some (app_ids rr)) FilterALL true)
                (requests w)) as [| oldest rest] eqn:Eex.
    + cbn [length Nat.eqb]. wp_run Hnf w. rewrite Hmail. cbn [negb]. wp_simpl.
      eapply Hcheck; [ | | exact Hmail | ].
      * unfold reached_email_check, same_setting, prior_prompt, tester_on_record.
        cbn [guilds channels reaction_roles apps guild_configs faults messages utcnow
             next_id testers trace set_trace set_requests set_next_id set_calls
             set_testers set_watched_message_ids filter is_send].
        rewrite Efound, Hfind1.
        repeat split; try reflexivity; try lia; apply Hw0; reflexivity.
      * unfold existing_requests. cbn [requests set_trace set_requests].
        apply any_rejected_after_add; [ rewrite Eex; reflexivity | reflexivity ].
      * intros [[] | e] w' Hq; wp_steps; exact Hq.
    + cbn [length Nat.eqb]. unfold any_rejected in Hrej. rewrite Hrej.
      wp_run Hnf w. rewrite Hmail. cbn [negb]. wp_simpl.
      eapply Hcheck; [ | | exact Hmail | ].
      * unfold reached_email_check, same_setting, prior_prompt, tester_on_record.
        cbn [guilds channels reaction_roles apps guild_configs faults messages utcnow
             next_id testers trace set_trace set_requests set_next_id set_calls
             set_testers set_watched_message_ids filter is_send].
        rewrite Efound, Hfind1.
        repeat split; try reflexivity; try lia; apply Hw0; reflexivity.
      * unfold existing_requests. cbn [requests set_trace set_calls set_testers
                                        set_watched_message_ids].
        rewrite Eex. exact Hrej.
      * intros [[] | e] w' Hq; wp_steps; exact Hq.
  - cbn [discord_id new_Tester]. rewrite Efound.
    wp_run Hnf w. cbn [discord_id new_Tester with_tester_id].
    set (t1 := with_tester_id (Some (next_id w))
                 (new_Tester (member_name mem) (member_id mem))).
    assert (Hmail : has_email t1 = false) by reflexivity.
    assert (Hfind1 : find (fun t => discord_id t =? member_id mem)
                       (testers w ++ [t1]) = Some t1)
      by (eapply find_app_new; [ reflexivity | exact Efound ]).
    destruct (filter (request_matches (member_id mem) (Some (app_ids rr)) FilterALL true)
                (requests w)) as [| oldest rest] eqn:Eex.
    + cbn [length Nat.eqb]. wp_run Hnf w. rewrite Hmail. cbn [negb]. wp_simpl.
      eapply Hcheck; [ | | exact Hmail | ].
      * unfold reached_email_check, same_setting, prior_prompt, tester_on_record.
        cbn [guilds channels reaction_roles apps guild_configs faults messages utcnow
             next_id testers trace set_trace set_requests set_next_id set_calls
             set_testers set_watched_message_ids filter is_send].
        rewrite Efound, Hfind1.
        repeat split; try reflexivity; try lia; apply Hw0; reflexivity.
      * unfold existing_requests. cbn [requests set_trace set_requests].
        apply any_rejected_after_add; [ rewrite Eex; reflexivity | reflexivity ].
      * intros [[] | e] w' Hq; wp_steps; exact Hq.
    + cbn [length Nat.eqb]. unfold any_rejected in Hrej. rewrite Hrej.
      wp_run Hnf w. rewrite Hmail. cbn [negb]. wp_simpl.
      eapply Hcheck; [ | | exact Hmail | ].
      * unfold reached_email_check, same_setting, prior_prompt, tester_on_record.
        cbn [guilds channels reaction_roles apps guild_configs faults messages utcnow
             next_id testers trace set_trace set_requests set_next_id set_calls
             set_testers set_watched_message_ids filter is_send].
        rewrite Efound, Hfind1.
        repeat split; try reflexivity; try lia; apply Hw0; reflexivity.
      * unfold existing_requests. cbn [requests set_trace set_calls set_testers
                                        set_watched_message_ids set_next_id].
        rewrite Eex. exact Hrej.
      * intros [[] | e] w' Hq; wp_steps; exact Hq.
Qed.

(** Whether the registration prompt last sent to the member is less than 30
    minutes old; None when the record names a prompt that is not there. *)

Lemma find_message_fresh c i l m :
  (forall x, In x l -> message_ident x < i) ->
  message_ident m = i -> message_channel m = c ->
  find (fun x => (message_ident x =? i) && (message_channel x =? c)) (l ++ [m]) = Some m.
Proof.
  intros Hl Hi Hc. induction l as [| a l IH]; cbn [find List.app].
  - rewrite Hi, Hc, !Z.eqb_refl. reflexivity.
  - assert (Ha : message_ident a < i) by (apply Hl; left; reflexivity).
    destruct (message_ident a =? i) eqn:E; [ apply Z.eqb_eq in E; lia | ].
    cbn [andb]. apply IH. intros x Hx. apply Hl. right. exact Hx.
Qed.

Lemma recent_prompt_is_silent w payload mem gid rr :
  no_faults w ->
  asks_for_access payload w mem gid rr ->
  email_on_file mem w = false ->
  any_rejected (existing_requests mem rr w) = false ->
  recent_prompt mem w = Some true ->
  result (handle_role_reaction payload) w = Returned tt
  /\ sends (after (handle_role_reaction payload) w) = sends w.
Proof.
  intros Hnf Hacc Hmail Hrej Hrecent.
  change (wp (handle_role_reaction payload) w
            (fun r w' => r = Returned tt /\ sends w' = sends w)).
  eapply wp_handle_role_reaction_to_email_check; eauto.
  intros W t (Hset & Hmsgs & Hnow & _ & _ & _ & _ & Hreg & Hsends) _.
  assert (HnfW : no_faults W).
  { intros n op. destruct Hset as (_ & _ & _ & _ & _ & Hf & _). rewrite Hf. apply Hnf. }
  unfold recent_prompt in Hrecent. unfold registration_branch. rewrite Hreg.
  destruct (prior_prompt mem w) as [rid |]; [ | discriminate ].
  destruct (find_message (member_id mem) rid w) as [prev |] eqn:Eprev; [ | discriminate ].
  wp_run HnfW W. unfold find_message in *. rewrite Hmsgs, Eprev. wp_run HnfW W.
  rewrite Hnow.
  destruct (created_at prev >? utcnow w - 30 * 60); [ | discriminate Hrecent ].
  wp_steps. split; [ reflexivity | exact Hsends ].
Qed.

Lemma stale_prompt_is_renewed w payload mem gid rr :
  no_faults w ->
  ids_are_fresh w ->
  asks_for_access payload w mem gid rr ->
  email_on_file mem w = false ->
  any_rejected (existing_requests mem rr w) = false ->
  recent_prompt mem w = Some false ->
  wp (handle_role_reaction payload) w
     (fun r w' => r = Returned tt /\ exists prompt, prompted w w' mem rr prompt).
Proof.
  intros Hnf Hfresh Hacc Hmail Hrej Hrecent.
  eapply wp_handle_role_reaction_to_email_check; eauto.
  intros W t (Hset & Hmsgs & Hnow & Hid & Hrec & Hdisc & Hemail & Hreg & Hsends) HrejW.
  assert (HnfW : no_faults W).
  { intros n op. destruct Hset as (_ & _ & _ & _ & _ & Hf & _). rewrite Hf. apply Hnf. }
  assert (Hnomail : has_email t = false).
  { unfold email_on_file in Hmail. unfold has_email in *. rewrite Hemail.
    destruct (tester_on_record mem w); [ exact Hmail | reflexivity ]. }
  assert (Hstale : forall (Q : outcome bool -> World -> Prop),
            (forall n, Q (Returned false) (set_calls n W)) ->
            wp match registration_message_id t with
               | Some registration_message =>
                   previous <- member_fetch_message (member_id mem) registration_message ;;
                   now <- gets utcnow ;;
                   ret (created_at previous >? now - 30 * 60)
               | None => ret false
               end W Q).
  { intros Q HQ. rewrite Hreg. unfold recent_prompt in Hrecent.
    destruct (prior_prompt mem w) as [rid |].
    - destruct (find_message (member_id mem) rid w) as [prev |] eqn:Eprev;
        [ | discriminate ].
      wp_run HnfW W. unfold find_message in *. rewrite Hmsgs, Eprev. wp_run HnfW W.
      rewrite Hnow.
      destruct (created_at prev >? utcnow w - 30 * 60); [ discriminate Hrecent | ].
      apply HQ.
    - wp_steps. rewrite <- (set_calls_same W). apply HQ. }
  unfold registration_branch. apply wp_bind. apply Hstale. intro n.
  unfold send_registration_message. wp_run HnfW W.
  cbn [discord_id with_registration_message_id message_ident].
  unfold tester_on_record in Hrec. rewrite Hdisc, Hrec. wp_run HnfW W.
  split; [ reflexivity | ]. exists (next_id W).
  set (t1 := with_tester_id (tester_id t)
               (with_registration_message_id (Some (next_id W)) t)).
  assert (Hfind1 : find (fun s => discord_id s =? member_id mem)
                     (map (fun s' => if discord_id s' =? member_id mem then t1 else s')
                          (testers W)) = Some t1)
    by (eapply find_map_replace; [ exact Hdisc | exact Hrec ]).
  destruct Hset as (Hg & Hc & Hr & Ha & Hcfg & Hf & Hw).
  unfold prompted, same_setting, email_on_file, prior_prompt, tester_on_record,
    existing_requests, sends, find_message.
  cbn [guilds channels reaction_roles apps guild_configs faults messages utcnow
       next_id testers trace requests set_trace set_requests set_next_id set_calls
       set_testers set_messages set_watched_message_ids filter is_send].
  rewrite Hfind1. repeat split; try assumption; try reflexivity.
  - eexists. split.
    + apply find_message_fresh; [ | reflexivity | reflexivity ].
      intros x Hx. rewrite Hmsgs in Hx. specialize (Hfresh x Hx). lia.
    + exact Hnow.
  - f_equal. exact Hsends.
Qed.

Lemma prompted_again w w' mem rr prompt later payload gid :
  no_faults w ->
  asks_for_access payload w mem gid rr ->
  prompted w w' mem rr prompt ->
  later < utcnow w + 30 * 60 ->
  no_faults (set_utcnow later w')
  /\ asks_for_access payload (set_utcnow later w') mem gid rr
  /\ email_on_file mem (set_utcnow later w') = false
  /\ any_rejected (existing_requests mem rr (set_utcnow later w')) = false
  /\ recent_prompt mem (set_utcnow later w') = Some true.
Proof.
  intros Hnf Hacc (Hset & Hmail & Hrej & Hprior & (m & Hm & Hat) & _) Hlater.
  destruct Hset as (Hg & Hc & Hr & Ha & Hcfg & Hf & Hw).
  split; [ | split; [ | split; [ | split ] ] ].
  - intros n op. cbn [faults set_utcnow]. rewrite Hf. apply Hnf.
  - eapply asks_for_access_same_setting; [ | exact Hacc ].
    repeat split; assumption.
  - exact Hmail.
  - exact Hrej.
  - unfold recent_prompt.
    change (prior_prompt mem (set_utcnow later w')) with (prior_prompt mem w').
    rewrite Hprior.
    change (find_message (member_id mem) prompt (set_utcnow later w'))
      with (find_message (member_id mem) prompt w').
    rewrite Hm, Hat. cbn [utcnow set_utcnow]. f_equal. apply Z.gtb_lt. lia.
Qed.

(** ** The creation of a request and its notification *)

Lemma wp_bind_inv {A B} (m : M A) (k : A -> M B) w (Q : outcome B -> World -> Prop) :
  wp (bind m k) w Q ->
  wp m w (fun r w' => match r with
                      | Returned a => wp (k a) w' Q
                      | Raised e => Q (Raised e) w'
                      end).
Proof.
  unfold wp, result, after, bind.
  destruct (m w) as [[a | e] w']; cbn; auto.
Qed.

Lemma wp_handle_role_reaction_creation w payload mem gid rr
  (Q : outcome unit -> World -> Prop) :
  no_faults w ->
  asks_for_access payload w mem gid rr ->
  (forall W t r,
     creation_step w W mem rr gid t (Some r) ->
     existing_requests mem rr w = [] ->
     wp (after_creation mem t [] (Some r)) W Q) ->
  (forall W t,
     creation_step w W mem rr gid t None ->
     any_rejected (existing_requests mem rr w) = true ->
     Q (Returned tt) W) ->
  (forall W t,
     creation_step w W mem rr gid t None ->
     existing_requests mem rr w <> [] ->
     any_rejected (existing_requests mem rr w) = false ->
     wp (after_creation mem t (existing_requests mem rr w) None) W Q) ->
  wp (handle_role_reaction payload) w Q.
Proof.
  intros Hnf Hacc Hnew Hrejected Hold.
  assert (Hwatched : mem_Z (message_id payload) (watched w) = true) by apply Hacc.
  apply wp_handle_role_reaction_access with (mem := mem) (gid := gid) (rr := rr);
    [ exact Hnf | exact Hacc | ].
  intro n. unfold request_access, locked_section.
  unfold existing_requests in *.
  wp_run Hnf w.
  assert (Hw0 : forall W, watched_message_ids W = watched w -> watched W = watched w)
    by (intros W HW; eapply watched_set_watched; eauto).
  destruct (find (fun t => discord_id t =? member_id mem) (testers w)) as [s |] eqn:Efound.
  - cbn [discord_id with_discord_id with_username]. rewrite Efound.
    wp_run Hnf w. cbn [discord_id with_discord_id with_username with_tester_id].
    set (t1 := with_tester_id (tester_id s)
                 (with_discord_id (member_id mem) (with_username (member_name mem) s))).
    assert (Hfind1 : find (fun t => discord_id t =? member_id mem)
                       (map (fun s' => if discord_id s' =? member_id mem then t1 else s')
                            (testers w)) = Some t1)
      by (eapply find_map_replace; [ reflexivity | exact Efound ]).
    destruct (filter (request_matches (member_id mem) (Some (app_ids rr)) FilterALL true)
                (requests w)) as [| oldest rest] eqn:Eex.
    + cbn [length Nat.eqb]. wp_run Hnf w.
      apply wp_bind_inv. eapply Hnew; [ | reflexivity ].
      unfold creation_step, same_setting, email_on_file, tester_on_record, sends,
        new_requests.
      cbn [guilds channels reaction_roles apps guild_configs faults messages utcnow
           next_id testers trace requests set_trace set_requests set_next_id set_calls
           set_testers set_watched_message_ids filter is_send is_new_request].
      rewrite Efound, Hfind1.
      repeat split; try reflexivity; apply Hw0; reflexivity.
    + cbn [length Nat.eqb].
      destruct (existsb (fun r => status_eqb (status r) REJECTED) (oldest :: rest))
        eqn:Erej.
      * wp_run Hnf w. eapply Hrejected with (t := t1); [ | exact Erej ].
        unfold creation_step, same_setting, email_on_file, tester_on_record, sends,
          new_requests.
        cbn [guilds channels reaction_roles apps guild_configs faults messages utcnow
             next_id testers trace requests set_trace set_requests set_next_id set_calls
             set_testers set_watched_message_ids filter is_send is_new_request].
        rewrite Efound, Hfind1.
        repeat split; try reflexivity; apply Hw0; reflexivity.
      * wp_run Hnf w.
        apply wp_bind_inv. eapply Hold; [ | discriminate | exact Erej ].
        unfold creation_step, same_setting, email_on_file, tester_on_record, sends,
          new_requests.
        cbn [guilds channels reaction_roles apps guild_configs faults messages utcnow
             next_id testers trace requests set_trace set_requests set_next_id set_calls
             set_testers set_watched_message_ids filter is_send is_new_request].
        rewrite Efound, Hfind1.
        repeat split; try reflexivity; apply Hw0; reflexivity.
  - cbn [discord_id new_Tester]. rewrite Efound.
    wp_run Hnf w. cbn [discord_id new_Tester with_tester_id].
    set (t1 := with_tester_id (Some (next_id w))
                 (new_Tester (member_name mem) (member_id mem))).
    assert (Hfind1 : find (fun t => discord_id t =? member_id mem)
                       (testers w ++ [t1]) = Some t1)
      by (eapply find_app_new; [ reflexivity | exact Efound ]).
    destruct (filter (request_matches (member_id mem) (Some (app_ids rr)) FilterALL true)
                (requests w)) as [| oldest rest] eqn:Eex.
    + cbn [length Nat.eqb]. wp_run Hnf w.
      apply wp_bind_inv. eapply Hnew; [ | reflexivity ].
      unfold creation_step, same_setting, email_on_file, tester_on_record, sends,
        new_requests.
      cbn [guilds channels reaction_roles apps guild_configs faults messages utcnow
           next_id testers trace requests set_trace set_requests set_next_id set_calls
           set_testers set_watched_message_ids filter is_send is_new_request].
      rewrite Efound, Hfind1.
      repeat split; try reflexivity; apply Hw0; reflexivity.
    + cbn [length Nat.eqb].
      destruct (existsb (fun r => status_eqb (status r) REJECTED) (oldest :: rest))
        eqn:Erej.
      * wp_run Hnf w. eapply Hrejected with (t := t1); [ | exact Erej ].
        unfold creation_step, same_setting, email_on_file, tester_on_record, sends,
          new_requests.
        cbn [guilds channels reaction_roles apps guild_configs faults messages utcnow
             next_id testers trace requests set_trace set_requests set_next_id set_calls
             set_testers set_watched_message_ids filter is_send is_new_request].
        rewrite Efound, Hfind1.
        repeat split; try reflexivity; apply Hw0; reflexivity.
      * wp_run Hnf w.
        apply wp_bind_inv. eapply Hold; [ | discriminate | exact Erej ].
        unfold creation_step, same_setting, email_on_file, tester_on_record, sends,
          new_requests.
        cbn [guilds channels reaction_roles apps guild_configs faults messages utcnow
             next_id testers trace requests set_trace set_requests set_next_id set_calls
             set_testers set_watched_message_ids filter is_send is_new_request].
        rewrite Efound, Hfind1.
        repeat split; try reflexivity; apply Hw0; reflexivity.
Qed.

#[export] Instance no_new_request_frame : Frame no_new_request.
Proof.
  split.
  - intro w. split; reflexivity.
  - intros a b c [H1 H2] [H3 H4]. split; congruence.
  - intros w n. split; reflexivity.
Qed.

Lemma no_new_request_after_creation mem t existing created :
  preserves no_new_request (after_creation mem t existing created).
Proof.
  unfold after_creation. preserve.
  all: try (intro w0); split; unfold new_requests, replace_request, after;
    cbn; rewrite ?length_map; reflexivity.
Qed.

Lemma wp_send_request_notification_message W user t r ch
  (Q : outcome unit -> World -> Prop) :
  no_faults W ->
  notification_channel r W = Some ch ->
  (forall w',
     sends w' = EChannelSend ch (request_notification user r) None (next_id W) :: sends W ->
     Q (Returned tt) w') ->
  wp (send_request_notification_message user t r) W Q.
Proof.
  intros Hnf Hch HQ. unfold send_request_notification_message.
  unfold notification_channel, default_channel in Hch.
  destruct (approval_channel_id r) as [c |].
  - wp_run Hnf W. rewrite Hch.
    destruct (py_truthy (notification_message_id r)) eqn:Erepeat;
      wp_run Hnf W; apply HQ; unfold sends, request_notification;
      rewrite Erepeat; reflexivity.
  - wp_run Hnf W.
    destruct (match guild_config (server_id r) W with
              | Some c => default_approvals_channel_id c
              | None => None
              end) as [c |]; [ | discriminate ].
    wp_run Hnf W. rewrite Hch.
    destruct (py_truthy (notification_message_id r)) eqn:Erepeat;
      wp_run Hnf W; apply HQ; unfold sends, request_notification;
      rewrite Erepeat; reflexivity.
Qed.

#[export] Instance unnotified_frame : Frame unnotified.
Proof.
  split.
  - intro w. reflexivity.
  - intros a b c H1 H2. unfold unnotified in *. congruence.
  - intros w n. reflexivity.
Qed.

Lemma unnotified_registration_branch mem t :
  preserves unnotified (registration_branch mem t).
Proof.
  unfold registration_branch. preserve.
  all: try (intro w0); unfold unnotified, notifications, after; cbn; reflexivity.
Qed.

Lemma notifications_of_sends l :
  filter is_approval_channel_notification (filter is_send l)
  = filter is_approval_channel_notification l.
Proof.
  induction l as [| e l IH]; [ reflexivity | ].
  destruct e; cbn [filter is_send is_approval_channel_notification]; try exact IH.
  - match goal with
    | |- context [match ?t with _ => _ end] => destruct t
    end; cbn [filter]; rewrite ?IH; reflexivity.
Qed.

Lemma default_channel_same_setting w W gid :
  same_setting w W -> default_channel gid W = default_channel gid w.
Proof.
  intros (_ & Hc & _ & _ & Hcfg & _).
  unfold default_channel, guild_config, get_channel. rewrite Hc, Hcfg. reflexivity.
Qed.

Lemma notification_channel_same_setting w W r :
  same_setting w W -> notification_channel r W = notification_channel r w.
Proof.
  intro H. unfold notification_channel.
  rewrite (@default_channel_same_setting w W _ H).
  destruct H as (_ & Hc & _). unfold get_channel. rewrite Hc. reflexivity.
Qed.

Lemma no_faults_same_setting w W : same_setting w W -> no_faults w -> no_faults W.
Proof.
  intros (_ & _ & _ & _ & _ & Hf & _) Hnf n op. rewrite Hf. apply Hnf.
Qed.

(** After the creation step, with an email on file: the notification. *)
Lemma wp_after_creation_notifies W mem t existing created subject ch
  (Q : outcome unit -> World -> Prop) :
  no_faults W ->
  has_email t = true ->
  match existing with [] => created | oldest :: _ => Some oldest end = Some subject ->
  notification_channel subject W = Some ch ->
  (forall w',
     sends w' = EChannelSend ch (request_notification (member_id mem) subject) None
                  (next_id W) :: sends W ->
     Q (Returned tt) w') ->
  wp (after_creation mem t existing created) W Q.
Proof.
  intros Hnf Hmail Hsubject Hch HQ. unfold after_creation. rewrite Hmail.
  cbn [negb]. wp_steps.
  destruct existing as [| oldest rest].
  - rewrite Hsubject. wp_steps.
    apply wp_send_request_notification_message with (ch := ch); assumption.
  - injection Hsubject as ->.
    apply wp_send_request_notification_message with (ch := ch); assumption.
Qed.

(** After the creation step, without an email on file: no notification. *)
Lemma wp_after_creation_no_email W mem t existing created
  (Q : outcome unit -> World -> Prop) :
  has_email t = false ->
  (forall r w', unnotified W w' -> Q r w') ->
  wp (after_creation mem t existing created) W Q.
Proof.
  intros Hmail HQ. unfold after_creation. rewrite Hmail. cbn [negb].
  apply wp_bind. apply wp_bind.
  eapply wp_preserved; [ apply unnotified_registration_branch | ].
  intros [u | e] w' HR; wp_steps; apply HQ; exact HR.
Qed.

Lemma notifications_same_sends w W : sends W = sends w -> notifications W = notifications w.
Proof.
  intro H. unfold notifications.
  rewrite <- (notifications_of_sends (trace W)), <- (notifications_of_sends (trace w)).
  unfold sends in H. rewrite H. reflexivity.
Qed.

Lemma any_rejected_nil_inv (l : list TestingRequest) :
  l = [] -> any_rejected l = true -> False.
Proof. intros ->. discriminate. Qed.

(** ** The approval, when the distribution API fails *)







Lemma holds_all_resolved m roles :
  forallb (fun r => match r with
                    | Some role => mem_Z role (member_roles m)
                    | None => false
                    end) (map Some roles) = holds_all m roles.
Proof.
  unfold holds_all. induction roles as [| x l IH]; [ reflexivity | ].
  cbn [map forallb]. rewrite IH. reflexivity.
Qed.


(** ** Two handlers at once: the lock of the acting user *)

Ltac both_sides :=
  unfold bind, ret, raise, gets, deref;
  cbn [alone turn fst snd mem_Z existsb remove_key filter negb orb];
  rewrite ?Z.eqb_refl;
  cbn [negb filter].

Ltac next_case :=
  match goal with
  | |- context [match ?X with (_, _) => _ end] =>
      let h := head_of X in
      lazymatch h with
      | find_tester => idtac
      | upsert_tester => idtac
      | list_requests => idtac
      | add_request => idtac
      | member_fetch_message => idtac
      | send_registration_message => idtac
      | get_default_approvals_channel_id => idtac
      | channel_send => idtac
      | update_request => idtac
      end;
      destruct X as [[? | ?] ?]
  | |- context [if ?b then _ else _] => destruct b
  | |- context [match ?o with Some _ => _ | None => _ end] =>
      lazymatch type of o with
      | option (Task * list Z * World) => fail
      | _ => destruct o
      end
  | |- context [match ?l with [] => _ | _ :: _ => _ end] => destruct l
  end.

(** The task, run alone, is [request_access]. *)
Lemma request_access_task_alone key mem gid rr w :
  alone 10 (request_access_task key mem gid rr) [] w
  = (Finished, [], after (request_access mem gid rr) w).
Proof.
  unfold request_access_task, find_task, upsert_task, list_task, add_task, email_task,
    registration_task, prompt_task, persist_task, notification_task, post_task,
    store_task, locked, unlocked.
  unfold request_access, locked_section, registration_branch,
    send_request_notification_message, resolve_approval_channel,
    post_request_notification, store_notification, after.
  both_sides.
  repeat (next_case; both_sides; try reflexivity).
Qed.

(** ** Lists of records *)

Lemma filter_nil_find {A : Type} (P : A -> bool) l :
  filter P l = [] -> find P l = None.
Proof.
  induction l as [| a l IH]; [ reflexivity | ]. cbn [filter find].
  destruct (P a); [ discriminate | exact IH ].
Qed.

Lemma find_none_filter {A : Type} (P : A -> bool) l :
  find P l = None -> filter P l = [].
Proof.
  induction l as [| a l IH]; [ reflexivity | ]. cbn [filter find].
  destruct (P a); [ discriminate | exact IH ].
Qed.

Lemma filter_one_find {A : Type} (P : A -> bool) l :
  length (filter P l) = 1%nat -> exists a, find P l = Some a.
Proof.
  induction l as [| a l IH]; [ discriminate | ]. cbn [filter find].
  destruct (P a); [ intros _; exists a; reflexivity | exact IH ].
Qed.

Lemma length_filter_replace {A : Type} (P : A -> bool) (x : A) l :
  P x = true ->
  length (filter P (map (fun a => if P a then x else a) l)) = length (filter P l).
Proof.
  intro Hx. induction l as [| a l IH]; [ reflexivity | ]. cbn [map filter].
  destruct (P a) eqn:E.
  - rewrite Hx. cbn [length]. rewrite IH. reflexivity.
  - rewrite E. exact IH.
Qed.

Lemma opt_Z_eqb_some a i : opt_Z_eqb a (Some i) = true <-> a = Some i.
Proof.
  destruct a as [x |]; cbn [opt_Z_eqb]; split; intro H; try discriminate.
  - apply Z.eqb_eq in H. congruence.
  - inversion H. apply Z.eqb_refl.
Qed.

Lemma opt_Z_eqb_refl a : opt_Z_eqb a a = true.
Proof. destruct a; cbn [opt_Z_eqb]; [ apply Z.eqb_refl | reflexivity ]. Qed.

Lemma filter_replace_request (P : TestingRequest -> bool) r rid l :
  P r = true ->
  request_id r = Some rid ->
  (forall s, In s l -> request_id s = Some rid -> P s = true) ->
  filter P (replace_request r l)
  = map (fun s => if opt_Z_eqb (request_id s) (Some rid) then r else s) (filter P l).
Proof.
  intros Hr Hid. unfold replace_request. rewrite Hid.
  induction l as [| a l IH]; intro Hall; [ reflexivity | ]. cbn [map filter].
  assert (Hl : forall s, In s l -> request_id s = Some rid -> P s = true)
    by (intros s Hs; apply Hall; right; exact Hs).
  destruct (opt_Z_eqb (request_id a) (Some rid)) eqn:E.
  - rewrite Hr. apply opt_Z_eqb_some in E.
    rewrite (Hall a (or_introl eq_refl) E). cbn [map].
    rewrite E, opt_Z_eqb_refl. rewrite IH by exact Hl. reflexivity.
  - destruct (P a); cbn [map]; rewrite ?E, IH by exact Hl; reflexivity.
Qed.

Lemma in_replace_request r l s :
  In s (replace_request r l) -> s = r \/ In s l.
Proof.
  unfold replace_request. intro H. apply in_map_iff in H.
  destruct H as (x & Hx & Hin).
  destruct (opt_Z_eqb (request_id x) (request_id r)); [ left | right ]; congruence.
Qed.

(** ** One turn of a handler *)

Lemma turn_await {A : Type} (m : M A) cleanup k held w (P : Task -> World -> Prop) :
  wp m w (fun r w' => match r with
                      | Returned a => P (k a) w'
                      | Raised _ => P cleanup w'
                      end) ->
  exists t' w', turn (Await m cleanup k) held w = Some (t', held, w') /\ P t' w'.
Proof.
  unfold wp, result, after, turn.
  destruct (m w) as [[a | e] w']; cbn [fst snd]; intro H; eauto.
Qed.

Lemma turn_await_held {A : Type} (m : M A) cleanup k held w
  (P : Task -> list Z -> World -> Prop) :
  wp m w (fun r w' => match r with
                      | Returned a => P (k a) held w'
                      | Raised _ => P cleanup held w'
                      end) ->
  exists t' held' w',
    turn (Await m cleanup k) held w = Some (t', held', w') /\ P t' held' w'.
Proof.
  unfold wp, result, after, turn.
  destruct (m w) as [[a | e] w']; cbn [fst snd]; intro H; eauto.
Qed.

Section Race.

Variables (key : Z) (mem : Member) (gid : Z) (rr : ReactionRole) (w0 : World).
Hypothesis role_has_apps : app_ids rr <> [].

Lemma is_member_eq t : is_member mem t = true -> discord_id t = member_id mem.
Proof. unfold is_member. apply Z.eqb_eq. Qed.

Lemma first_app_listed :
  existsb (opt_Z_eqb (hd None (app_ids rr))) (app_ids rr) = true.
Proof.
  destruct (app_ids rr) as [| a l]; [ congruence | ].
  cbn [hd existsb]. rewrite opt_Z_eqb_refl. reflexivity.
Qed.

Ltac later := first [ reflexivity | cbn; lia ].

(** What a turn does not touch. *)
Ltac stores :=
  unfold untouched, tester_created, both_created, fresh_requests, no_faults in *;
  cbn [testers requests next_id faults set_calls set_trace set_messages set_next_id
       set_testers set_requests] in *.

Lemma turn_opening w t :
  no_faults w -> fresh_requests w -> opening key mem gid rr w0 w t ->
  exists t' w',
    turn t [key] w = Some (t', [key], w')
    /\ (no_faults w' /\ fresh_requests w'
        /\ (opening key mem gid rr w0 w' t'
            \/ exists rid, both_created mem rr w0 rid w' /\ holding key mem gid rr rid t')).
Proof.
  intros Hnf Hfresh Hopen.
  destruct Hopen as [Hw | found Hw | t Ht Hw | t Ht Hw].
  - apply turn_await. wp_run Hnf w.
    split; [ exact Hnf | ]. split; [ exact Hfresh | ]. left.
    apply opening_upsert. exact Hw.
  - unfold upsert_task, locked. apply turn_await.
    set (t0 := match found with
               | Some t => with_discord_id (member_id mem)
                             (with_username (member_name mem) t)
               | None => new_Tester (member_name mem) (member_id mem)
               end).
    assert (Ht0 : discord_id t0 = member_id mem) by (destruct found; reflexivity).
    wp_run Hnf w. rewrite Ht0.
    destruct Hw as (Hts & Hrs & Hlt & Hlr).
    change (find (fun s => discord_id s =? member_id mem) (testers w))
      with (find (is_member mem) (testers w)).
    rewrite (filter_nil_find _ _ Hts). wp_run Hnf w.
    split; [ exact Hnf | ].
    split; [ stores; intros s i Hs Hi; specialize (Hfresh s i Hs Hi); lia | ].
    left. apply opening_list.
    + unfold is_member. cbn [discord_id with_tester_id]. rewrite Ht0. apply Z.eqb_refl.
    + stores. rewrite filter_app, Hts, !length_app. cbn [filter].
      unfold is_member at 1. cbn [discord_id with_tester_id]. rewrite Ht0, Z.eqb_refl.
      cbn [length List.app]. repeat split; try assumption; lia.
  - unfold list_task, locked. apply turn_await. wp_run Hnf w.
    rewrite (is_member_eq t Ht).
    destruct Hw as (Hts & Hrs & Hlt & Hlr).
    change (filter (request_matches (member_id mem) (Some (app_ids rr)) FilterALL true)
              (requests w)) with (filter (listed mem rr) (requests w)).
    rewrite Hrs. cbn [length Nat.eqb].
    split; [ exact Hnf | ]. split; [ exact Hfresh | ]. left.
    apply opening_add; [ exact Ht | ]. stores. repeat split; assumption.
  - unfold add_task, locked. apply turn_await. wp_run Hnf w.
    destruct Hw as (Hts & Hrs & Hlt & Hlr).
    set (r := with_created_and_roles _ _ _).
    assert (Hr : version mem rr (next_id w) r).
    { repeat split. unfold listed, request_matches.
      cbn [tester_discord_id app removed r with_created_and_roles
           with_request_id new_TestingRequest].
      rewrite (is_member_eq t Ht), Z.eqb_refl, first_app_listed. reflexivity. }
    split; [ exact Hnf | ]. split.
    { stores. intros s i Hs Hi. apply in_app_or in Hs. destruct Hs as [Hs | [<- | []]].
      - specialize (Hfresh s i Hs Hi). lia.
      - cbn in Hi. inversion Hi. lia. }
    right. exists (next_id w). split.
    + stores. rewrite filter_app, Hrs, !length_app. cbn [filter].
      destruct Hr as (Hid & Hst & Hl). rewrite Hl. cbn [List.app length].
      split; [ exact Hts | ]. split; [ exists r; repeat split; assumption | ].
      split.
      { intros s Hs Hi. apply in_app_or in Hs. destruct Hs as [Hs | [<- | []]].
        - specialize (Hfresh s _ Hs Hi). lia.
        - exact Hl. }
      repeat split; lia.
    + unfold email_task. destruct (negb (has_email t)).
      * apply holding_registration. exact Ht.
      * apply holding_release. apply outside_notification. exact Hr.
Qed.

Lemma version_noted rid r v :
  version mem rr rid r -> version mem rr rid (with_notification_message_id v r).
Proof. intros (H1 & H2 & H3). repeat split; assumption. Qed.

Lemma version_noted_again rid r v :
  version mem rr rid r -> version mem rr rid (add_further_notification_message_id v r).
Proof. intros (H1 & H2 & H3). repeat split; assumption. Qed.

(** An update of a version of the request leaves one request on record. *)
Lemma both_created_update rid w r' W :
  both_created mem rr w0 rid w ->
  fresh_requests w ->
  version mem rr rid r' ->
  testers W = testers w ->
  requests W = replace_request r' (requests w) ->
  next_id W = next_id w ->
  both_created mem rr w0 rid W /\ fresh_requests W.
Proof.
  intros (Hts & (r & Hr & Hv) & Huniq & Hrid & Hlt & Hlr) Hfresh (Hid & Hst & Hl)
    HT HR HN.
  unfold both_created, fresh_requests. rewrite HT, HR, HN.
  split.
  - split; [ exact Hts | ]. split.
    + exists r'. split; [ | repeat split; assumption ].
      rewrite (filter_replace_request (listed mem rr) r' (requests w) Hl Hid Huniq).
      rewrite Hr. cbn [map]. destruct Hv as (Hrid' & _).
      rewrite Hrid', opt_Z_eqb_refl. reflexivity.
    + split.
      { intros s Hs Hi. apply in_replace_request in Hs. destruct Hs as [-> | Hs].
        - exact Hl.
        - apply Huniq; assumption. }
      unfold replace_request. rewrite length_map. repeat split; assumption.
  - intros s i Hs Hi. apply in_replace_request in Hs. destruct Hs as [-> | Hs].
    + rewrite Hid in Hi. inversion Hi; subst. exact Hrid.
    + exact (Hfresh s i Hs Hi).
Qed.

(** An upsert of the tester, once on record, leaves one tester on record. *)
Lemma both_created_upsert rid w t' W :
  both_created mem rr w0 rid w ->
  is_member mem t' = true ->
  testers W = map (fun s => if is_member mem s then t' else s) (testers w) ->
  requests W = requests w ->
  next_id W = next_id w ->
  both_created mem rr w0 rid W.
Proof.
  intros (Hts & Hr & Huniq & Hrid & Hlt & Hlr) Ht HT HR HN.
  unfold both_created. rewrite HT, HR, HN, length_filter_replace, length_map by exact Ht.
  repeat split; assumption.
Qed.

Lemma both_created_later rid w W :
  both_created mem rr w0 rid w ->
  testers W = testers w ->
  requests W = requests w ->
  next_id w <= next_id W ->
  both_created mem rr w0 rid W.
Proof.
  intros (Hts & Hr & Huniq & Hrid & Hlt & Hlr) HT HR HN.
  unfold both_created. rewrite HT, HR. repeat split; try assumption. lia.
Qed.

Lemma fresh_requests_later w W :
  fresh_requests w -> requests W = requests w -> next_id w <= next_id W ->
  fresh_requests W.
Proof.
  intros Hfresh HR HN s i Hs Hi. rewrite HR in Hs. specialize (Hfresh s i Hs Hi). lia.
Qed.

Lemma turn_holding rid w t :
  no_faults w -> fresh_requests w -> both_created mem rr w0 rid w ->
  holding key mem gid rr rid t ->
  exists t' held' w',
    turn t [key] w = Some (t', held', w')
    /\ no_faults w' /\ fresh_requests w' /\ both_created mem rr w0 rid w'
    /\ ((holding key mem gid rr rid t' /\ held' = [key])
        \/ (outside mem rr rid t' /\ held' = [])).
Proof.
  intros Hnf Hfresh Hboth Hhold.
  destruct Hhold as [| found | t Ht | t Ht | t Ht | t msg Ht | k Hk].
  - apply turn_await_held. wp_run Hnf w.
    split; [ exact Hnf | ].
    split; [ eapply fresh_requests_later; eauto; later | ].
    split; [ eapply both_created_later; eauto; later | ].
    left. split; [ apply holding_upsert | reflexivity ].
  - unfold upsert_task, locked. apply turn_await_held.
    set (t0 := match found with
               | Some t => with_discord_id (member_id mem)
                             (with_username (member_name mem) t)
               | None => new_Tester (member_name mem) (member_id mem)
               end).
    assert (Ht0 : discord_id t0 = member_id mem) by (destruct found; reflexivity).
    wp_run Hnf w. rewrite Ht0.
    destruct (filter_one_find (is_member mem) (testers w)) as [s Hs];
      [ apply Hboth | ].
    change (find (fun s => discord_id s =? member_id mem) (testers w))
      with (find (is_member mem) (testers w)).
    rewrite Hs. wp_run Hnf w.
    assert (Ht' : is_member mem (with_tester_id (tester_id s) t0) = true)
      by (unfold is_member; cbn [discord_id with_tester_id]; rewrite Ht0; apply Z.eqb_refl).
    split; [ exact Hnf | ].
    split; [ eapply fresh_requests_later; eauto; later | ].
    split.
    { eapply both_created_upsert with (t' := with_tester_id (tester_id s) t0);
        [ exact Hboth | exact Ht' | reflexivity | reflexivity | reflexivity ]. }
    left. split; [ apply holding_list; exact Ht' | reflexivity ].
  - unfold list_task, locked. apply turn_await_held. wp_run Hnf w.
    rewrite (is_member_eq t Ht).
    change (filter (request_matches (member_id mem) (Some (app_ids rr)) FilterALL true)
              (requests w)) with (filter (listed mem rr) (requests w)).
    destruct Hboth as (Hts & (r & Hr & Hv) & Hrest).
    rewrite Hr. cbn [length Nat.eqb existsb].
    destruct Hv as (Hid & Hst & Hl). rewrite Hst. cbn [status_eqb orb].
    split; [ exact Hnf | ].
    split; [ eapply fresh_requests_later; eauto; later | ].
    split; [ eapply both_created_later;
             [ exact (conj Hts (conj (ex_intro _ r (conj Hr (conj Hid (conj Hst Hl))))
                                 Hrest)) | .. ]; later | ].
    unfold email_task. destruct (negb (has_email t)).
    + left. split; [ apply holding_registration; exact Ht | reflexivity ].
    + left. split; [ | reflexivity ]. apply holding_release.
      apply outside_notification. repeat split; assumption.
  - unfold registration_task. destruct (registration_message_id t) as [m |].
    + unfold locked. apply turn_await_held. wp_run Hnf w.
      destruct (find_message (member_id mem) m w) as [prev |]; wp_run Hnf w.
      * split; [ exact Hnf | ].
        split; [ eapply fresh_requests_later; eauto; later | ].
        split; [ eapply both_created_later; eauto; later | ].
        left. split; [ | reflexivity ].
        destruct (created_at prev >? utcnow w - 30 * 60).
        -- apply holding_release. apply outside_finished.
        -- apply holding_prompt. exact Ht.
      * split; [ exact Hnf | ].
        split; [ eapply fresh_requests_later; eauto; later | ].
        split; [ eapply both_created_later; eauto; later | ].
        left. split; [ | reflexivity ].
        apply holding_release. apply outside_finished.
    + unfold prompt_task, locked. apply turn_await_held. wp_run Hnf w.
      split; [ exact Hnf | ].
      split; [ eapply fresh_requests_later; eauto; later | ].
      split; [ eapply both_created_later; eauto; later | ].
      left. split; [ apply holding_persist; exact Ht | reflexivity ].
  - unfold prompt_task, locked. apply turn_await_held. wp_run Hnf w.
    split; [ exact Hnf | ].
    split; [ eapply fresh_requests_later; eauto; later | ].
    split; [ eapply both_created_later; eauto; later | ].
    left. split; [ apply holding_persist; exact Ht | reflexivity ].
  - unfold persist_task, locked. apply turn_await_held. wp_run Hnf w.
    cbn [discord_id with_registration_message_id]. rewrite (is_member_eq t Ht).
    destruct (filter_one_find (is_member mem) (testers w)) as [s Hs];
      [ apply Hboth | ].
    change (find (fun s => discord_id s =? member_id mem) (testers w))
      with (find (is_member mem) (testers w)).
    rewrite Hs. wp_run Hnf w.
    split; [ exact Hnf | ].
    split; [ eapply fresh_requests_later; eauto; later | ].
    split.
    { eapply both_created_upsert
        with (t' := with_tester_id (tester_id s)
                      (with_registration_message_id (Some (message_ident msg)) t));
        [ exact Hboth | exact Ht | reflexivity | reflexivity | reflexivity ]. }
    left. split; [ | reflexivity ]. apply holding_release. apply outside_finished.
  - exists k, [], w. cbn [turn remove_key filter]. rewrite Z.eqb_refl. cbn [negb].
    split; [ reflexivity | ]. split; [ exact Hnf | ]. split; [ exact Hfresh | ].
    split; [ exact Hboth | ]. right. split; [ exact Hk | reflexivity ].
Qed.

Lemma turn_outside rid w t held :
  no_faults w -> fresh_requests w -> both_created mem rr w0 rid w ->
  outside mem rr rid t ->
  t = Finished
  \/ exists t' held' w',
       turn t held w = Some (t', held', w')
       /\ held' = held /\ no_faults w' /\ fresh_requests w'
       /\ both_created mem rr w0 rid w' /\ outside mem rr rid t'.
Proof.
  intros Hnf Hfresh Hboth Hout.
  destruct Hout as [| r Hr | r ch Hr | r msg Hr]; [ left; reflexivity | right .. ].
  - unfold notification_task, unlocked. apply turn_await_held.
    unfold resolve_approval_channel.
    destruct (approval_channel_id r) as [c |]; wp_run Hnf w.
    + split; [ reflexivity | ]. split; [ exact Hnf | ].
      split; [ eapply fresh_requests_later; eauto; later | ].
      split; [ eapply both_created_later; eauto; later | ].
      apply outside_post. exact Hr.
    + destruct (match guild_config (server_id r) w with
                | Some c => default_approvals_channel_id c
                | None => None
                end) as [c |]; wp_run Hnf w.
      * split; [ reflexivity | ]. split; [ exact Hnf | ].
        split; [ eapply fresh_requests_later; eauto; later | ].
        split; [ eapply both_created_later; eauto; later | ].
        destruct (get_channel c w); [ apply outside_post; exact Hr | apply outside_finished ].
      * split; [ reflexivity | ]. split; [ exact Hnf | ].
        split; [ eapply fresh_requests_later; eauto; later | ].
        split; [ eapply both_created_later; eauto; later | ].
        apply outside_finished.
  - unfold post_task, unlocked. apply turn_await_held.
    unfold post_request_notification.
    destruct ch as [c |]; destruct (py_truthy (notification_message_id r));
      wp_run Hnf w.
    all: split; [ reflexivity | ]; split; [ exact Hnf | ].
    all: split; [ eapply fresh_requests_later; eauto; later | ].
    all: split; [ eapply both_created_later; eauto; later | ].
    all: first [ apply outside_store; exact Hr | apply outside_finished ].
  - unfold store_task, unlocked. apply turn_await_held.
    unfold store_notification. wp_run Hnf w.
    match goal with
    | |- _ /\ _ /\ fresh_requests ?W /\ _ =>
        match W with
        | context [EUpdateRequest ?r'] =>
            destruct (@both_created_update rid w r' W Hboth Hfresh) as [Hb Hf];
              [ destruct (negb (py_truthy (notification_message_id r)));
                [ apply version_noted | apply version_noted_again ]; exact Hr
              | reflexivity | reflexivity | reflexivity | ]
        end
    end.
    split; [ reflexivity | ]. split; [ exact Hnf | ].
    split; [ exact Hf | ]. split; [ exact Hb | ]. apply outside_finished.
Qed.

Lemma turn_start held w :
  turn (request_access_task key mem gid rr) held w
  = if mem_Z key held then None else Some (find_task key mem gid rr, key :: held, w).
Proof. reflexivity. Qed.

Lemma mem_key : mem_Z key [key] = true.
Proof. unfold mem_Z. cbn [existsb]. rewrite Z.eqb_refl. reflexivity. Qed.

(** A turn of a handler that does not hold the lock, while the other holds
    it. *)
Lemma turn_free_waiting rid w t :
  no_faults w -> fresh_requests w -> both_created mem rr w0 rid w ->
  free key mem gid rr rid t ->
  match turn t [key] w with
  | None => True
  | Some (t', held', w') =>
      held' = [key] /\ no_faults w' /\ fresh_requests w'
      /\ both_created mem rr w0 rid w' /\ free key mem gid rr rid t'
  end.
Proof.
  intros Hnf Hfresh Hboth [-> | Hout].
  - rewrite turn_start, mem_key. exact I.
  - destruct (turn_outside [key] Hnf Hfresh Hboth Hout)
      as [-> | (t' & held' & w' & Hturn & Hheld & Hnf' & Hfresh' & Hboth' & Hout')].
    + exact I.
    + rewrite Hturn. split; [ exact Hheld | ]. split; [ exact Hnf' | ].
      split; [ exact Hfresh' | ]. split; [ exact Hboth' | ]. right. exact Hout'.
Qed.

(** A turn of a handler when the lock is free. *)
Lemma turn_free rid w t :
  no_faults w -> fresh_requests w -> both_created mem rr w0 rid w ->
  free key mem gid rr rid t ->
  match turn t [] w with
  | None => True
  | Some (t', held', w') =>
      no_faults w' /\ fresh_requests w' /\ both_created mem rr w0 rid w'
      /\ ((holding key mem gid rr rid t' /\ held' = [key])
          \/ (free key mem gid rr rid t' /\ held' = []))
  end.
Proof.
  intros Hnf Hfresh Hboth [-> | Hout].
  - rewrite turn_start. cbn [mem_Z existsb].
    split; [ exact Hnf | ]. split; [ exact Hfresh | ]. split; [ exact Hboth | ].
    left. split; [ apply holding_find | reflexivity ].
  - destruct (turn_outside [] Hnf Hfresh Hboth Hout)
      as [-> | (t' & held' & w' & Hturn & Hheld & Hnf' & Hfresh' & Hboth' & Hout')].
    + exact I.
    + rewrite Hturn. split; [ exact Hnf' | ]. split; [ exact Hfresh' | ].
      split; [ exact Hboth' | ]. right. split; [ right; exact Hout' | exact Hheld ].
Qed.

Lemma invariant_turn who s :
  invariant key mem gid rr w0 s -> invariant key mem gid rr w0 (schedule_turn who s).
Proof.
  destruct s as [a b held w]. unfold invariant, schedule_turn.
  cbn [first_task second_task locks loop_world].
  intros (Hnf & Hfresh & Hcases).
  destruct Hcases as [(-> & -> & -> & Hw) | [(Ha & -> & ->) | [(-> & Hb & ->) |
    (rid & Hboth & [(Ha & Hb & ->) | [(Ha & Hb & ->) | (Ha & Hb & ->)]])]]].
  - (* both wait for the lock *)
    rewrite !turn_start. cbn [mem_Z existsb].
    destruct who; cbn [first_task second_task locks loop_world];
      (split; [ exact Hnf | ]; split; [ exact Hfresh | ]).
    + right. right. left. repeat split. apply opening_find. exact Hw.
    + right. left. repeat split. apply opening_find. exact Hw.
  - (* the first handler is in the section *)
    destruct who.
    + rewrite turn_start, mem_key. cbn [first_task second_task locks loop_world].
      split; [ exact Hnf | ]. split; [ exact Hfresh | ]. right. left. repeat split.
      exact Ha.
    + destruct (turn_opening Hnf Hfresh Ha)
        as (t' & w' & -> & Hnf' & Hfresh' & Hnext).
      cbn [first_task second_task locks loop_world].
      split; [ exact Hnf' | ]. split; [ exact Hfresh' | ].
      destruct Hnext as [Hopen | (rid & Hboth & Hhold)].
      * right. left. repeat split. exact Hopen.
      * right. right. right. exists rid. split; [ exact Hboth | ]. left.
        split; [ exact Hhold | ]. split; [ left; reflexivity | reflexivity ].
  - (* the second handler is in the section *)
    destruct who.
    + destruct (turn_opening Hnf Hfresh Hb)
        as (t' & w' & -> & Hnf' & Hfresh' & Hnext).
      cbn [first_task second_task locks loop_world].
      split; [ exact Hnf' | ]. split; [ exact Hfresh' | ].
      destruct Hnext as [Hopen | (rid & Hboth & Hhold)].
      * right. right. left. repeat split. exact Hopen.
      * right. right. right. exists rid. split; [ exact Hboth | ]. right. left.
        split; [ left; reflexivity | ]. split; [ exact Hhold | reflexivity ].
    + rewrite turn_start, mem_key. cbn [first_task second_task locks loop_world].
      split; [ exact Hnf | ]. split; [ exact Hfresh | ]. right. right. left.
      repeat split. exact Hb.
  - (* the request is on record, the first handler holds the lock *)
    destruct who.
    + pose proof (turn_free_waiting Hnf Hfresh Hboth Hb) as Hturn.
      destruct (turn b [key] w) as [[[t' held'] w'] |];
        cbn [first_task second_task locks loop_world].
      * destruct Hturn as (-> & Hnf' & Hfresh' & Hboth' & Hfree).
        split; [ exact Hnf' | ]. split; [ exact Hfresh' | ].
        right. right. right. exists rid. split; [ exact Hboth' | ]. left.
        repeat split; assumption.
      * split; [ exact Hnf | ]. split; [ exact Hfresh | ].
        right. right. right. exists rid. split; [ exact Hboth | ]. left.
        repeat split; assumption.
    + destruct (turn_holding Hnf Hfresh Hboth Ha)
        as (t' & held' & w' & -> & Hnf' & Hfresh' & Hboth' & Hnext).
      cbn [first_task second_task locks loop_world].
      split; [ exact Hnf' | ]. split; [ exact Hfresh' | ].
      right. right. right. exists rid. split; [ exact Hboth' | ].
      destruct Hnext as [(Hhold & ->) | (Hout & ->)].
      * left. repeat split; assumption.
      * right. right. split; [ right; exact Hout | ]. split; [ exact Hb | reflexivity ].
  - (* the request is on record, the second handler holds the lock *)
    destruct who.
    + destruct (turn_holding Hnf Hfresh Hboth Hb)
        as (t' & held' & w' & -> & Hnf' & Hfresh' & Hboth' & Hnext).
      cbn [first_task second_task locks loop_world].
      split; [ exact Hnf' | ]. split; [ exact Hfresh' | ].
      right. right. right. exists rid. split; [ exact Hboth' | ].
      destruct Hnext as [(Hhold & ->) | (Hout & ->)].
      * right. left. repeat split; assumption.
      * right. right. split; [ exact Ha | ]. split; [ right; exact Hout | reflexivity ].
    + pose proof (turn_free_waiting Hnf Hfresh Hboth Ha) as Hturn.
      destruct (turn a [key] w) as [[[t' held'] w'] |];
        cbn [first_task second_task locks loop_world].
      * destruct Hturn as (-> & Hnf' & Hfresh' & Hboth' & Hfree).
        split; [ exact Hnf' | ]. split; [ exact Hfresh' | ].
        right. right. right. exists rid. split; [ exact Hboth' | ]. right. left.
        repeat split; assumption.
      * split; [ exact Hnf | ]. split; [ exact Hfresh | ].
        right. right. right. exists rid. split; [ exact Hboth | ]. right. left.
        repeat split; assumption.
  - (* the request is on record, the lock is free *)
    destruct who.
    + pose proof (turn_free Hnf Hfresh Hboth Hb) as Hturn.
      destruct (turn b [] w) as [[[t' held'] w'] |];
        cbn [first_task second_task locks loop_world].
      * destruct Hturn as (Hnf' & Hfresh' & Hboth' & Hnext).
        split; [ exact Hnf' | ]. split; [ exact Hfresh' | ].
        right. right. right. exists rid. split; [ exact Hboth' | ].
        destruct Hnext as [(Hhold & ->) | (Hfree & ->)].
        -- right. left. repeat split; assumption.
        -- right. right. repeat split; assumption.
      * split; [ exact Hnf | ]. split; [ exact Hfresh | ].
        right. right. right. exists rid. split; [ exact Hboth | ]. right. right.
        repeat split; assumption.
    + pose proof (turn_free Hnf Hfresh Hboth Ha) as Hturn.
      destruct (turn a [] w) as [[[t' held'] w'] |];
        cbn [first_task second_task locks loop_world].
      * destruct Hturn as (Hnf' & Hfresh' & Hboth' & Hnext).
        split; [ exact Hnf' | ]. split; [ exact Hfresh' | ].
        right. right. right. exists rid. split; [ exact Hboth' | ].
        destruct Hnext as [(Hhold & ->) | (Hfree & ->)].
        -- left. repeat split; assumption.
        -- right. right. repeat split; assumption.
      * split; [ exact Hnf | ]. split; [ exact Hfresh | ].
        right. right. right. exists rid. split; [ exact Hboth | ]. right. right.
        repeat split; assumption.
Qed.

Lemma invariant_event_loop schedule :
  forall s, invariant key mem gid rr w0 s -> invariant key mem gid rr w0 (event_loop schedule s).
Proof.
  unfold event_loop. induction schedule as [| who rest IH]; intros s Hs; [ exact Hs | ].
  cbn [fold_left]. apply IH. apply invariant_turn. exact Hs.
Qed.

Lemma invariant_finished s :
  invariant key mem gid rr w0 s -> finished s ->
  exists rid, both_created mem rr w0 rid (loop_world s).
Proof.
  intros (_ & _ & Hcases) [Ha Hb].
  destruct Hcases as [(H & _) | [(_ & H & _) | [(H & _) | (rid & Hboth & _)]]].
  - rewrite Ha in H. discriminate.
  - rewrite Hb in H. discriminate.
  - rewrite Ha in H. discriminate.
  - exists rid. exact Hboth.
Qed.

End Race.

Lemma alone_waits n a held w :
  turn a held w = None -> alone n a held w = (a, held, w).
Proof. destruct n; cbn [alone]; [ reflexivity | ]. intros ->. reflexivity. Qed.

(** A handler alone is the loop that gives every turn to it. *)
Lemma event_loop_first_alone n : forall a b held w,
  event_loop (repeat false n) (mkLoop a b held w)
  = let '(a', held', w') := alone n a held w in mkLoop a' b held' w'.
Proof.
  unfold event_loop. induction n as [| n IH]; intros a b held w; [ reflexivity | ].
  cbn [repeat alone fold_left schedule_turn first_task second_task locks loop_world].
  destruct (turn a held w) as [[[a' held'] w'] |] eqn:E.
  - apply IH.
  - rewrite IH, (alone_waits n _ _ _ E). reflexivity.
Qed.

Lemma event_loop_second_alone n : forall a b held w,
  event_loop (repeat true n) (mkLoop a b held w)
  = let '(b', held', w') := alone n b held w in mkLoop a b' held' w'.
Proof.
  unfold event_loop. induction n as [| n IH]; intros a b held w; [ reflexivity | ].
  cbn [repeat alone fold_left schedule_turn first_task second_task locks loop_world].
  destruct (turn b held w) as [[[b' held'] w'] |] eqn:E.
  - apply IH.
  - rewrite IH, (alone_waits n _ _ _ E). reflexivity.
Qed.

Lemma event_loop_app l1 l2 s : event_loop (l1 ++ l2) s = event_loop l2 (event_loop l1 s).
Proof. unfold event_loop. apply fold_left_app. Qed.

(** One handler after the other: both finish. *)
Lemma one_after_the_other key mem gid rr w :
  finished (event_loop (repeat false 10 ++ repeat true 10)
              (mkLoop (request_access_task key mem gid rr)
                 (request_access_task key mem gid rr) [] w)).
Proof.
  rewrite event_loop_app.
  rewrite (event_loop_first_alone 10 (request_access_task key mem gid rr)
             (request_access_task key mem gid rr) [] w).
  rewrite (request_access_task_alone key mem gid rr w).
  cbv beta iota zeta.
  rewrite (event_loop_second_alone 10 Finished (request_access_task key mem gid rr) []
             (after (request_access mem gid rr) w)).
  rewrite (request_access_task_alone key mem gid rr
             (after (request_access mem gid rr) w)).
  split; reflexivity.
Qed.

(** * The claims *)



(** C6.  The removal reaction of the moderator on notice 700 passes the channel,
    own-message and emoji checks, and no tester record has 700 among its leave
    messages: the failure is reported to the channel, and
    [handle_removal_reaction] returns False, "not handled", where its docstring
    promises True for a reaction recognised as a removal reaction;
    [handle_reaction] returns False as well. *)
Theorem removal_without_tester_is_not_handled :
  let p := Sample.moderator_reaction "🗑️" 22 700 in
  let w := Sample.leave_world in
  mem_string (emoji p) (configured removal_emojis 10 w) = true
  /\ find (fun t => mem_Z 700 (leave_message_ids t)) (testers w) = None
  /\ result (handle_removal_reaction p) w = Returned false
  /\ trace (after (handle_removal_reaction p) w)
     = [EChannelSend 22 (TxtNoTesterForLeaveMessage 700) None 1000;
        EAddReaction 700 "⏳"]
  /\ result (handle_reaction p) w = Returned false.
Proof. repeat split; reflexivity. Qed.

(** The condition of the comprehension does not mention the message that
    triggered the transition. *)
Lemma further_other_ids_ignores_trigger :
  forall trigger trigger' r,
    further_other_ids trigger r = further_other_ids trigger' r.
Proof. reflexivity. Qed.

Lemma further_other_ids_str :
  forall trigger r,
    (forall v, In v (further_notification_message_ids r) -> exists z, v = PStr z) ->
    further_other_ids trigger r = further_notification_message_ids r.
Proof.
  intros trigger r H. unfold further_other_ids.
  induction (further_notification_message_ids r) as [| v l IH]; [ reflexivity | ].
  cbn [filter]. destruct (H v (or_introl eq_refl)) as [z ->]. cbn [py_ne py_int].
  f_equal. apply IH. intros v' Hv'. apply H. right. exact Hv'.
Qed.

Lemma further_other_ids_int :
  forall trigger r,
    (forall v, In v (further_notification_message_ids r) -> exists z, v = PInt z) ->
    further_other_ids trigger r = [].
Proof.
  intros trigger r H. unfold further_other_ids.
  induction (further_notification_message_ids r) as [| v l IH]; [ reflexivity | ].
  cbn [filter]. destruct (H v (or_introl eq_refl)) as [z ->]. cbn [py_ne py_int].
  rewrite Z.eqb_refl. cbn [negb]. apply IH. intros v' Hv'. apply H. right. exact Hv'.
Qed.




(** C3, as the spec states it, fails.  The first reaction of a user the store
    does not know yet: the listing is empty and a PENDING request is created,
    but no notification goes to the approval channel; the user, who has no
    email on file, gets the registration prompt instead. *)
Lemma new_request_without_notification :
  let w' := after (handle_role_reaction Sample.signup_reaction) Sample.world in
  filter (request_matches 100 (Some [Some 40]) FilterALL true)
         (requests Sample.world) = []
  /\ map status (requests w') = [PENDING]
  /\ filter is_approval_channel_notification (trace w') = []
  /\ filter is_send (trace w') = [EMemberSend 100 TxtRegistration 1002].
Proof. repeat split; reflexivity. Qed.


(** C8.  The processing marker does not outlive [handle_reaction].  Whatever
    the handlers did and however they ended (a normal return, a store-layer or
    workflow failure reported by an [except] clause, or an exception that is
    passed on) the [finally] clause runs; when its own two calls, the fetch of
    the message and the removal of the reaction, do not fail, the message of
    the event does not show the bot's processing marker afterwards.  Any other
    call may fail in any way. *)
Theorem processing_marker_is_cleared :
  forall w payload c,
    (forall n, faults w n OpFetchMessage = None) ->
    (forall n, faults w n OpRemoveReaction = None) ->
    get_channel (channel_id payload) w = Some c ->
    find_message c (message_id payload) w <> None ->
    shows_processing_marker (message_id payload) (after (handle_reaction payload) w)
    = false.
Proof.
  intros w payload c Hfetch Hremove Hc Hm.
  change (wp (handle_reaction payload) w
            (fun _ w' => shows_processing_marker (message_id payload) w' = false)).
  unfold handle_reaction. apply wp_try_finally.
  assert (Hst : stable w (after (catch (handle_reaction_try payload)
                                   (handle_reaction_except payload)) w)).
  { apply (preserves_catch (R := stable));
      [ apply stable_handle_reaction_try | apply stable_handle_reaction_except ]. }
  unfold wp at 1.
  generalize dependent (after (catch (handle_reaction_try payload)
                                 (handle_reaction_except payload)) w).
  generalize (result (catch (handle_reaction_try payload)
                        (handle_reaction_except payload)) w).
  intros r w1 (Hf & Hch & Hbot & Hmsgs).
  assert (Hc1 : get_channel (channel_id payload) w1 = Some c).
  { unfold get_channel in *. rewrite Hch. exact Hc. }
  unfold handle_reaction_finally. wp_steps. rewrite Hc1.
  unfold get_or_fetch_message. wp_steps.
  destruct (cached_message (message_id payload) w1) as [m |] eqn:Ecached.
  - wp_steps. rewrite Hf, Hremove. wp_steps.
    rewrite (cached_message_ident _ _ Ecached).
    unfold shows_processing_marker. cbn. apply marker_removed.
  - wp_steps. rewrite Hf, Hfetch. wp_steps.
    specialize (Hmsgs c (message_id payload) Hm).
    change (find_message c (message_id payload) (set_calls (S (calls w1)) w1))
      with (find_message c (message_id payload) w1).
    destruct (find_message c (message_id payload) w1) as [m |] eqn:Efound;
      [ | congruence ].
    wp_steps. rewrite Hf, Hremove. wp_steps.
    rewrite (find_message_ident _ _ _ Efound).
    unfold shows_processing_marker. cbn. apply marker_removed.
Qed.

(** A removal that ends in an exception nobody handles: the marker was put on
    notice 700, the distribution API has no credentials, and the marker is
    gone when [handle_reaction] raises. *)
Lemma processing_marker_is_cleared_witness :
  (forall n, faults Sample.departed_world n OpFetchMessage = None)
  /\ (forall n, faults Sample.departed_world n OpRemoveReaction = None)
  /\ get_channel 22 Sample.departed_world = Some 22
  /\ find_message 22 700 Sample.departed_world <> None
  /\ result (handle_reaction (Sample.moderator_reaction "🗑️" 22 700))
       Sample.departed_world = Raised NameError
  /\ existsb (is_reaction processing_emoji)
       (trace (after (handle_reaction (Sample.moderator_reaction "🗑️" 22 700))
                 Sample.departed_world)) = true
  /\ shows_processing_marker 700
       (after (handle_reaction (Sample.moderator_reaction "🗑️" 22 700))
          Sample.departed_world) = false.
Proof.
  assert (H1 : forall n, faults Sample.departed_world n OpFetchMessage = None)
    by (intro n; reflexivity).
  assert (H2 : forall n, faults Sample.departed_world n OpRemoveReaction = None)
    by (intro n; reflexivity).
  assert (H3 : get_channel 22 Sample.departed_world = Some 22) by reflexivity.
  assert (H4 : find_message 22 700 Sample.departed_world <> None)
    by (cbv; discriminate).
  refine (conj H1 (conj H2 (conj H3 (conj H4 (conj _ (conj _ _)))))).
  - reflexivity.
  - reflexivity.
  - exact (@processing_marker_is_cleared Sample.departed_world
             (Sample.moderator_reaction "🗑️" 22 700) 22 H1 H2 H3 H4).
Defined.





(** C7.  A member without an email on file asks for access, and no request of
    theirs for these apps was rejected.  When the registration prompt on the
    tester record is less than 30 minutes old, [handle_role_reaction] returns
    and sends nothing.  When there is none, or it is older, the handler sends
    one message, the registration prompt to the member, keeps its id on the
    tester record and returns, with nothing sent to an approval channel; and
    the same reaction again, less than 30 minutes later, sends nothing. *)
Theorem registration_prompt_cool_down w payload mem gid rr :
  no_faults w ->
  ids_are_fresh w ->
  asks_for_access payload w mem gid rr ->
  email_on_file mem w = false ->
  any_rejected (existing_requests mem rr w) = false ->
  let run := handle_role_reaction payload in
  (recent_prompt mem w = Some true ->
   result run w = Returned tt /\ sends (after run w) = sends w)
  /\
  (recent_prompt mem w = Some false ->
   exists prompt,
     result run w = Returned tt
     /\ sends (after run w)
        = EMemberSend (member_id mem) TxtRegistration prompt :: sends w
     /\ prior_prompt mem (after run w) = Some prompt
     /\ forall later, later < utcnow w + 30 * 60 ->
          let again := set_utcnow later (after run w) in
          result run again = Returned tt
          /\ sends (after run again) = sends (after run w)).
Proof.
  intros Hnf Hfresh Hacc Hmail Hrej run. split; intro Hrecent.
  - apply recent_prompt_is_silent with (mem := mem) (gid := gid) (rr := rr); assumption.
  - destruct (@stale_prompt_is_renewed w payload mem gid rr
                Hnf Hfresh Hacc Hmail Hrej Hrecent) as (Hres & prompt & Hp).
    exists prompt. split; [ exact Hres | ].
    split; [ apply Hp | ]. split; [ apply Hp | ].
    intros later Hlater again.
    destruct (@prompted_again w _ mem rr prompt later payload gid Hnf Hacc Hp Hlater)
      as (Hnf' & Hacc' & Hmail' & Hrej' & Hrecent').
    destruct (@recent_prompt_is_silent _ payload mem gid rr
                Hnf' Hacc' Hmail' Hrej' Hrecent') as [Hres' Hsends'].
    split; [ exact Hres' | exact Hsends' ].
Qed.

(** Tess, not yet on record, reacts to the sign-up post twice, 29 minutes
    apart: one prompt, message 1002. *)
Lemma registration_prompt_cool_down_witness :
  let run := handle_role_reaction Sample.signup_reaction in
  let again := set_utcnow (utcnow Sample.world + 29 * 60) (after run Sample.world) in
  sends (after run Sample.world) = [EMemberSend 100 TxtRegistration 1002]
  /\ sends (after run again) = [EMemberSend 100 TxtRegistration 1002].
Proof.
  cbv zeta.
  assert (Hnf : no_faults Sample.world) by (intros n op; reflexivity).
  assert (Hfresh : ids_are_fresh Sample.world).
  { intros m [<- | []]. reflexivity. }
  assert (Hacc : asks_for_access Sample.signup_reaction Sample.world
                   Sample.tester_member 10
                   (mkReactionRole 10 500 "🍎" 30 [Some 40] false)).
  { repeat split; try reflexivity; try discriminate.
    exists [Sample.app_a]. split; reflexivity. }
  destruct (@registration_prompt_cool_down Sample.world Sample.signup_reaction
              Sample.tester_member 10 (mkReactionRole 10 500 "🍎" 30 [Some 40] false)
              Hnf Hfresh Hacc eq_refl eq_refl) as [_ H].
  destruct (H eq_refl) as (prompt & _ & Hs & _ & Hagain).
  assert (Hsent : sends (after (handle_role_reaction Sample.signup_reaction) Sample.world)
                  = [EMemberSend 100 TxtRegistration 1002])
    by (vm_compute; reflexivity).
  split; [ exact Hsent | ].
  destruct (Hagain (utcnow Sample.world + 29 * 60)) as [_ Hq];
    [ vm_compute; reflexivity | ].
  rewrite <- Hsent. exact Hq.
Defined.

(** C3, amended.  An event asks for access and no call fails.  If the list of
    the member's requests for the apps of the role is empty, one PENDING
    request is created, for the member and the first app of the role; when
    the tester has an email on file and the default approval channel of the
    guild resolves, the handler returns and its one message is the
    notification of that request in that channel.  If a listed request is
    REJECTED, the handler returns with the requests as they were and nothing
    sent.  If the list is not empty, no request is created; when none is
    rejected, the tester has an email on file and the channel of the oldest
    listed request resolves, the handler returns and its one message is the
    notification of that request.  A tester without an email on file causes no
    notification in an approval channel. *)
Theorem request_creation_path w payload mem gid rr :
  no_faults w ->
  asks_for_access payload w mem gid rr ->
  let run := handle_role_reaction payload in
  let w' := after run w in
  let existing := existing_requests mem rr w in
  (existing = [] ->
   exists r,
     new_requests w' = EAddRequest r :: new_requests w
     /\ length (requests w') = S (length (requests w))
     /\ status r = PENDING
     /\ tester_discord_id r = member_id mem
     /\ app r = hd None (app_ids rr)
     /\ (email_on_file mem w = true ->
         forall ch, default_channel gid w = Some ch ->
           result run w = Returned tt
           /\ exists mid,
                sends w' = EChannelSend ch (request_notification (member_id mem) r)
                             None mid :: sends w))
  /\
  (any_rejected existing = true ->
   result run w = Returned tt /\ requests w' = requests w /\ sends w' = sends w)
  /\
  (forall oldest rest, existing = oldest :: rest ->
     new_requests w' = new_requests w
     /\ length (requests w') = length (requests w)
     /\ (any_rejected existing = false ->
         email_on_file mem w = true ->
         forall ch, notification_channel oldest w = Some ch ->
           result run w = Returned tt
           /\ exists mid,
                sends w' = EChannelSend ch
                             (request_notification (member_id mem) oldest)
                             None mid :: sends w))
  /\
  (email_on_file mem w = false -> notifications w' = notifications w).
Proof.
  intros Hnf Hacc run w' existing. subst run w' existing.
  split; [ | split; [ | split ] ].
  - intro Eex.
    change (wp (handle_role_reaction payload) w
              (fun res w' =>
                 exists r,
                   new_requests w' = EAddRequest r :: new_requests w
                   /\ length (requests w') = S (length (requests w))
                   /\ status r = PENDING
                   /\ tester_discord_id r = member_id mem
                   /\ app r = hd None (app_ids rr)
                   /\ (email_on_file mem w = true ->
                       forall ch, default_channel gid w = Some ch ->
                         res = Returned tt
                         /\ exists mid,
                              sends w' = EChannelSend ch
                                           (request_notification (member_id mem) r)
                                           None mid :: sends w))).
    eapply wp_handle_role_reaction_creation; [ exact Hnf | exact Hacc | | | ].
    + intros W t r (Hset & Hrec & Hdisc & Hmail & Hsends & Hreqs & Hnew & Hst & Hid
                    & Happ & Hsrv & Hchan & Hnote) _.
      unfold wp. exists r.
      destruct (no_new_request_after_creation mem t [] (Some r) W) as [Hlen Hnn].
      refine (conj _ (conj _ (conj Hst (conj Hid (conj Happ _))))).
      * rewrite Hnn. exact Hnew.
      * rewrite Hlen, Hreqs, length_app. cbn [length]. lia.
      * intros Hemail ch Hch.
        change (wp (after_creation mem t [] (Some r)) W
                  (fun res w' =>
                     res = Returned tt
                     /\ exists mid,
                          sends w' = EChannelSend ch
                                       (request_notification (member_id mem) r)
                                       None mid :: sends w)).
        apply wp_after_creation_notifies with (subject := r) (ch := ch).
        -- exact (@no_faults_same_setting w W Hset Hnf).
        -- congruence.
        -- reflexivity.
        -- unfold notification_channel. rewrite Hchan, Hsrv.
           rewrite (@default_channel_same_setting w W gid Hset). exact Hch.
        -- intros w' Hw'. split; [ reflexivity | ]. exists (next_id W).
           rewrite Hw', Hsends. reflexivity.
    + intros W t _ Hrej. exfalso. exact (@any_rejected_nil_inv _ Eex Hrej).
    + intros W t _ Hne _. contradiction.
  - intro Hrej.
    change (wp (handle_role_reaction payload) w
              (fun res w' =>
                 res = Returned tt /\ requests w' = requests w /\ sends w' = sends w)).
    eapply wp_handle_role_reaction_creation; [ exact Hnf | exact Hacc | | | ].
    + intros W t r _ Eex. exfalso. exact (@any_rejected_nil_inv _ Eex Hrej).
    + intros W t (_ & _ & _ & _ & Hsends & Hreqs & _) _.
      split; [ reflexivity | ]. split; assumption.
    + intros W t _ _ Hnot. congruence.
  - intros oldest rest Eex.
    change (wp (handle_role_reaction payload) w
              (fun res w' =>
                 new_requests w' = new_requests w
                 /\ length (requests w') = length (requests w)
                 /\ (any_rejected (existing_requests mem rr w) = false ->
                     email_on_file mem w = true ->
                     forall ch, notification_channel oldest w = Some ch ->
                       res = Returned tt
                       /\ exists mid,
                            sends w' = EChannelSend ch
                                         (request_notification (member_id mem) oldest)
                                         None mid :: sends w))).
    eapply wp_handle_role_reaction_creation; [ exact Hnf | exact Hacc | | | ].
    + intros W t r _ Enil. congruence.
    + intros W t (_ & _ & _ & _ & _ & Hreqs & Hnew) Hrej.
      split; [ exact Hnew | ]. split; [ rewrite Hreqs; reflexivity | ].
      intro Hnot. congruence.
    + intros W t (Hset & Hrec & Hdisc & Hmail & Hsends & Hreqs & Hnew) _ _.
      unfold wp.
      destruct (no_new_request_after_creation mem t (existing_requests mem rr w)
                  None W) as [Hlen Hnn].
      split; [ congruence | ]. split; [ congruence | ].
      intros _ Hemail ch Hch.
      change (wp (after_creation mem t (existing_requests mem rr w) None) W
                (fun res w' =>
                   res = Returned tt
                   /\ exists mid,
                        sends w' = EChannelSend ch
                                     (request_notification (member_id mem) oldest)
                                     None mid :: sends w)).
      apply wp_after_creation_notifies with (subject := oldest) (ch := ch).
      * exact (@no_faults_same_setting w W Hset Hnf).
      * congruence.
      * rewrite Eex. reflexivity.
      * rewrite (@notification_channel_same_setting w W oldest Hset). exact Hch.
      * intros w' Hw'. split; [ reflexivity | ]. exists (next_id W).
        rewrite Hw', Hsends. reflexivity.
  - intro Hemail.
    change (wp (handle_role_reaction payload) w
              (fun res w' => notifications w' = notifications w)).
    eapply wp_handle_role_reaction_creation; [ exact Hnf | exact Hacc | | | ].
    + intros W t r (_ & _ & _ & Hmail & Hsends & _) _.
      apply wp_after_creation_no_email; [ congruence | ].
      intros res w' Hun. unfold unnotified in Hun. rewrite Hun.
      apply notifications_same_sends. exact Hsends.
    + intros W t (_ & _ & _ & _ & Hsends & _) _.
      apply notifications_same_sends. exact Hsends.
    + intros W t (_ & _ & _ & Hmail & Hsends & _) _ _.
      apply wp_after_creation_no_email; [ congruence | ].
      intros res w' Hun. unfold unnotified in Hun. rewrite Hun.
      apply notifications_same_sends. exact Hsends.
Qed.

(** Tess, with an email on file, asks for access to app 40: without a request
    on record one is created and notified in channel 20; with a PENDING
    request no request is created and that one is notified again; with a
    REJECTED request nothing is stored and nothing is sent. *)
Lemma request_creation_path_witness :
  (let w := set_testers [Sample.registered_tester] Sample.world in
   let w' := after (handle_role_reaction Sample.signup_reaction) w in
   exists r mid,
     new_requests w' = [EAddRequest r]
     /\ status r = PENDING
     /\ sends w' = [EChannelSend 20 (request_notification 100 r) None mid])
  /\
  (let w := Sample.world_with_request PENDING [] [] in
   let w' := after (handle_role_reaction Sample.signup_reaction) w in
   new_requests w' = []
   /\ exists mid,
        sends w' = [EChannelSend 20
                      (request_notification 100
                         (Sample.request_of PENDING (Some (PStr 600)) []))
                      None mid])
  /\
  (let w := Sample.world_with_request REJECTED [] [] in
   let w' := after (handle_role_reaction Sample.signup_reaction) w in
   requests w' = requests w /\ sends w' = []).
Proof.
  cbv zeta.
  assert (Hacc : forall w,
            guilds w = guilds Sample.world ->
            watched w = watched Sample.world ->
            reaction_roles w = reaction_roles Sample.world ->
            apps w = apps Sample.world ->
            guild_configs w = guild_configs Sample.world ->
            asks_for_access Sample.signup_reaction w Sample.tester_member 10
              (mkReactionRole 10 500 "🍎" 30 [Some 40] false)).
  { intros w Hg Hw Hr Ha Hc.
    unfold asks_for_access, get_guild, reaction_role_of, rules_in_order, guild_config.
    rewrite Hg, Hw, Hr, Ha, Hc.
    repeat split; try reflexivity; try discriminate.
    exists [Sample.app_a]. split; reflexivity. }
  split; [ | split ].
  - destruct (@request_creation_path
                (set_testers [Sample.registered_tester] Sample.world)
                Sample.signup_reaction Sample.tester_member 10
                (mkReactionRole 10 500 "🍎" 30 [Some 40] false))
      as [H _].
    + intros n op. reflexivity.
    + apply Hacc; reflexivity.
    + destruct (H eq_refl) as (r & Hnew & _ & Hst & _ & _ & Hsent).
      destruct (Hsent eq_refl 20 eq_refl) as (_ & mid & Hs).
      exists r, mid. split; [ exact Hnew | ]. split; [ exact Hst | exact Hs ].
  - destruct (@request_creation_path (Sample.world_with_request PENDING [] [])
                Sample.signup_reaction Sample.tester_member 10
                (mkReactionRole 10 500 "🍎" 30 [Some 40] false))
      as (_ & _ & H & _).
    + intros n op. reflexivity.
    + apply Hacc; reflexivity.
    + destruct (H (Sample.request_of PENDING (Some (PStr 600)) []) [] eq_refl)
        as (Hnew & _ & Hsent).
      destruct (Hsent eq_refl eq_refl 20 eq_refl) as (_ & mid & Hs).
      split; [ exact Hnew | ]. exists mid. exact Hs.
  - destruct (@request_creation_path (Sample.world_with_request REJECTED [] [])
                Sample.signup_reaction Sample.tester_member 10
                (mkReactionRole 10 500 "🍎" 30 [Some 40] false))
      as (_ & H & _).
    + intros n op. reflexivity.
    + apply Hacc; reflexivity.
    + destruct (H eq_refl) as (_ & Hreqs & Hs).
      split; [ exact Hreqs | exact Hs ].
Defined.



(** Were the two handlers to take different locks, the same turns would put
    two requests on record. *)
Lemma separate_locks_do_not_serialize :
  let role := mkReactionRole 10 500 "🍎" 30 [Some 40] false in
  let final :=
    event_loop (taking_turns 20)
      (mkLoop (request_access_task 1 Sample.tester_member 10 role)
         (request_access_task 2 Sample.tester_member 10 role) [] Sample.world) in
  finished final
  /\ map status (requests (loop_world final)) = [PENDING; PENDING].
Proof. cbv zeta. split; [ split | ]; vm_compute; reflexivity. Qed.

(** C9.  Two reactions of one member for the same reaction role arrive while
    neither the tester nor a request of theirs for the apps of the role is on
    record; both handlers have reached [async with self.tester_locks[...]],
    with the key of the acting user, and no call fails.  The two handlers can
    both finish; and however the event loop interleaves them at their awaits,
    once both have finished the store holds one tester record more, the one
    of this member, and one request more, the one listed for the member and
    the role, which is PENDING. *)
Theorem lock_serializes_creation :
  forall key mem gid rr w0,
    no_faults w0 ->
    fresh_requests w0 ->
    app_ids rr <> [] ->
    tester_on_record mem w0 = None ->
    existing_requests mem rr w0 = [] ->
    let start := mkLoop (request_access_task key mem gid rr)
                   (request_access_task key mem gid rr) [] w0 in
    (exists schedule, finished (event_loop schedule start))
    /\ forall schedule,
         finished (event_loop schedule start) ->
         let w := loop_world (event_loop schedule start) in
         length (testers w) = S (length (testers w0))
         /\ length (filter (fun t => discord_id t =? member_id mem) (testers w)) = 1%nat
         /\ length (requests w) = S (length (requests w0))
         /\ exists r, existing_requests mem rr w = [r] /\ status r = PENDING.
Proof.
  intros key mem gid rr w0 Hnf Hfresh Happs Htester Hnone start. split.
  - exists (repeat false 10 ++ repeat true 10). apply one_after_the_other.
  - intros schedule Hfin w.
    assert (Hinit : invariant key mem gid rr w0 start).
    { split; [ exact Hnf | ]. split; [ exact Hfresh | ]. left.
      repeat split; try reflexivity.
      - apply find_none_filter. exact Htester.
      - exact Hnone. }
    destruct (invariant_finished (invariant_event_loop Happs schedule Hinit) Hfin)
      as (rid & Hts & (r & Hr & _ & Hst & _) & _ & _ & Hlt & Hlr).
    fold w in Hts, Hr, Hlt, Hlr.
    split; [ exact Hlt | ]. split; [ exact Hts | ]. split; [ exact Hlr | ].
    exists r. split; [ exact Hr | exact Hst ].
Qed.

(** Tess reacts twice to the sign-up post and the two handlers take turns:
    one tester, one request. *)
Lemma lock_serializes_creation_witness :
  let handler :=
    request_access_task 100 Sample.tester_member 10
      (mkReactionRole 10 500 "🍎" 30 [Some 40] false) in
  let final := event_loop (taking_turns 20) (mkLoop handler handler [] Sample.world) in
  finished final
  /\ length (testers (loop_world final)) = 1%nat
  /\ map status (requests (loop_world final)) = [PENDING].
Proof.
  cbv zeta.
  assert (Hfin : finished
                   (event_loop (taking_turns 20)
                      (mkLoop
                         (request_access_task 100 Sample.tester_member 10
                            (mkReactionRole 10 500 "🍎" 30 [Some 40] false))
                         (request_access_task 100 Sample.tester_member 10
                            (mkReactionRole 10 500 "🍎" 30 [Some 40] false))
                         [] Sample.world)))
    by (split; vm_compute; reflexivity).
  split; [ exact Hfin | ].
  destruct (@lock_serializes_creation 100 Sample.tester_member 10
              (mkReactionRole 10 500 "🍎" 30 [Some 40] false) Sample.world)
    as [_ H].
  - intros n op. reflexivity.
  - intros s i [].
  - discriminate.
  - reflexivity.
  - reflexivity.
  - destruct (H (taking_turns 20) Hfin) as (Hts & _ & Hrs & r & Hr & Hst).
    split; [ exact Hts | ].
    vm_compute. reflexivity.
Defined.

(** * Further properties of the engine *)

(** ** What [handle_reaction] does with an event and with a failure *)

#[export] Instance same_client_frame : Frame same_client.
Proof.
  split; unfold same_client.
  - intros w. repeat split; reflexivity.
  - intros a b c (A1 & A2 & A3 & A4 & A5 & A6) (B1 & B2 & B3 & B4 & B5 & B6).
    repeat split; congruence.
  - intros w n. repeat split; reflexivity.
Qed.

#[export] Instance same_client_outward : OutwardFrame same_client.
Proof.
  split; [ exact same_client_frame | | | | ]; unfold same_client;
    intros; repeat split; reflexivity.
Qed.

Ltac same_client_side :=
  lazymatch goal with
  | |- same_client _ _ => unfold same_client; repeat split; reflexivity
  end.

Lemma same_client_handle_reaction_try p :
  preserves same_client (handle_reaction_try p).
Proof.
  preserve;
    try apply preserves_cached_or_fetched;
    try apply preserves_remove_from_all_groups;
    try same_client_side.
Qed.

(** The [finally] clause, when its two calls do not fail. *)
Lemma wp_handle_reaction_finally w payload c (Q : outcome unit -> World -> Prop) :
  (forall n, faults w n OpFetchMessage = None) ->
  (forall n, faults w n OpRemoveReaction = None) ->
  get_channel (channel_id payload) w = Some c ->
  find_message c (message_id payload) w <> None ->
  (forall w',
     trace w' = ERemoveReaction (message_id payload) processing_emoji :: trace w ->
     unchanged_stores w w' ->
     Q (Returned tt) w') ->
  wp (handle_reaction_finally payload) w Q.
Proof.
  intros Hfetch Hremove Hc Hm HQ.
  unfold handle_reaction_finally. wp_steps. rewrite Hc.
  unfold get_or_fetch_message. wp_steps.
  destruct (cached_message (message_id payload) w) as [m |] eqn:Ecached.
  - wp_steps. rewrite Hremove. wp_steps.
    rewrite (cached_message_ident _ _ Ecached).
    apply HQ; [ reflexivity | unfold unchanged_stores; cbn; repeat split; reflexivity ].
  - wp_steps. rewrite Hfetch. wp_steps.
    change (find_message c (message_id payload) (set_calls (S (calls w)) w))
      with (find_message c (message_id payload) w).
    destruct (find_message c (message_id payload) w) as [m |] eqn:Efound;
      [ | congruence ].
    wp_steps. rewrite Hremove. wp_steps.
    rewrite (find_message_ident _ _ _ Efound).
    apply HQ; [ reflexivity | unfold unchanged_stores; cbn; repeat split; reflexivity ].
Qed.

(** The world the [try] block leaves behind resolves what [w] resolves. *)
Lemma after_handle_reaction_try payload w r w1 :
  handle_reaction_try payload w = (r, w1) ->
  stable w w1 /\ same_client w w1.
Proof.
  intro H. split.
  - pose proof (stable_handle_reaction_try payload w) as Hs.
    unfold after in Hs. rewrite H in Hs. exact Hs.
  - pose proof (same_client_handle_reaction_try payload w) as Hs.
    unfold after in Hs. rewrite H in Hs. exact Hs.
Qed.

Lemma unchanged_stores_trans a b c :
  unchanged_stores a b -> unchanged_stores b c -> unchanged_stores a c.
Proof.
  intros (A1 & A2 & A3 & A4) (B1 & B2 & B3 & B4).
  unfold unchanged_stores. repeat split; congruence.
Qed.

(** X1.  A reaction that was taken back is handled by no handler.  For an event
    that is not a reaction-add, [handle_reaction] returns False and its only
    effect is the removal of the bot's processing marker from the message of
    the event, by the [finally] clause; the requests, testers, member roles
    and beta groups are as before.  Only the two calls of the [finally]
    clause must not fail. *)
Theorem removed_reaction_only_clears_the_marker :
  forall w payload c,
    event_type payload = REACTION_REMOVE ->
    (forall n, faults w n OpFetchMessage = None) ->
    (forall n, faults w n OpRemoveReaction = None) ->
    get_channel (channel_id payload) w = Some c ->
    find_message c (message_id payload) w <> None ->
    result (handle_reaction payload) w = Returned false
    /\ trace (after (handle_reaction payload) w)
       = ERemoveReaction (message_id payload) processing_emoji :: trace w
    /\ unchanged_stores w (after (handle_reaction payload) w).
Proof.
  intros w payload c Hev Hfetch Hremove Hc Hm.
  change (wp (handle_reaction payload) w
            (fun o w' =>
               o = Returned false
               /\ trace w'
                  = ERemoveReaction (message_id payload) processing_emoji :: trace w
               /\ unchanged_stores w w')).
  unfold handle_reaction. apply wp_try_finally. apply wp_catch.
  unfold handle_reaction_try. rewrite Hev. wp_steps.
  apply wp_handle_reaction_finally with (c := c); try assumption.
  intros w' Ht Hs. auto.
Qed.

(** The moderator takes the thumb back from message 600: the marker is
    removed and the request is as it was. *)
Lemma removed_reaction_only_clears_the_marker_witness :
  let p := mkPayload REACTION_REMOVE 200 600 20 (Some 10) "👍" (Some Sample.moderator) in
  let w := Sample.world_with_request PENDING [] [] in
  result (handle_reaction p) w = Returned false
  /\ trace (after (handle_reaction p) w) = [ERemoveReaction 600 processing_emoji]
  /\ requests (after (handle_reaction p) w) = requests w.
Proof.
  cbv zeta.
  destruct (@removed_reaction_only_clears_the_marker
              (Sample.world_with_request PENDING [] [])
              (mkPayload REACTION_REMOVE 200 600 20 (Some 10) "👍" (Some Sample.moderator))
              20 eq_refl (fun _ => eq_refl) (fun _ => eq_refl) eq_refl
              ltac:(cbv; discriminate))
    as (Hres & Htr & Hreq & _).
  split; [ exact Hres | ]. split; [ exact Htr | exact Hreq ].
Defined.

(** X2.  An event in a channel that the client does not resolve ([get_channel]
    gives None) always ends in an AttributeError: whatever the handlers and
    the [except] clauses did, and whatever call failed, the [finally] clause
    asks None for a partial message, and its exception replaces the outcome
    of [handle_reaction]. *)
Theorem event_in_unresolved_channel_raises :
  forall w payload,
    get_channel (channel_id payload) w = None ->
    result (handle_reaction payload) w = Raised AttributeError.
Proof.
  intros w payload Hc.
  change (wp (handle_reaction payload) w (fun o _ => o = Raised AttributeError)).
  unfold handle_reaction. apply wp_try_finally.
  assert (Hst : stable w (after (catch (handle_reaction_try payload)
                                   (handle_reaction_except payload)) w)).
  { apply (preserves_catch (R := stable));
      [ apply stable_handle_reaction_try | apply stable_handle_reaction_except ]. }
  unfold wp at 1.
  generalize dependent (after (catch (handle_reaction_try payload)
                                 (handle_reaction_except payload)) w).
  generalize (result (catch (handle_reaction_try payload)
                        (handle_reaction_except payload)) w).
  intros r w1 (_ & Hch & _ & _).
  assert (Hc1 : get_channel (channel_id payload) w1 = None).
  { unfold get_channel in *. rewrite Hch. exact Hc. }
  unfold handle_reaction_finally. wp_steps. rewrite Hc1.
  unfold get_or_fetch_message. wp_steps. reflexivity.
Qed.

(** A reaction in channel 99, which the client does not know. *)
Lemma event_in_unresolved_channel_raises_witness :
  get_channel 99 (Sample.world_with_request PENDING [] []) = None
  /\ result (handle_reaction (Sample.moderator_reaction "👍" 99 600))
       (Sample.world_with_request PENDING [] []) = Raised AttributeError.
Proof.
  split; [ reflexivity | ].
  exact (@event_in_unresolved_channel_raises
           (Sample.world_with_request PENDING [] [])
           (Sample.moderator_reaction "👍" 99 600) eq_refl).
Defined.

(** A message sent leaves the messages there were. *)
Lemma find_message_sent c mid w m n k tr :
  find_message c mid w <> None ->
  find_message c mid
    (set_trace tr (set_messages (messages w ++ [m]) (set_next_id k (set_calls n w))))
  <> None.
Proof. intro H. apply (find_message_app c mid w [m] H). Qed.

(** X3.  A workflow failure is reported and counts as handled.  When the handlers
    of a reaction end in a [ReactionRoleError], [handle_reaction] sends its
    message, with the mention the error carries, to the channel of the
    reaction, as a reply to the message the error refers to; it removes the
    processing marker and returns True, and the requests, testers, member
    roles and beta groups are as the handlers left them. *)
Theorem workflow_failure_is_reported_as_handled :
  forall w payload w1 c err reference mention,
    handle_reaction_try payload w
    = (Raised (ReactionRoleError err reference mention), w1) ->
    (forall n, faults w n OpChannelSend = None) ->
    (forall n, faults w n OpFetchMessage = None) ->
    (forall n, faults w n OpRemoveReaction = None) ->
    get_channel (channel_id payload) w = Some c ->
    find_message c (message_id payload) w <> None ->
    result (handle_reaction payload) w = Returned true
    /\ trace (after (handle_reaction payload) w)
       = ERemoveReaction (message_id payload) processing_emoji
         :: EChannelSend c (TxtReactionRoleError mention err) (Some reference)
              (next_id w1)
         :: trace w1
    /\ unchanged_stores w1 (after (handle_reaction payload) w).
Proof.
  intros w payload w1 c err reference mention Htry Hsend Hfetch Hremove Hc Hm.
  destruct (after_handle_reaction_try _ _ Htry)
    as [(Hf & Hch & Hbot & Hmsgs) _].
  assert (Hc1 : get_channel (channel_id payload) w1 = Some c).
  { unfold get_channel in *. rewrite Hch. exact Hc. }
  change (wp (handle_reaction payload) w
            (fun o w' =>
               o = Returned true
               /\ trace w'
                  = ERemoveReaction (message_id payload) processing_emoji
                    :: EChannelSend c (TxtReactionRoleError mention err)
                         (Some reference) (next_id w1)
                    :: trace w1
               /\ unchanged_stores w1 w')).
  unfold handle_reaction. apply wp_try_finally. apply wp_catch.
  unfold wp at 1, result, after. rewrite Htry. cbn [fst snd].
  unfold handle_reaction_except. wp_steps. rewrite Hc1. wp_steps.
  rewrite Hf, Hsend. wp_steps.
  match goal with |- wp _ ?W _ =>
    apply wp_handle_reaction_finally with (w := W) (c := c) end.
  - intro n. cbn. rewrite Hf. apply Hfetch.
  - intro n. cbn. rewrite Hf. apply Hremove.
  - exact Hc1.
  - apply find_message_sent. apply Hmsgs. exact Hm.
  - intros w' Ht Hs. cbn in Ht. split; [ reflexivity | ]. split; [ exact Ht | ].
    eapply unchanged_stores_trans; [ | exact Hs ].
    unfold unchanged_stores; cbn; repeat split; reflexivity.
Qed.

(** The moderator approves the request of message 600, whose tester has no
    record: the failure is the reply 1000, the event counts as handled and
    the request stays PENDING. *)
Lemma workflow_failure_is_reported_as_handled_witness :
  let p := Sample.moderator_reaction "👍" 20 600 in
  let w := Cases.untested_world in
  result (handle_reaction_try p) w
  = Raised (ReactionRoleError "could not find tester" 600 (Some 200))
  /\ result (handle_reaction p) w = Returned true
  /\ trace (after (handle_reaction p) w)
     = [ERemoveReaction 600 processing_emoji;
        EChannelSend 20 (TxtReactionRoleError (Some 200) "could not find tester")
          (Some 600) 1000]
  /\ map status (requests (after (handle_reaction p) w)) = [PENDING].
Proof.
  cbv zeta.
  assert (Htry : handle_reaction_try (Sample.moderator_reaction "👍" 20 600)
                   Cases.untested_world
                 = (Raised (ReactionRoleError "could not find tester" 600 (Some 200)),
                    after (handle_reaction_try (Sample.moderator_reaction "👍" 20 600))
                      Cases.untested_world))
    by (vm_compute; reflexivity).
  destruct (@workflow_failure_is_reported_as_handled
              Cases.untested_world (Sample.moderator_reaction "👍" 20 600)
              _ 20 _ _ _ Htry (fun _ => eq_refl) (fun _ => eq_refl) (fun _ => eq_refl)
              eq_refl ltac:(cbv; discriminate))
    as (Hres & Htr & Hreq & _).
  split; [ vm_compute; reflexivity | ]. split; [ exact Hres | ].
  split; [ rewrite Htr; vm_compute; reflexivity | ].
  rewrite Hreq. vm_compute. reflexivity.
Defined.

Lemma wp_is_approval_channel_spared w channel gid (Q : outcome bool -> World -> Prop) :
  (forall n, faults w n OpGetDefaultApprovalsChannelId = None) ->
  (forall n, Q (Returned (approval_channel_of w channel gid)) (set_calls n w)) ->
  wp (is_approval_channel channel gid) w Q.
Proof.
  intros Hd HQ. unfold is_approval_channel, approval_channel_of in *.
  wp_run_with ltac:(rewrite Hd) w.
  destruct (mem_Z channel (approvals_channel_ids w)) eqn:E.
  - wp_run_with ltac:(rewrite Hd) w. specialize (HQ (calls w)).
    rewrite set_calls_same in HQ. exact HQ.
  - wp_run_with ltac:(rewrite Hd) w. apply HQ.
Qed.

Lemma approval_channel_of_same_client w w1 c gid :
  same_client w w1 -> approval_channel_of w1 c gid = approval_channel_of w c gid.
Proof.
  intros (_ & _ & _ & _ & Ha & Hcfg).
  unfold approval_channel_of, guild_config. rewrite Ha, Hcfg. reflexivity.
Qed.

Lemma default_channel_same_client w w1 gid :
  same_client w w1 -> default_channel gid w1 = default_channel gid w.
Proof.
  intros (_ & Hc & _ & _ & _ & Hcfg).
  unfold default_channel, guild_config, get_channel. rewrite Hc, Hcfg. reflexivity.
Qed.

(** X4.  A store-layer failure is reported and the event counts as not handled.
    When the handlers of a reaction end in an [AirTableError],
    [handle_reaction] tells the reacting member, as a reply to the message of
    the event: in the channel of the reaction when that is an approval
    channel of the guild, in the default approval channel of the guild
    otherwise.  It removes the processing marker and returns False. *)
Theorem store_failure_is_reported_as_not_handled :
  forall w payload w1 c gid mem err target,
    handle_reaction_try payload w = (Raised (AirTableError err), w1) ->
    (forall n, faults w n OpChannelSend = None) ->
    (forall n, faults w n OpGetDefaultApprovalsChannelId = None) ->
    (forall n, faults w n OpFetchMessage = None) ->
    (forall n, faults w n OpRemoveReaction = None) ->
    get_channel (channel_id payload) w = Some c ->
    find_message c (message_id payload) w <> None ->
    guild_id payload = Some gid ->
    member payload = Some mem ->
    (if approval_channel_of w (channel_id payload) gid then Some c
     else default_channel gid w) = Some target ->
    result (handle_reaction payload) w = Returned false
    /\ trace (after (handle_reaction payload) w)
       = ERemoveReaction (message_id payload) processing_emoji
         :: EChannelSend target (TxtFailedToHandle (member_id mem) err)
              (Some (message_id payload)) (next_id w1)
         :: trace w1
    /\ unchanged_stores w1 (after (handle_reaction payload) w).
Proof.
  intros w payload w1 c gid mem err target Htry Hsend Hdefault Hfetch Hremove
    Hc Hm Hgid Hmem Htarget.
  destruct (after_handle_reaction_try _ _ Htry)
    as [(Hf & Hch & Hbot & Hmsgs) Hclient].
  assert (Hc1 : get_channel (channel_id payload) w1 = Some c).
  { unfold get_channel in *. rewrite Hch. exact Hc. }
  rewrite <- (approval_channel_of_same_client _ _ Hclient),
          <- (default_channel_same_client _ Hclient) in Htarget.
  change (wp (handle_reaction payload) w
            (fun o w' =>
               o = Returned false
               /\ trace w'
                  = ERemoveReaction (message_id payload) processing_emoji
                    :: EChannelSend target (TxtFailedToHandle (member_id mem) err)
                         (Some (message_id payload)) (next_id w1)
                    :: trace w1
               /\ unchanged_stores w1 w')).
  unfold handle_reaction. apply wp_try_finally. apply wp_catch.
  unfold wp at 1, result, after. rewrite Htry. cbn [fst snd].
  unfold handle_reaction_except. wp_steps. rewrite Hc1, Hgid. wp_steps.
  apply wp_is_approval_channel_spared; [ intro n; rewrite Hf; apply Hdefault | ].
  intro n.
  assert (Hfinally :
    forall k,
      wp (handle_reaction_finally payload)
        (set_trace
           (EChannelSend target (TxtFailedToHandle (member_id mem) err)
              (Some (message_id payload)) (next_id w1) :: trace w1)
           (set_messages
              (messages w1
               ++ [mkMessage (next_id w1) target (bot_user w1) (utcnow w1) [] false
                     (TxtFailedToHandle (member_id mem) err)])
              (set_next_id (next_id w1 + 1) (set_calls k w1))))
        (fun rc w'' =>
           match rc with
           | Returned _ =>
               Returned false = Returned false
               /\ trace w''
                  = ERemoveReaction (message_id payload) processing_emoji
                    :: EChannelSend target (TxtFailedToHandle (member_id mem) err)
                         (Some (message_id payload)) (next_id w1)
                    :: trace w1
               /\ unchanged_stores w1 w''
           | Raised e =>
               Raised e = Returned false
               /\ trace w''
                  = ERemoveReaction (message_id payload) processing_emoji
                    :: EChannelSend target (TxtFailedToHandle (member_id mem) err)
                         (Some (message_id payload)) (next_id w1)
                    :: trace w1
               /\ unchanged_stores w1 w''
           end)).
  { intro k. apply wp_handle_reaction_finally with (c := c).
    - intro i. cbn. rewrite Hf. apply Hfetch.
    - intro i. cbn. rewrite Hf. apply Hremove.
    - exact Hc1.
    - apply find_message_sent. apply Hmsgs. exact Hm.
    - intros w' Ht Hs. cbn in Ht. split; [ reflexivity | ]. split; [ exact Ht | ].
      eapply unchanged_stores_trans; [ | exact Hs ].
      unfold unchanged_stores; cbn; repeat split; reflexivity. }
  destruct (approval_channel_of w1 (channel_id payload) gid).
  - injection Htarget as <-. wp_steps. rewrite Hmem. wp_steps.
    rewrite Hf, Hsend. wp_steps. apply Hfinally.
  - unfold default_channel in Htarget. wp_steps. rewrite Hf, Hdefault. wp_steps.
    wnorm w1.
    destruct (match guild_config gid w1 with
              | Some cfg => default_approvals_channel_id cfg
              | None => None
              end) as [d |]; [ | discriminate ].
    wp_steps. wnorm w1. rewrite Htarget. wp_steps. rewrite Hmem. wp_steps.
    rewrite Hf, Hsend. wp_steps. apply Hfinally.
Qed.

(** The store is down when the request of message 600 is looked up. *)
Lemma store_failure_is_reported_as_not_handled_witness :
  let p := Sample.moderator_reaction "👍" 20 600 in
  let w := Cases.store_down in
  result (handle_reaction_try p) w = Raised (AirTableError "down")
  /\ result (handle_reaction p) w = Returned false
  /\ trace (after (handle_reaction p) w)
     = [ERemoveReaction 600 processing_emoji;
        EChannelSend 20 (TxtFailedToHandle 200 "down") (Some 600) 1000].
Proof.
  cbv zeta.
  assert (Htry : handle_reaction_try (Sample.moderator_reaction "👍" 20 600)
                   Cases.store_down
                 = (Raised (AirTableError "down"),
                    after (handle_reaction_try (Sample.moderator_reaction "👍" 20 600))
                      Cases.store_down))
    by (vm_compute; reflexivity).
  destruct (@store_failure_is_reported_as_not_handled
              Cases.store_down (Sample.moderator_reaction "👍" 20 600)
              _ 20 10 Sample.moderator "down" 20 Htry
              (fun _ => eq_refl) (fun _ => eq_refl) (fun _ => eq_refl)
              (fun _ => eq_refl) eq_refl ltac:(cbv; discriminate)
              eq_refl eq_refl eq_refl)
    as (Hres & Htr & _).
  split; [ vm_compute; reflexivity | ]. split; [ exact Hres | ].
  rewrite Htr. vm_compute. reflexivity.
Defined.

(** X5.  An exception of the handlers that is neither a store-layer nor a workflow
    failure (a Discord failure, the exception group of a task group, an
    AttributeError, ...) is reported to nobody: the [finally] clause removes
    the processing marker and [handle_reaction] raises the exception to its
    caller. *)
Theorem other_failures_are_passed_on :
  forall w payload w1 c e,
    handle_reaction_try payload w = (Raised e, w1) ->
    (forall err, e <> AirTableError err) ->
    (forall err reference mention, e <> ReactionRoleError err reference mention) ->
    (forall n, faults w n OpFetchMessage = None) ->
    (forall n, faults w n OpRemoveReaction = None) ->
    get_channel (channel_id payload) w = Some c ->
    find_message c (message_id payload) w <> None ->
    result (handle_reaction payload) w = Raised e
    /\ trace (after (handle_reaction payload) w)
       = ERemoveReaction (message_id payload) processing_emoji :: trace w1
    /\ unchanged_stores w1 (after (handle_reaction payload) w).
Proof.
  intros w payload w1 c e Htry Hstore Hworkflow Hfetch Hremove Hc Hm.
  destruct (after_handle_reaction_try _ _ Htry)
    as [(Hf & Hch & Hbot & Hmsgs) _].
  assert (Hc1 : get_channel (channel_id payload) w1 = Some c).
  { unfold get_channel in *. rewrite Hch. exact Hc. }
  change (wp (handle_reaction payload) w
            (fun o w' =>
               o = Raised e
               /\ trace w'
                  = ERemoveReaction (message_id payload) processing_emoji :: trace w1
               /\ unchanged_stores w1 w')).
  unfold handle_reaction. apply wp_try_finally. apply wp_catch.
  unfold wp at 1, result, after. rewrite Htry. cbn [fst snd].
  unfold handle_reaction_except.
  destruct e; try (exfalso; eapply Hstore; reflexivity);
    try (exfalso; eapply Hworkflow; reflexivity).
  all: wp_steps.
  all: apply wp_handle_reaction_finally with (c := c);
    [ intro n; rewrite Hf; apply Hfetch
    | intro n; rewrite Hf; apply Hremove
    | exact Hc1
    | apply Hmsgs; exact Hm
    | intros w' Ht Hs; auto ].
Qed.

(** The removal on notice 700 ends in a NameError, and nothing is sent. *)
Lemma other_failures_are_passed_on_witness :
  let p := Sample.moderator_reaction "🗑️" 22 700 in
  let w := Sample.departed_world in
  result (handle_reaction_try p) w = Raised NameError
  /\ result (handle_reaction p) w = Raised NameError
  /\ filter is_send (trace (after (handle_reaction p) w)) = [].
Proof.
  cbv zeta.
  assert (Htry : handle_reaction_try (Sample.moderator_reaction "🗑️" 22 700)
                   Sample.departed_world
                 = (Raised NameError,
                    after (handle_reaction_try (Sample.moderator_reaction "🗑️" 22 700))
                      Sample.departed_world))
    by (vm_compute; reflexivity).
  destruct (@other_failures_are_passed_on
              Sample.departed_world (Sample.moderator_reaction "🗑️" 22 700)
              _ 22 NameError Htry ltac:(discriminate) ltac:(discriminate)
              (fun _ => eq_refl) (fun _ => eq_refl) eq_refl ltac:(cbv; discriminate))
    as (Hres & Htr & _).
  split; [ vm_compute; reflexivity | ]. split; [ exact Hres | ].
  rewrite Htr. vm_compute. reflexivity.
Defined.

(** ** A rejection, and what follows it *)

#[export] Instance keeps_messages_frame : Frame keeps_messages.
Proof.
  split; unfold keeps_messages.
  - intros w c mid m H. exists m. auto.
  - intros a b c Hab Hbc ch mid m H.
    destruct (Hab _ _ _ H) as (m1 & H1 & I1 & A1).
    destruct (Hbc _ _ _ H1) as (m2 & H2 & I2 & A2).
    exists m2. repeat split; congruence.
  - intros w n c mid m H. exists m. auto.
Qed.

Lemma find_app_some {A : Type} (P : A -> bool) l l' x :
  find P l = Some x -> find P (l ++ l') = Some x.
Proof.
  induction l as [| a l IH]; cbn [find List.app]; [ discriminate | ].
  destruct (P a); [ exact (fun H => H) | exact IH ].
Qed.

Lemma find_app_none {A : Type} (P : A -> bool) l l' :
  find P l = None -> find P (l ++ l') = find P l'.
Proof.
  induction l as [| a l IH]; cbn [find List.app]; [ reflexivity | ].
  destruct (P a); [ discriminate | exact IH ].
Qed.

Lemma resolve_message_sent c mid w m0 m :
  cached m0 = false ->
  resolve_message c mid w = Some m ->
  resolve_message c mid (set_messages (messages w ++ [m0]) w) = Some m.
Proof.
  intros Hm0. unfold resolve_message, cached_message, find_message.
  cbn [messages set_messages].
  destruct (find (fun m1 => (message_ident m1 =? mid) && cached m1) (messages w))
    as [x |] eqn:E.
  - intro H. rewrite (find_app_some _ _ _ E). exact H.
  - intro H. rewrite (find_app_none _ _ _ E). cbn [find]. rewrite Hm0, andb_false_r.
    apply find_app_some. exact H.
Qed.

Lemma keeps_messages_new_message c t : preserves keeps_messages (new_message c t).
Proof.
  intros w ch mid m H. exists m. split; [ | split; reflexivity ].
  unfold after, new_message, bind, fresh_id, gets, modify, ret. cbn [snd].
  match goal with |- resolve_message _ _ ?W = _ =>
    change (resolve_message ch mid W)
      with (resolve_message ch mid
              (set_messages
                 (messages w
                  ++ [mkMessage (next_id w) c (bot_user w) (utcnow w) [] false t]) w))
  end.
  apply resolve_message_sent; [ reflexivity | exact H ].
Qed.

Lemma keeps_messages_update w i f :
  (forall m, message_ident (f m) = message_ident m
             /\ message_channel (f m) = message_channel m
             /\ cached (f m) = cached m
             /\ message_author (f m) = message_author m) ->
  keeps_messages w (update_message i f w).
Proof.
  intros Hf c mid m H. rewrite resolve_message_update, H.
  - cbn [option_map]. eexists. split; [ reflexivity | ].
    destruct (message_ident m =? i); [ | split; reflexivity ].
    destruct (Hf m) as (-> & _ & _ & ->). split; reflexivity.
  - intro x. destruct (Hf x) as (-> & -> & -> & _). repeat split; reflexivity.
Qed.

Ltac keeps_messages_side :=
  lazymatch goal with
  | |- preserves keeps_messages (new_message _ _) => apply keeps_messages_new_message
  | |- preserves keeps_messages _ =>
      let w0 := fresh "w" in let c0 := fresh "c" in let i0 := fresh "i" in
      let m0 := fresh "m" in let H0 := fresh "H" in
      intros w0 c0 i0 m0 H0; exists m0; split; [ exact H0 | split; reflexivity ]
  | |- keeps_messages _ (update_message _ _ _) =>
      apply keeps_messages_update; intro;
      unfold add_reaction_by, remove_reaction_by;
      repeat match goal with |- context [if ?b then _ else _] => destruct b end;
      repeat split; reflexivity
  | |- keeps_messages _ _ =>
      let c0 := fresh "c" in let i0 := fresh "i" in
      let m0 := fresh "m" in let H0 := fresh "H" in
      intros c0 i0 m0 H0; exists m0; split; [ exact H0 | split; reflexivity ]
  end.

Lemma keeps_messages_handle_role_rejection p :
  preserves keeps_messages (handle_role_rejection p).
Proof.
  preserve; try apply preserves_cached_or_fetched; try keeps_messages_side.
Qed.

Lemma keeps_messages_handle_role_approval p :
  preserves keeps_messages (handle_role_approval p).
Proof.
  preserve; try apply preserves_cached_or_fetched; try keeps_messages_side.
Qed.

Lemma same_client_handle_role_rejection p :
  preserves same_client (handle_role_rejection p).
Proof.
  preserve; try apply preserves_cached_or_fetched; try same_client_side.
Qed.

Lemma same_client_handle_role_approval p :
  preserves same_client (handle_role_approval p).
Proof.
  preserve; try apply preserves_cached_or_fetched; try same_client_side.
Qed.

#[export] Instance same_requests_frame : Frame same_requests.
Proof.
  split; unfold same_requests.
  - reflexivity.
  - intros a b c H1 H2. congruence.
  - reflexivity.
Qed.

#[export] Instance same_requests_outward : OutwardFrame same_requests.
Proof.
  split; [ exact same_requests_frame | | | | ]; unfold same_requests; reflexivity.
Qed.

Lemma same_requests_mark_other_messages channel payload r mark failure msg :
  (forall l, preserves same_requests (mark l)) ->
  preserves same_requests (mark_other_messages channel payload r mark failure msg).
Proof.
  intro Hmark. unfold mark_other_messages.
  preserve; try apply preserves_cached_or_fetched; try apply Hmark.
Qed.

Lemma same_requests_mark reaction primary l :
  preserves same_requests (mark_request_messages_handled l reaction primary).
Proof. preserve; unfold same_requests; reflexivity. Qed.

Lemma reacts_to_bot_message_kept payload w w' gid guild c msg :
  same_client w w' ->
  keeps_messages w w' ->
  reacts_to_bot_message payload w gid guild c msg ->
  exists msg',
    reacts_to_bot_message payload w' gid guild c msg'
    /\ message_ident msg' = message_ident msg.
Proof.
  intros (Hf & Hch & Hbot & Hg & Ha & Hcfg) Hkeep (Hgid & Hap & Hguild & Hc & Hm & Hau).
  destruct (Hkeep _ _ _ Hm) as (msg' & Hm' & Hid & Hauthor).
  exists msg'. split; [ | exact Hid ].
  unfold reacts_to_bot_message, approval_channel_of, guild_config, get_guild,
    get_channel in *.
  rewrite Ha, Hcfg, Hg, Hch, Hbot, Hauthor. repeat split; assumption.
Qed.

Lemma no_faults_same_client w w' : same_client w w' -> no_faults w -> no_faults w'.
Proof. intros (Hf & _) Hnf n op. rewrite Hf. apply Hnf. Qed.

Lemma configured_same_client key gid w w' :
  same_client w w' -> configured key gid w' = configured key gid w.
Proof.
  intros (_ & _ & _ & _ & _ & Hcfg). unfold configured, guild_config.
  rewrite Hcfg. reflexivity.
Qed.

Lemma not_approved r : status r <> APPROVED -> status_eqb (status r) APPROVED = false.
Proof. destruct (status r); [ reflexivity | congruence | reflexivity ]. Qed.

Lemma not_rejected r : status r <> REJECTED -> status_eqb (status r) REJECTED = false.
Proof. destruct (status r); [ reflexivity | reflexivity | congruence ]. Qed.

(** The request a message resolves to is the updated one, once the request is
    replaced by a copy with the same notification messages. *)
Lemma find_request_replaced mid r r' l :
  request_id r' = request_id r ->
  request_has_message mid r' = true ->
  find (request_has_message mid) l = Some r ->
  find (request_has_message mid) (replace_request r' l) = Some r'.
Proof.
  intros Hid Hmsg. unfold replace_request.
  induction l as [| s l IH]; cbn [find map]; [ discriminate | ].
  destruct (opt_Z_eqb (request_id s) (request_id r')) eqn:E.
  - intros _. rewrite Hmsg. reflexivity.
  - destruct (request_has_message mid s) eqn:Es.
    + intro H. injection H as ->. rewrite Hid, opt_Z_eqb_refl in E. discriminate.
    + exact IH.
Qed.

(** The rejection, up to the stored request. *)
Lemma wp_rejection_stored w payload gid guild c msg r
  (Q : outcome bool -> World -> Prop) :
  no_faults w ->
  reacts_to_bot_message payload w gid guild c msg ->
  mem_string (emoji payload) (configured rejection_emojis gid w) = true ->
  find (request_has_message (message_id payload)) (requests w) = Some r ->
  status r <> APPROVED ->
  (forall o w',
     requests w' = replace_request (with_status REJECTED r) (requests w) ->
     Q o w') ->
  wp (handle_role_rejection payload) w Q.
Proof.
  intros Hnf (Hgid & Hap & Hg & Hc & Hm & Hauth) Hem Hr Hst HQ.
  unfold handle_role_rejection, configured in *. wp_run Hnf w.
  eapply wp_check_valid; eauto. intro n. wp_run Hnf w.
  rewrite Hgid. wp_run Hnf w. rewrite Hem.
  wp_run Hnf w. rewrite Hr. wp_run Hnf w.
  rewrite (not_approved _ Hst). wp_run Hnf w.
  match goal with |- wp ?m ?W _ =>
    apply (@wp_preserved _ same_requests m W)
  end.
  - apply same_requests_mark_other_messages. intro l.
    apply same_requests_mark.
  - intros [b | e] w2 H2; unfold same_requests in H2; cbn in H2; [ wp_steps | ];
      apply HQ; exact H2.
Qed.

(** X6.  A rejection is recorded.  A rejection emoji on the one notification
    message of a request that is not APPROVED stores the request as REJECTED,
    marks the message with the rejection marker and returns True; the message
    then resolves to the rejected request, and neither a tester, a member
    role nor a beta group changes. *)
Theorem rejection_is_recorded :
  forall w payload gid guild c msg r v,
    no_faults w ->
    reacts_to_bot_message payload w gid guild c msg ->
    mem_string (emoji payload) (configured rejection_emojis gid w) = true ->
    find (request_has_message (message_id payload)) (requests w) = Some r ->
    status r <> APPROVED ->
    notification_message_id r = Some v ->
    py_int v = message_id payload ->
    further_notification_message_ids r = [] ->
    let w' := after (handle_role_rejection payload) w in
    result (handle_role_rejection payload) w = Returned true
    /\ requests w' = replace_request (with_status REJECTED r) (requests w)
    /\ find (request_has_message (message_id payload)) (requests w')
       = Some (with_status REJECTED r)
    /\ trace w' = EAddReaction (message_id payload) "⛔"
                  :: EUpdateRequest (with_status REJECTED r) :: trace w
    /\ testers w' = testers w /\ members w' = members w
    /\ beta_testers w' = beta_testers w.
Proof.
  intros w payload gid guild c msg r v Hnf Hreacts Hem Hr Hst Hnote Hv Hfurther w'.
  subst w'.
  assert (Hfound : find (request_has_message (message_id payload))
                     (replace_request (with_status REJECTED r) (requests w))
                   = Some (with_status REJECTED r)).
  { apply find_request_replaced with (r := r); [ reflexivity | | exact Hr ].
    apply find_some in Hr. exact (proj2 Hr). }
  destruct Hreacts as (Hgid & Hap & Hg & Hc & Hm & Hauth).
  assert (Hid : message_ident msg = message_id payload)
    by (eapply resolve_message_ident; eauto).
  change (wp (handle_role_rejection payload) w
            (fun o w' =>
               o = Returned true
               /\ requests w' = replace_request (with_status REJECTED r) (requests w)
               /\ find (request_has_message (message_id payload)) (requests w')
                  = Some (with_status REJECTED r)
               /\ trace w' = EAddReaction (message_id payload) "⛔"
                             :: EUpdateRequest (with_status REJECTED r) :: trace w
               /\ testers w' = testers w /\ members w' = members w
               /\ beta_testers w' = beta_testers w)).
  unfold handle_role_rejection, configured in *. wp_run Hnf w.
  eapply wp_check_valid; eauto. intro n. wp_run Hnf w.
  rewrite Hgid. wp_run Hnf w. rewrite Hem.
  wp_run Hnf w. rewrite Hr. wp_run Hnf w.
  rewrite (not_approved _ Hst). wp_run Hnf w.
  unfold mark_other_messages, get_other_request_messages, other_message_ids,
    further_other_ids.
  cbn [further_notification_message_ids notification_message_id with_status].
  rewrite Hfurther, Hnote. cbn [filter length Nat.eqb negb List.app].
  wp_run Hnf w. rewrite Hv, Z.eqb_refl. cbn [negb List.app].
  wp_run Hnf w. rewrite Hid.
  repeat split; try reflexivity. exact Hfound.
Qed.

(** The moderator rejects the request of message 600. *)
Lemma rejection_is_recorded_witness :
  let p := Sample.moderator_reaction "👎" 20 600 in
  let w := Sample.world_with_request PENDING [] [] in
  result (handle_role_rejection p) w = Returned true
  /\ map status (requests (after (handle_role_rejection p) w)) = [REJECTED]
  /\ trace (after (handle_role_rejection p) w)
     = [EAddReaction 600 "⛔";
        EUpdateRequest (Sample.request_of REJECTED (Some (PStr 600)) [])].
Proof.
  cbv zeta.
  destruct (@rejection_is_recorded
              (Sample.world_with_request PENDING [] [])
              (Sample.moderator_reaction "👎" 20 600)
              10 Sample.the_guild 20 (Sample.bot_message 600 20 [])
              (Sample.request_of PENDING (Some (PStr 600)) []) (PStr 600))
    as (Hres & Hreq & _ & Htr & _); try reflexivity.
  - intros n op. reflexivity.
  - repeat split; reflexivity.
  - discriminate.
  - split; [ exact Hres | ]. split; [ rewrite Hreq; reflexivity | exact Htr ].
Defined.

(** An approval of a rejected request is refused (shared by the statements on
    what follows a rejection). *)
Lemma approval_of_rejected_is_refused w payload gid guild c msg r ch :
  no_faults w ->
  reacts_to_bot_message payload w gid guild c msg ->
  mem_string (emoji payload) (configured approval_emojis gid w) = true ->
  find (request_has_message (message_id payload)) (requests w) = Some r ->
  status r = REJECTED ->
  guild_get_channel guild (channel_id payload) = Some ch ->
  result (handle_role_approval payload) w = Returned tt
  /\ trace (after (handle_role_approval payload) w)
     = EChannelSend ch (TxtPreviouslyRejected r) (Some (message_ident msg))
         (next_id w) :: trace w
  /\ unchanged_stores w (after (handle_role_approval payload) w).
Proof.
  intros Hnf (Hgid & Hap & Hg & Hc & Hm & Hauth) Hem Hr Hst Hch.
  change (wp (handle_role_approval payload) w
            (fun o w' =>
               o = Returned tt
               /\ trace w'
                  = EChannelSend ch (TxtPreviouslyRejected r)
                      (Some (message_ident msg)) (next_id w) :: trace w
               /\ unchanged_stores w w')).
  unfold handle_role_approval, configured in *. wp_run Hnf w.
  eapply wp_check_valid; eauto. intro n. wp_run Hnf w.
  rewrite Hgid. wp_run Hnf w. rewrite Hem.
  wp_run Hnf w. rewrite Hr. wp_run Hnf w.
  rewrite Hst. cbn [status_eqb]. rewrite Hch.
  wp_run Hnf w. unfold unchanged_stores. cbn. repeat split; reflexivity.
Qed.

(** X7.  A rejection is final.  Once [handle_role_rejection] has run on a
    notification message of a request that was not APPROVED, an approval
    emoji on the same message, by whomever, is refused: the only effect of
    [handle_role_approval] is the reply that the request was previously
    rejected, and the request stays REJECTED.  This holds whatever became of
    the other notification messages of the request. *)
Theorem rejection_is_final :
  forall w payload gid guild c msg r ch again,
    no_faults w ->
    reacts_to_bot_message payload w gid guild c msg ->
    mem_string (emoji payload) (configured rejection_emojis gid w) = true ->
    find (request_has_message (message_id payload)) (requests w) = Some r ->
    status r <> APPROVED ->
    guild_get_channel guild (channel_id payload) = Some ch ->
    message_id again = message_id payload ->
    channel_id again = channel_id payload ->
    guild_id again = guild_id payload ->
    mem_string (emoji again) (configured approval_emojis gid w) = true ->
    let w' := after (handle_role_rejection payload) w in
    result (handle_role_approval again) w' = Returned tt
    /\ trace (after (handle_role_approval again) w')
       = EChannelSend ch (TxtPreviouslyRejected (with_status REJECTED r))
           (Some (message_id payload)) (next_id w') :: trace w'
    /\ unchanged_stores w' (after (handle_role_approval again) w').
Proof.
  intros w payload gid guild c msg r ch again Hnf Hreacts Hem Hr Hst Hch
    Hsame_msg Hsame_ch Hsame_guild Hem' w'.
  assert (Hclient : same_client w w') by apply same_client_handle_role_rejection.
  assert (Hkeep : keeps_messages w w') by apply keeps_messages_handle_role_rejection.
  assert (Hreqs : requests w' = replace_request (with_status REJECTED r) (requests w)).
  { subst w'.
    change (wp (handle_role_rejection payload) w
              (fun _ w' =>
                 requests w' = replace_request (with_status REJECTED r) (requests w))).
    eapply wp_rejection_stored; eauto. }
  destruct (reacts_to_bot_message_kept Hclient Hkeep Hreacts)
    as (msg' & Hreacts' & Hid').
  assert (Hid : message_ident msg = message_id payload).
  { destruct Hreacts as (_ & _ & _ & _ & Hm & _).
    eapply resolve_message_ident; eauto. }
  assert (Hagain : reacts_to_bot_message again w' gid guild c msg').
  { unfold reacts_to_bot_message in *.
    rewrite Hsame_msg, Hsame_ch, Hsame_guild. exact Hreacts'. }
  destruct (@approval_of_rejected_is_refused w' again gid guild c msg'
              (with_status REJECTED r) ch) as (Hres & Htr & Hstores).
  - apply (no_faults_same_client Hclient Hnf).
  - exact Hagain.
  - rewrite (configured_same_client _ _ Hclient). exact Hem'.
  - rewrite Hsame_msg, Hreqs.
    apply find_request_replaced with (r := r); [ reflexivity | | exact Hr ].
    apply find_some in Hr. exact (proj2 Hr).
  - reflexivity.
  - rewrite Hsame_ch. exact Hch.
  - split; [ exact Hres | ]. split; [ | exact Hstores ].
    rewrite Htr, Hid', Hid. reflexivity.
Qed.

(** The moderator rejects the request of message 600, then approves it. *)
Lemma rejection_is_final_witness :
  let w := Sample.world_with_request PENDING [] [] in
  let w' := after (handle_role_rejection (Sample.moderator_reaction "👎" 20 600)) w in
  let again := Sample.moderator_reaction "👍" 20 600 in
  result (handle_role_approval again) w' = Returned tt
  /\ filter is_send (trace (after (handle_role_approval again) w'))
     = [EChannelSend 20
          (TxtPreviouslyRejected (Sample.request_of REJECTED (Some (PStr 600)) []))
          (Some 600) 1000]
  /\ map status (requests (after (handle_role_approval again) w')) = [REJECTED].
Proof.
  cbv zeta.
  destruct (@rejection_is_final
              (Sample.world_with_request PENDING [] [])
              (Sample.moderator_reaction "👎" 20 600)
              10 Sample.the_guild 20 (Sample.bot_message 600 20 [])
              (Sample.request_of PENDING (Some (PStr 600)) []) 20
              (Sample.moderator_reaction "👍" 20 600))
    as (Hres & Htr & Hreq & _); try reflexivity.
  - intros n op. reflexivity.
  - repeat split; reflexivity.
  - discriminate.
  - split; [ exact Hres | ]. split.
    + rewrite Htr. vm_compute. reflexivity.
    + rewrite Hreq. vm_compute. reflexivity.
Defined.

(** ** A store that fails, a message without a request, and the approval *)

Lemma wp_get_or_fetch_message_spared w c mid msg
  (Q : outcome Message -> World -> Prop) :
  (forall n, faults w n OpFetchMessage = None) ->
  resolve_message c mid w = Some msg ->
  (forall n, Q (Returned msg) (set_calls n w)) ->
  wp (get_or_fetch_message (Some c) mid) w Q.
Proof.
  intros Hf Hm HQ. unfold resolve_message in Hm.
  unfold get_or_fetch_message. wp_run_with ltac:(rewrite Hf) w.
  destruct (cached_message mid w) as [m |].
  - inversion Hm; subst m. wp_steps.
    rewrite <- (set_calls_same w). apply HQ.
  - wp_run_with ltac:(rewrite Hf) w. rewrite Hm. wp_steps. apply HQ.
Qed.

Lemma wp_check_valid_spared w payload gid guild c msg
  (Q : outcome (option (Guild * Message)) -> World -> Prop) :
  (forall n, faults w n OpGetDefaultApprovalsChannelId = None) ->
  (forall n, faults w n OpFetchMessage = None) ->
  reacts_to_bot_message payload w gid guild c msg ->
  (forall n, Q (Returned (Some (guild, msg))) (set_calls n w)) ->
  wp (check_valid_role_reaction_channel payload) w Q.
Proof.
  intros Hd Hf (Hgid & Hap & Hg & Hc & Hm & Hauth) HQ.
  unfold check_valid_role_reaction_channel. rewrite Hgid.
  wp_steps. apply wp_is_approval_channel_spared; [ exact Hd | ].
  intro n. rewrite Hap.
  wp_steps. wnorm w. rewrite Hg. wp_steps.
  unfold is_own_message. wp_steps. wnorm w. rewrite Hc.
  match goal with |- wp _ ?W _ =>
    apply wp_get_or_fetch_message_spared with (w := W) (msg := msg) end;
    [ exact Hf | exact Hm | ].
  intro k. wp_steps. rewrite Hauth, Z.eqb_refl. wp_steps. apply HQ.
Qed.

(** X8.  When the store refuses the write of the rejected request,
    [handle_role_rejection] raises the workflow failure "Failed to mark
    request as rejected in airtable", which refers to the message and
    mentions the reacting member; nothing was sent or marked, and the
    request keeps its status. *)
Theorem failed_store_write_stops_the_rejection :
  forall w payload gid guild c msg r err,
    only_fails OpUpdateRequest (AirTableError err) w ->
    reacts_to_bot_message payload w gid guild c msg ->
    mem_string (emoji payload) (configured rejection_emojis gid w) = true ->
    find (request_has_message (message_id payload)) (requests w) = Some r ->
    status r <> APPROVED ->
    let w' := after (handle_role_rejection payload) w in
    result (handle_role_rejection payload) w
    = Raised (ReactionRoleError "Failed to mark request as rejected in airtable"
                (message_id payload) (option_map member_id (member payload)))
    /\ trace w' = trace w
    /\ unchanged_stores w w'.
Proof.
  intros w payload gid guild c msg r err Hof Hreacts Hem Hr Hst w'. subst w'.
  assert (Hid : message_ident msg = message_id payload).
  { destruct Hreacts as (_ & _ & _ & _ & Hm & _).
    eapply resolve_message_ident; eauto. }
  assert (Hgid : guild_id payload = Some gid) by apply Hreacts.
  change (wp (handle_role_rejection payload) w
            (fun o w' =>
               o = Raised (ReactionRoleError
                             "Failed to mark request as rejected in airtable"
                             (message_id payload)
                             (option_map member_id (member payload)))
               /\ trace w' = trace w
               /\ unchanged_stores w w')).
  unfold handle_role_rejection, configured in *. wp_run_failing Hof w.
  eapply wp_check_valid_spared;
    [ intro n; rewrite Hof; reflexivity | intro n; rewrite Hof; reflexivity
    | exact Hreacts | ].
  intro n. wp_run_failing Hof w.
  rewrite Hgid. wp_run_failing Hof w. rewrite Hem.
  wp_run_failing Hof w. rewrite Hr. wp_run_failing Hof w.
  rewrite (not_approved _ Hst). wp_run_failing Hof w.
  rewrite Hid. unfold unchanged_stores. cbn. repeat split; reflexivity.
Qed.

(** The store refuses the write: the request of message 600 stays PENDING,
    and [handle_reaction] reports the event as handled. *)
Lemma failed_store_write_stops_the_rejection_witness :
  let p := Sample.moderator_reaction "👎" 20 600 in
  let w := set_faults (Sample.failing OpUpdateRequest (AirTableError "down"))
             (Sample.world_with_request PENDING [] []) in
  only_fails OpUpdateRequest (AirTableError "down") w
  /\ result (handle_role_rejection p) w
     = Raised (ReactionRoleError "Failed to mark request as rejected in airtable"
                 600 (Some 200))
  /\ map status (requests (after (handle_role_rejection p) w)) = [PENDING]
  /\ result (handle_reaction p) w = Returned true.
Proof.
  cbv zeta.
  assert (Hof : only_fails OpUpdateRequest (AirTableError "down")
                  (set_faults (Sample.failing OpUpdateRequest (AirTableError "down"))
                     (Sample.world_with_request PENDING [] [])))
    by (intros n o; reflexivity).
  destruct (@failed_store_write_stops_the_rejection
              (set_faults (Sample.failing OpUpdateRequest (AirTableError "down"))
                 (Sample.world_with_request PENDING [] []))
              (Sample.moderator_reaction "👎" 20 600)
              10 Sample.the_guild 20 (Sample.bot_message 600 20 [])
              (Sample.request_of PENDING (Some (PStr 600)) []) "down" Hof)
    as (Hres & _ & Hreq & _); try reflexivity.
  - repeat split; reflexivity.
  - discriminate.
  - split; [ exact Hof | ]. split; [ exact Hres | ].
    split; [ rewrite Hreq; reflexivity | vm_compute; reflexivity ].
Defined.

(** X9.  A message of the bot in an approval channel that no request refers to.
    An approval emoji on it is answered by one reply to the reacting member
    and nothing else; a rejection emoji as well, and
    [handle_role_rejection] returns False, so that the removal handler runs
    next. *)
Theorem reaction_without_request_is_answered :
  forall w payload gid guild c msg ch mem,
    no_faults w ->
    reacts_to_bot_message payload w gid guild c msg ->
    guild_get_channel guild (channel_id payload) = Some ch ->
    member payload = Some mem ->
    find (request_has_message (message_id payload)) (requests w) = None ->
    (mem_string (emoji payload) (configured approval_emojis gid w) = true ->
     result (handle_role_approval payload) w = Returned tt
     /\ trace (after (handle_role_approval payload) w)
        = EChannelSend ch (TxtNoRequestForApproval (member_id mem) (emoji payload))
            (Some (message_id payload)) (next_id w) :: trace w
     /\ unchanged_stores w (after (handle_role_approval payload) w))
    /\
    (mem_string (emoji payload) (configured rejection_emojis gid w) = true ->
     result (handle_role_rejection payload) w = Returned false
     /\ trace (after (handle_role_rejection payload) w)
        = EChannelSend ch (TxtNoRequestForRejection (member_id mem) (emoji payload))
            (Some (message_id payload)) (next_id w) :: trace w
     /\ unchanged_stores w (after (handle_role_rejection payload) w)).
Proof.
  intros w payload gid guild c msg ch mem Hnf Hreacts Hch Hmem Hr.
  assert (Hid : message_ident msg = message_id payload).
  { destruct Hreacts as (_ & _ & _ & _ & Hm & _).
    eapply resolve_message_ident; eauto. }
  destruct Hreacts as (Hgid & Hap & Hg & Hc & Hm & Hauth).
  split; intro Hem.
  - change (wp (handle_role_approval payload) w
              (fun o w' =>
                 o = Returned tt
                 /\ trace w'
                    = EChannelSend ch
                        (TxtNoRequestForApproval (member_id mem) (emoji payload))
                        (Some (message_id payload)) (next_id w) :: trace w
                 /\ unchanged_stores w w')).
    unfold handle_role_approval, configured in *. wp_run Hnf w.
    eapply wp_check_valid; eauto. intro n. wp_run Hnf w.
    rewrite Hgid. wp_run Hnf w. rewrite Hem.
    wp_run Hnf w. rewrite Hr. wp_run Hnf w. rewrite Hch. wp_run Hnf w.
    rewrite Hmem. wp_run Hnf w. rewrite Hid.
    unfold unchanged_stores. cbn. repeat split; reflexivity.
  - change (wp (handle_role_rejection payload) w
              (fun o w' =>
                 o = Returned false
                 /\ trace w'
                    = EChannelSend ch
                        (TxtNoRequestForRejection (member_id mem) (emoji payload))
                        (Some (message_id payload)) (next_id w) :: trace w
                 /\ unchanged_stores w w')).
    unfold handle_role_rejection, configured in *. wp_run Hnf w.
    eapply wp_check_valid; eauto. intro n. wp_run Hnf w.
    rewrite Hgid. wp_run Hnf w. rewrite Hem.
    wp_run Hnf w. rewrite Hr. wp_run Hnf w. rewrite Hch. wp_run Hnf w.
    rewrite Hmem. wp_run Hnf w. rewrite Hid.
    unfold unchanged_stores. cbn. repeat split; reflexivity.
Qed.

(** Notice 700 is no notification of a request. *)
Lemma reaction_without_request_is_answered_witness :
  let w := Sample.leave_world in
  find (request_has_message 700) (requests w) = None
  /\ trace (after (handle_role_approval (Sample.moderator_reaction "👍" 22 700)) w)
     = [EChannelSend 22 (TxtNoRequestForApproval 200 "👍") (Some 700) 1000]
  /\ result (handle_role_rejection (Sample.moderator_reaction "👎" 22 700)) w
     = Returned false
  /\ trace (after (handle_role_rejection (Sample.moderator_reaction "👎" 22 700)) w)
     = [EChannelSend 22 (TxtNoRequestForRejection 200 "👎") (Some 700) 1000].
Proof.
  cbv zeta.
  assert (Hnf : no_faults Sample.leave_world) by (intros n op; reflexivity).
  split; [ reflexivity | ].
  destruct (@reaction_without_request_is_answered
              Sample.leave_world (Sample.moderator_reaction "👍" 22 700)
              10 Sample.the_guild 22 (Sample.bot_message 700 22 []) 22
              Sample.moderator Hnf ltac:(repeat split; reflexivity)
              eq_refl eq_refl eq_refl) as [Ha _].
  destruct (@reaction_without_request_is_answered
              Sample.leave_world (Sample.moderator_reaction "👎" 22 700)
              10 Sample.the_guild 22 (Sample.bot_message 700 22 []) 22
              Sample.moderator Hnf ltac:(repeat split; reflexivity)
              eq_refl eq_refl eq_refl) as [_ Hb].
  destruct (Ha eq_refl) as (_ & Htr & _).
  destruct (Hb eq_refl) as (Hres & Htr' & _).
  split; [ exact Htr | ]. split; [ exact Hres | exact Htr' ].
Defined.


(** The approval *)

Lemma approves_reacts payload w guild msg c mem r t a :
  approves payload w guild msg c mem r t a ->
  exists gid,
    reacts_to_bot_message payload w gid guild c msg
    /\ mem_string (emoji payload) (configured approval_emojis gid w) = true.
Proof.
  intros (gid & Hgid & Hap & Hg & Hc & Hm & Hauth & Hem & _).
  exists gid. split; [ | exact Hem ]. repeat split; assumption.
Qed.

(** The approval, run up to the body of [add_tester_to_group]; [look]
    consults the fault table. *)
Ltac approval_to_group look w :=
  unfold handle_role_approval, configured, tester_of, app_of in *;
  wp_run_with look w;
  eapply wp_check_valid_spared; [ | | eassumption | ];
  [ intro; look; reflexivity | intro; look; reflexivity | ];
  intro; wp_run_with look w;
  match goal with H : guild_id _ = Some _ |- _ => rewrite H end;
  wp_run_with look w;
  match goal with H : mem_string _ _ = true |- _ => rewrite H end;
  wp_run_with look w;
  match goal with H : find (request_has_message _) _ = Some _ |- _ => rewrite H end;
  wp_run_with look w;
  match goal with
  | H : status ?r <> REJECTED |- _ => rewrite (not_rejected _ H)
  end;
  wp_run_with look w;
  match goal with
  | H : match tester ?r with _ => _ end = Some _ |- _ =>
      destruct (tester r); [ | discriminate ]
  end;
  wp_run_with look w;
  match goal with H : find _ (testers _) = Some _ |- _ => rewrite H end;
  match goal with
  | H : match ?x with Some _ => _ | None => None end = Some _ |- _ =>
      destruct x; [ | discriminate ]
  end;
  wp_run_with look w;
  match goal with H : find _ (apps _) = Some _ |- _ => rewrite H end;
  wp_run_with look w;
  unfold add_tester_to_group; wp_run_with look w.

(** The same, through the grant of the roles and the notice to the tester, up
    to the write of the request. *)
Ltac approval_to_store look w tm roles Htm Hroles :=
  approval_to_group look w;
  match goal with
  | |- context [mem_Z (beta_group_id ?a) ?groups] =>
      destruct (mem_Z (beta_group_id a) groups) eqn:?
  end;
  wp_run_with look w;
  try match goal with
      | |- context [existsb ?P (beta_testers w)] =>
          destruct (existsb P (beta_testers w)); wp_run_with look w
      end;
  cbn [app_reaction_roles_ids with_status]; rewrite Hroles;
  (destruct roles as [| ?role ?roles]; cbn [map];
   [ | wp_run_with look w; rewrite Htm; wp_run_with look w;
       match goal with
       | |- context [forallb ?P (Some ?x :: map Some ?l)] =>
           change (Some x :: map Some l) with (map Some (x :: l));
           rewrite holds_all_resolved;
           destruct (holds_all tm (x :: l)) eqn:?;
           [ | wp_run_with look w; unfold add_roles; apply wp_bind;
               apply wp_deref_all ]
       end ]);
  wp_run_with look w;
  match goal with
  | |- context [approved ?r] => destruct (approved r) eqn:?
  end;
  cbn [negb]; wp_run_with look w.

(** X10.  An approval is carried out.  When no call fails, the tester is a member
    of the guild, the roles of the request resolve and the request has one
    notification message, [handle_role_approval] adds the tester to the beta
    group of the app unless the email is in it already, grants the roles the
    member lacks, notifies the tester unless the request was approved
    before, stores the request as APPROVED and marks the message, in this
    order; the tester records are as before. *)
Theorem approval_is_carried_out :
  forall w payload guild msg c mem r t a tm roles v,
    no_faults w ->
    approves payload w guild msg c mem r t a ->
    guild_get_member guild (discord_id t) w = Some tm ->
    map (guild_get_role guild) (app_reaction_roles_ids r) = map Some roles ->
    notification_message_id r = Some v ->
    py_int v = message_id payload ->
    further_notification_message_ids r = [] ->
    let w' := after (handle_role_approval payload) w in
    result (handle_role_approval payload) w = Returned tt
    /\ requests w' = replace_request (with_status APPROVED r) (requests w)
    /\ testers w' = testers w
    /\ exists i,
         trace w'
         = EAddReaction (message_id payload) "✅"
           :: EUpdateRequest (with_status APPROVED r)
           :: (if approved r then []
               else [EMemberSend (tester_discord_id r)
                       (TxtApproved (with_status APPROVED r) (email t)) i])
           ++ (if holds_all tm roles then [] else [EAddRoles (member_id tm) roles])
           ++ (if in_beta_group t a w then [] else [ECreateBetaTester a (email t)])
           ++ trace w.
Proof.
  intros w payload guild msg c mem r t a tm roles v Hnf Happroves
    Htm Hroles Hnote Hv Hfurther w'. subst w'.
  destruct (approves_reacts Happroves) as (gid' & Hreacts & _).
  assert (Hid : message_ident msg = message_id payload).
  { destruct Hreacts as (_ & _ & _ & _ & Hm & _).
    eapply resolve_message_ident; eauto. }
  destruct Happroves
    as (gid & Hgid & Hap & Hg & Hc & Hm & Hauth & Hem & Hmem & Hr & Hst & Ht & Ha).
  assert (gid' = gid) by (destruct Hreacts as (H & _); congruence). subst gid'.
  change (wp (handle_role_approval payload) w
            (fun o w' =>
               o = Returned tt
               /\ requests w' = replace_request (with_status APPROVED r) (requests w)
               /\ testers w' = testers w
               /\ exists i,
                    trace w'
                    = EAddReaction (message_id payload) "✅"
                      :: EUpdateRequest (with_status APPROVED r)
                      :: (if approved r then []
                          else [EMemberSend (tester_discord_id r)
                                  (TxtApproved (with_status APPROVED r) (email t)) i])
                      ++ (if holds_all tm roles then []
                          else [EAddRoles (member_id tm) roles])
                      ++ (if in_beta_group t a w then []
                          else [ECreateBetaTester a (email t)])
                      ++ trace w)).
  unfold in_beta_group.
  approval_to_store ltac:(rewrite Hnf) w tm roles Htm Hroles.
  all: unfold mark_other_messages, get_other_request_messages, other_message_ids,
         further_other_ids;
    cbn [further_notification_message_ids notification_message_id with_status];
    rewrite Hfurther, Hnote; cbn [filter length Nat.eqb negb List.app];
    wp_run Hnf w; rewrite Hv, Z.eqb_refl; cbn [negb List.app];
    wp_run Hnf w.
  all: rewrite Hid.
  all: split; [ reflexivity | ]; split; [ reflexivity | ]; split; [ reflexivity | ].
  all: first [ exists (next_id w + 1); reflexivity | exists (next_id w); reflexivity ].
Qed.

(** The moderator approves the request of message 600. *)
Lemma approval_is_carried_out_witness :
  let p := Sample.moderator_reaction "👍" 20 600 in
  let w := Sample.world_with_request PENDING [] [] in
  result (handle_role_approval p) w = Returned tt
  /\ map status (requests (after (handle_role_approval p) w)) = [APPROVED]
  /\ exists i,
       trace (after (handle_role_approval p) w)
       = [EAddReaction 600 "✅";
          EUpdateRequest (Sample.request_of APPROVED (Some (PStr 600)) []);
          EMemberSend 100
            (TxtApproved (Sample.request_of APPROVED (Some (PStr 600)) [])
               (Some "tess@example.org")) i;
          EAddRoles 100 [30];
          ECreateBetaTester Sample.app_a (Some "tess@example.org")].
Proof.
  cbv zeta.
  destruct (@approval_is_carried_out
              (Sample.world_with_request PENDING [] [])
              (Sample.moderator_reaction "👍" 20 600)
              Sample.the_guild (Sample.bot_message 600 20 []) 20 Sample.moderator
              (Sample.request_of PENDING (Some (PStr 600)) [])
              Sample.registered_tester Sample.app_a Sample.tester_member [30]
              (PStr 600))
    as (Hres & Hreq & _ & i & Htr); try reflexivity.
  - intros n op. reflexivity.
  - exists 10. repeat split; try reflexivity. discriminate.
  - split; [ exact Hres | ]. split; [ rewrite Hreq; reflexivity | ].
    exists i. exact Htr.
Defined.

(** The approval, up to the stored request. *)
Lemma wp_approval_stored w payload guild msg c mem r t a tm roles
  (Q : outcome unit -> World -> Prop) :
  no_faults w ->
  approves payload w guild msg c mem r t a ->
  guild_get_member guild (discord_id t) w = Some tm ->
  map (guild_get_role guild) (app_reaction_roles_ids r) = map Some roles ->
  (forall o w',
     requests w' = replace_request (with_status APPROVED r) (requests w) ->
     Q o w') ->
  wp (handle_role_approval payload) w Q.
Proof.
  intros Hnf Happroves Htm Hroles HQ.
  destruct (approves_reacts Happroves) as (gid' & Hreacts & _).
  destruct Happroves
    as (gid & Hgid & Hap & Hg & Hc & Hm & Hauth & Hem & Hmem & Hr & Hst & Ht & Ha).
  assert (gid' = gid) by (destruct Hreacts as (H & _); congruence). subst gid'.
  approval_to_store ltac:(rewrite Hnf) w tm roles Htm Hroles.
  all: match goal with |- wp ?m ?W _ =>
         apply (@wp_preserved _ same_requests m W)
       end;
    [ apply same_requests_mark_other_messages; intro l; apply same_requests_mark
    | intros [b | e] w2 H2; unfold same_requests in H2; cbn in H2; [ wp_steps | ];
      apply HQ; exact H2 ].
Qed.

(** A rejection of an approved request is refused. *)
Lemma rejection_of_approved_is_refused w payload gid guild c msg r ch :
  no_faults w ->
  reacts_to_bot_message payload w gid guild c msg ->
  mem_string (emoji payload) (configured rejection_emojis gid w) = true ->
  find (request_has_message (message_id payload)) (requests w) = Some r ->
  status r = APPROVED ->
  guild_get_channel guild (channel_id payload) = Some ch ->
  result (handle_role_rejection payload) w = Returned true
  /\ trace (after (handle_role_rejection payload) w)
     = EChannelSend ch (TxtPreviouslyApproved r) (Some (message_ident msg))
         (next_id w) :: trace w
  /\ unchanged_stores w (after (handle_role_rejection payload) w).
Proof.
  intros Hnf (Hgid & Hap & Hg & Hc & Hm & Hauth) Hem Hr Hst Hch.
  change (wp (handle_role_rejection payload) w
            (fun o w' =>
               o = Returned true
               /\ trace w'
                  = EChannelSend ch (TxtPreviouslyApproved r)
                      (Some (message_ident msg)) (next_id w) :: trace w
               /\ unchanged_stores w w')).
  unfold handle_role_rejection, configured in *. wp_run Hnf w.
  eapply wp_check_valid; eauto. intro n. wp_run Hnf w.
  rewrite Hgid. wp_run Hnf w. rewrite Hem.
  wp_run Hnf w. rewrite Hr. wp_run Hnf w.
  rewrite Hst. cbn [status_eqb]. rewrite Hch.
  wp_run Hnf w. unfold unchanged_stores. cbn. repeat split; reflexivity.
Qed.

(** X11.  An approval is final.  Once [handle_role_approval] has stored a request
    as APPROVED, a rejection emoji on the same message, by whomever, is
    refused: [handle_role_rejection] replies that the request was previously
    approved, changes nothing else and returns True. *)
Theorem approval_is_final :
  forall w payload gid guild msg c mem r t a tm roles ch again,
    no_faults w ->
    approves payload w guild msg c mem r t a ->
    guild_get_member guild (discord_id t) w = Some tm ->
    map (guild_get_role guild) (app_reaction_roles_ids r) = map Some roles ->
    guild_id payload = Some gid ->
    guild_get_channel guild (channel_id payload) = Some ch ->
    message_id again = message_id payload ->
    channel_id again = channel_id payload ->
    guild_id again = guild_id payload ->
    mem_string (emoji again) (configured rejection_emojis gid w) = true ->
    let w' := after (handle_role_approval payload) w in
    result (handle_role_rejection again) w' = Returned true
    /\ trace (after (handle_role_rejection again) w')
       = EChannelSend ch (TxtPreviouslyApproved (with_status APPROVED r))
           (Some (message_id payload)) (next_id w') :: trace w'
    /\ unchanged_stores w' (after (handle_role_rejection again) w').
Proof.
  intros w payload gid guild msg c mem r t a tm roles ch again Hnf Happroves
    Htm Hroles Hgid Hch Hsame_msg Hsame_ch Hsame_guild Hem' w'.
  assert (Hclient : same_client w w') by apply same_client_handle_role_approval.
  assert (Hkeep : keeps_messages w w') by apply keeps_messages_handle_role_approval.
  assert (Hreqs : requests w' = replace_request (with_status APPROVED r) (requests w)).
  { subst w'.
    change (wp (handle_role_approval payload) w
              (fun _ w' =>
                 requests w' = replace_request (with_status APPROVED r) (requests w))).
    eapply wp_approval_stored; eauto. }
  destruct (approves_reacts Happroves) as (gid' & Hreacts & _).
  assert (gid' = gid) by (destruct Hreacts as (H & _); congruence). subst gid'.
  assert (Hr : find (request_has_message (message_id payload)) (requests w) = Some r).
  { destruct Happroves as (g & _ & _ & _ & _ & _ & _ & _ & _ & H & _). exact H. }
  destruct (reacts_to_bot_message_kept Hclient Hkeep Hreacts)
    as (msg' & Hreacts' & Hid').
  assert (Hid : message_ident msg = message_id payload).
  { destruct Hreacts as (_ & _ & _ & _ & Hm & _).
    eapply resolve_message_ident; eauto. }
  assert (Hagain : reacts_to_bot_message again w' gid guild c msg').
  { unfold reacts_to_bot_message in *.
    rewrite Hsame_msg, Hsame_ch, Hsame_guild. exact Hreacts'. }
  destruct (@rejection_of_approved_is_refused w' again gid guild c msg'
              (with_status APPROVED r) ch) as (Hres & Htr & Hstores).
  - apply (no_faults_same_client Hclient Hnf).
  - exact Hagain.
  - rewrite (configured_same_client _ _ Hclient). exact Hem'.
  - rewrite Hsame_msg, Hreqs.
    apply find_request_replaced with (r := r); [ reflexivity | | exact Hr ].
    apply find_some in Hr. exact (proj2 Hr).
  - reflexivity.
  - rewrite Hsame_ch. exact Hch.
  - split; [ exact Hres | ]. split; [ | exact Hstores ].
    rewrite Htr, Hid', Hid. reflexivity.
Qed.

(** The moderator approves the request of message 600, then rejects it. *)
Lemma approval_is_final_witness :
  let w := Sample.world_with_request PENDING [] [] in
  let w' := after (handle_role_approval (Sample.moderator_reaction "👍" 20 600)) w in
  let again := Sample.moderator_reaction "👎" 20 600 in
  result (handle_role_rejection again) w' = Returned true
  /\ map status (requests (after (handle_role_rejection again) w')) = [APPROVED]
  /\ new_effects w' (after (handle_role_rejection again) w')
     = [EChannelSend 20
          (TxtPreviouslyApproved (Sample.request_of APPROVED (Some (PStr 600)) []))
          (Some 600) 1002].
Proof.
  cbv zeta.
  destruct (@approval_is_final
              (Sample.world_with_request PENDING [] [])
              (Sample.moderator_reaction "👍" 20 600)
              10 Sample.the_guild (Sample.bot_message 600 20 []) 20 Sample.moderator
              (Sample.request_of PENDING (Some (PStr 600)) [])
              Sample.registered_tester Sample.app_a Sample.tester_member [30] 20
              (Sample.moderator_reaction "👎" 20 600))
    as (Hres & Htr & Hreq & _); try reflexivity.
  - intros n op. reflexivity.
  - exists 10. repeat split; try reflexivity. discriminate.
  - split; [ exact Hres | ]. split.
    + rewrite Hreq. vm_compute. reflexivity.
    + unfold new_effects. rewrite Htr. vm_compute. reflexivity.
Defined.

(** X12.  The approval is not atomic.  When the store refuses the write of the
    approved request, [handle_role_approval] raises the workflow failure
    "Failed to mark request as approved in airtable" after the tester was
    added to the beta group, was granted the roles and was told of the
    approval: the request keeps its status and the message is not marked. *)
Theorem failed_store_write_leaves_the_approval_half_done :
  forall w payload guild msg c mem r t a tm roles err,
    only_fails OpUpdateRequest (AirTableError err) w ->
    approves payload w guild msg c mem r t a ->
    guild_get_member guild (discord_id t) w = Some tm ->
    map (guild_get_role guild) (app_reaction_roles_ids r) = map Some roles ->
    let w' := after (handle_role_approval payload) w in
    result (handle_role_approval payload) w
    = Raised (ReactionRoleError "Failed to mark request as approved in airtable"
                (message_id payload) (Some (member_id mem)))
    /\ requests w' = requests w
    /\ exists i,
         trace w'
         = (if approved r then []
            else [EMemberSend (tester_discord_id r)
                    (TxtApproved (with_status APPROVED r) (email t)) i])
           ++ (if holds_all tm roles then [] else [EAddRoles (member_id tm) roles])
           ++ (if in_beta_group t a w then [] else [ECreateBetaTester a (email t)])
           ++ trace w.
Proof.
  intros w payload guild msg c mem r t a tm roles err Hof Happroves Htm Hroles w'.
  subst w'.
  destruct (approves_reacts Happroves) as (gid' & Hreacts & _).
  assert (Hid : message_ident msg = message_id payload).
  { destruct Hreacts as (_ & _ & _ & _ & Hm & _).
    eapply resolve_message_ident; eauto. }
  destruct Happroves
    as (gid & Hgid & Hap & Hg & Hc & Hm & Hauth & Hem & Hmem & Hr & Hst & Ht & Ha).
  assert (gid' = gid) by (destruct Hreacts as (H & _); congruence). subst gid'.
  change (wp (handle_role_approval payload) w
            (fun o w' =>
               o = Raised (ReactionRoleError
                             "Failed to mark request as approved in airtable"
                             (message_id payload) (Some (member_id mem)))
               /\ requests w' = requests w
               /\ exists i,
                    trace w'
                    = (if approved r then []
                       else [EMemberSend (tester_discord_id r)
                               (TxtApproved (with_status APPROVED r) (email t)) i])
                      ++ (if holds_all tm roles then []
                          else [EAddRoles (member_id tm) roles])
                      ++ (if in_beta_group t a w then []
                          else [ECreateBetaTester a (email t)])
                      ++ trace w)).
  unfold in_beta_group.
  approval_to_store ltac:(rewrite Hof; cbn [Op_eqb]) w tm roles Htm Hroles.
  all: rewrite Hid, Hmem; cbn [option_map].
  all: split; [ reflexivity | ]; split; [ reflexivity | ].
  all: first [ exists (next_id w + 1); reflexivity | exists (next_id w); reflexivity ].
Qed.

(** The store refuses the write: Tess is in the beta group, has role 30 and
    was notified, and her request is PENDING. *)
Lemma failed_store_write_leaves_the_approval_half_done_witness :
  let p := Sample.moderator_reaction "👍" 20 600 in
  let w := set_faults (Sample.failing OpUpdateRequest (AirTableError "down"))
             (Sample.world_with_request PENDING [] []) in
  only_fails OpUpdateRequest (AirTableError "down") w
  /\ result (handle_role_approval p) w
     = Raised (ReactionRoleError "Failed to mark request as approved in airtable"
                 600 (Some 200))
  /\ map status (requests (after (handle_role_approval p) w)) = [PENDING]
  /\ exists i,
       trace (after (handle_role_approval p) w)
       = [EMemberSend 100
            (TxtApproved (Sample.request_of APPROVED (Some (PStr 600)) [])
               (Some "tess@example.org")) i;
          EAddRoles 100 [30];
          ECreateBetaTester Sample.app_a (Some "tess@example.org")].
Proof.
  cbv zeta.
  assert (Hof : only_fails OpUpdateRequest (AirTableError "down")
                  (set_faults (Sample.failing OpUpdateRequest (AirTableError "down"))
                     (Sample.world_with_request PENDING [] [])))
    by (intros n o; reflexivity).
  destruct (@failed_store_write_leaves_the_approval_half_done
              (set_faults (Sample.failing OpUpdateRequest (AirTableError "down"))
                 (Sample.world_with_request PENDING [] []))
              (Sample.moderator_reaction "👍" 20 600)
              Sample.the_guild (Sample.bot_message 600 20 []) 20 Sample.moderator
              (Sample.request_of PENDING (Some (PStr 600)) [])
              Sample.registered_tester Sample.app_a Sample.tester_member [30]
              "down" Hof)
    as (Hres & Hreq & i & Htr); try reflexivity.
  - exists 10. repeat split; try reflexivity. discriminate.
  - split; [ exact Hof | ]. split; [ exact Hres | ].
    split; [ rewrite Hreq; reflexivity | ]. exists i. exact Htr.
Defined.

(** ** The first steps of a role reaction *)

(** [handle_role_reaction], run up to the reaction role of the event. *)
Ltac to_reaction_role Hnf w Hw Hmem Hgid Hg Hrr :=
  unfold handle_role_reaction; wp_run Hnf w;
  match goal with |- wp _ w ?K =>
    cut (forall n, K (Returned (watched w))
                     (set_watched_message_ids (watched w) (set_calls n w)));
    [ let HK := fresh "HK" in
      intro HK; unfold watched in *;
      destruct (Nat.ltb 0 (length (watched_message_ids w)));
      [ wp_steps; rewrite <- (set_watched_same w) at 2; apply HK
      | wp_run Hnf w; apply HK ]
    | intro; wp_run Hnf w; rewrite Hw, Hmem, Hgid; wp_run Hnf w;
      rewrite Hg; wp_run Hnf w; unfold reaction_role_of in Hrr; rewrite Hrr;
      wp_run Hnf w ]
  end.

(** X13.  The rules come first.  A member who reacts for a role that requires the
    agreement to the rules, and who does not hold the rules role of the
    guild, gets one private message, the reminder of the rules (with the
    link to the rules message when one is configured), and the handler
    returns; when the channel of the configured rules message is not a
    channel of the guild, nothing is sent.  No tester and no request is
    created. *)
Theorem rules_come_first :
  forall w payload mem gid guild rr,
    no_faults w ->
    reacts_for_role payload w mem gid guild rr ->
    rules_in_order rr mem gid w = false ->
    let w' := after (handle_role_reaction payload) w in
    result (handle_role_reaction payload) w = Returned tt
    /\ trace w'
       = match rules_reminder gid guild w with
         | Some text => [EMemberSend (member_id mem) text (next_id w)]
         | None => []
         end ++ trace w
    /\ unchanged_stores w w'.
Proof.
  intros w payload mem gid guild rr Hnf (Hw & Hmem & Hgid & Hg & Hrr) Hrules w'.
  subst w'.
  change (wp (handle_role_reaction payload) w
            (fun o w' =>
               o = Returned tt
               /\ trace w'
                  = match rules_reminder gid guild w with
                    | Some text => [EMemberSend (member_id mem) text (next_id w)]
                    | None => []
                    end ++ trace w
               /\ unchanged_stores w w')).
  unfold rules_in_order, rules_reminder in *.
  to_reaction_role Hnf w Hw Hmem Hgid Hg Hrr.
  destruct (requires_rules_approval rr); [ | discriminate ].
  wp_run Hnf w.
  destruct (match guild_config gid w with
            | Some c => rule_agreement_role_id c
            | None => None
            end) as [role |]; [ | discriminate ].
  rewrite Hrules. cbn [negb]. unfold rules_not_agreed. wp_run Hnf w.
  destruct (match guild_config gid w with
            | Some c => rule_agreement_message c
            | None => None
            end) as [[[ch |] [msg |]] |]; wp_run Hnf w;
    try (unfold unchanged_stores; cbn; repeat split; reflexivity).
  destruct (guild_get_channel guild ch); wp_run Hnf w;
    unfold unchanged_stores; cbn; repeat split; reflexivity.
Qed.

(** A newcomer without the rules role asks for app 40. *)
Lemma rules_come_first_witness :
  let w := Cases.strict_world in
  let p := Cases.newcomer_reaction in
  rules_in_order (mkReactionRole 10 500 "🍎" 30 [Some 40] true) Cases.newcomer 10 w
  = false
  /\ result (handle_role_reaction p) w = Returned tt
  /\ trace (after (handle_role_reaction p) w)
     = [EMemberSend 101 (TxtRulesNotAgreed (Some (21, 510))) 1000]
  /\ testers (after (handle_role_reaction p) w) = []
  /\ requests (after (handle_role_reaction p) w) = [].
Proof.
  cbv zeta.
  destruct (@rules_come_first Cases.strict_world Cases.newcomer_reaction
              Cases.newcomer 10 Sample.the_guild
              (mkReactionRole 10 500 "🍎" 30 [Some 40] true))
    as (Hres & Htr & Hreq & Hts & _).
  - intros n op. reflexivity.
  - repeat split; reflexivity.
  - reflexivity.
  - split; [ reflexivity | ]. split; [ exact Hres | ]. split; [ exact Htr | ].
    split; [ exact Hts | exact Hreq ].
Defined.

Lemma some_closed_beta l :
  forallb beta_open l = false ->
  Nat.eqb (length (map app_name (filter (fun a => negb (beta_open a)) l))) 0 = false.
Proof.
  induction l as [| a l IH]; [ discriminate | ]. cbn [forallb filter].
  destruct (beta_open a); cbn [negb andb]; [ exact IH | reflexivity ].
Qed.

Ltac closed_tail Hnf w l Hl Hclosed Hc :=
  match goal with |- wp _ ?W _ => apply wp_fetch_apps with (w := W) (l := l) end;
    [ exact Hnf | exact Hl | ];
  intro; wp_simpl; apply wp_bind; apply wp_deref_all; wp_simpl;
  rewrite (some_closed_beta _ Hclosed); cbn [negb]; wp_run Hnf w;
  rewrite Hc; wp_run Hnf w;
  unfold unchanged_stores; cbn; repeat split; reflexivity.

(** X14.  A closed beta.  When one of the apps of the reaction role has no open
    beta, the member gets one private message that names the apps asked for
    and the closed ones, and the handler returns; no tester and no request is
    created and no role is granted. *)
Theorem closed_beta_is_refused :
  forall w payload mem gid guild rr l c,
    no_faults w ->
    reacts_for_role payload w mem gid guild rr ->
    rules_in_order rr mem gid w = true ->
    apps_of (app_ids rr) (apps w) = Some l ->
    forallb beta_open l = false ->
    get_channel (channel_id payload) w = Some c ->
    let w' := after (handle_role_reaction payload) w in
    result (handle_role_reaction payload) w = Returned tt
    /\ trace w'
       = EMemberSend (member_id mem)
           (TxtBetasNotOpen (map app_name l)
              (map app_name (filter (fun a => negb (beta_open a)) l)))
           (next_id w) :: trace w
    /\ unchanged_stores w w'.
Proof.
  intros w payload mem gid guild rr l c Hnf (Hw & Hmem & Hgid & Hg & Hrr)
    Hrules Hl Hclosed Hc w'.
  subst w'.
  change (wp (handle_role_reaction payload) w
            (fun o w' =>
               o = Returned tt
               /\ trace w'
                  = EMemberSend (member_id mem)
                      (TxtBetasNotOpen (map app_name l)
                         (map app_name (filter (fun a => negb (beta_open a)) l)))
                      (next_id w) :: trace w
               /\ unchanged_stores w w')).
  unfold rules_in_order in *.
  to_reaction_role Hnf w Hw Hmem Hgid Hg Hrr.
  destruct (requires_rules_approval rr).
  - wp_run Hnf w.
    destruct (match guild_config gid w with
              | Some c => rule_agreement_role_id c
              | None => None
              end) as [role |].
    + rewrite Hrules. wp_run Hnf w. closed_tail Hnf w l Hl Hclosed Hc.
    + wp_run Hnf w. closed_tail Hnf w l Hl Hclosed Hc.
  - wp_run Hnf w. closed_tail Hnf w l Hl Hclosed Hc.
Qed.

(** App 40 has closed its beta. *)
Lemma closed_beta_is_refused_witness :
  let w := Cases.closed_world in
  let p := Sample.signup_reaction in
  result (handle_role_reaction p) w = Returned tt
  /\ trace (after (handle_role_reaction p) w)
     = [EMemberSend 100 (TxtBetasNotOpen ["App A"] ["App A"]) 1000]
  /\ testers (after (handle_role_reaction p) w) = []
  /\ requests (after (handle_role_reaction p) w) = [].
Proof.
  cbv zeta.
  destruct (@closed_beta_is_refused Cases.closed_world Sample.signup_reaction
              Sample.tester_member 10 Sample.the_guild
              (mkReactionRole 10 500 "🍎" 30 [Some 40] false)
              [Cases.closed_app] 21)
    as (Hres & Htr & Hreq & Hts & _); try reflexivity.
  - intros n op. reflexivity.
  - repeat split; reflexivity.
  - split; [ exact Hres | ]. split; [ exact Htr | ].
    split; [ exact Hts | exact Hreq ].
Defined.

Ltac grant_tail Hnf w Hnone :=
  rewrite Hnone; cbn [mapM]; wp_steps; cbn [mapM]; wp_steps;
  cbn [filter map length Nat.eqb negb orb]; wp_steps;
  unfold guild_get_role;
  match goal with
  | |- context [mem_Z ?r (guild_roles ?g)] =>
      destruct (mem_Z r (guild_roles g)); cbn [andb];
      [ match goal with
        | |- context [mem_Z r (member_roles ?m)] =>
            destruct (mem_Z r (member_roles m)); cbn [negb];
            [ wp_steps; cbn [List.app]; repeat split; auto
            | unfold add_roles; wp_run Hnf w; cbn [mapM]; wp_run Hnf w;
              repeat split; auto; discriminate ]
        end
      | wp_steps; cbn [List.app]; repeat split; auto ]
  end.

(** X15.  A reaction role that has no app is granted at once, with no request and
    no moderator: when the role is a role of the guild and the member lacks
    it, the one effect of [handle_role_reaction] is the grant of the role;
    when the guild has no such role, or the member holds it, the handler has
    no effect.  No tester and no request is created. *)
Theorem role_without_app_is_granted_at_once :
  forall w payload mem gid guild rr,
    no_faults w ->
    reacts_for_role payload w mem gid guild rr ->
    rules_in_order rr mem gid w = true ->
    app_ids rr = [] ->
    let w' := after (handle_role_reaction payload) w in
    let granted := mem_Z (role_id rr) (guild_roles guild)
                   && negb (mem_Z (role_id rr) (member_roles mem)) in
    result (handle_role_reaction payload) w = Returned tt
    /\ trace w'
       = (if granted then [EAddRoles (member_id mem) [role_id rr]] else [])
         ++ trace w
    /\ requests w' = requests w
    /\ testers w' = testers w
    /\ (granted = false -> members w' = members w).
Proof.
  intros w payload mem gid guild rr Hnf (Hw & Hmem & Hgid & Hg & Hrr)
    Hrules Hnone w' granted.
  subst w' granted.
  change (wp (handle_role_reaction payload) w
            (fun o w' =>
               o = Returned tt
               /\ trace w'
                  = (if mem_Z (role_id rr) (guild_roles guild)
                        && negb (mem_Z (role_id rr) (member_roles mem))
                     then [EAddRoles (member_id mem) [role_id rr]] else [])
                    ++ trace w
               /\ requests w' = requests w
               /\ testers w' = testers w
               /\ (mem_Z (role_id rr) (guild_roles guild)
                   && negb (mem_Z (role_id rr) (member_roles mem)) = false ->
                   members w' = members w))).
  unfold rules_in_order in *.
  to_reaction_role Hnf w Hw Hmem Hgid Hg Hrr.
  destruct (requires_rules_approval rr).
  - wp_run Hnf w.
    destruct (match guild_config gid w with
              | Some c => rule_agreement_role_id c
              | None => None
              end) as [role |].
    + rewrite Hrules. wp_run Hnf w. grant_tail Hnf w Hnone.
    + wp_run Hnf w. grant_tail Hnf w Hnone.
  - wp_run Hnf w. grant_tail Hnf w Hnone.
Qed.

(** The bell gives Tess role 30. *)
Lemma role_without_app_is_granted_at_once_witness :
  let w := Cases.bell_world in
  let p := Cases.bell_reaction in
  result (handle_role_reaction p) w = Returned tt
  /\ trace (after (handle_role_reaction p) w) = [EAddRoles 100 [30]]
  /\ map member_roles (members (after (handle_role_reaction p) w)) = [[31; 30]]
  /\ requests (after (handle_role_reaction p) w) = []
  /\ testers (after (handle_role_reaction p) w) = [].
Proof.
  cbv zeta.
  destruct (@role_without_app_is_granted_at_once Cases.bell_world
              Cases.bell_reaction Sample.tester_member 10 Sample.the_guild
              (mkReactionRole 10 500 "🔔" 30 [] false))
    as (Hres & Htr & Hreq & Hts & _); try reflexivity.
  - intros n op. reflexivity.
  - repeat split; reflexivity.
  - split; [ exact Hres | ]. split; [ exact Htr | ].
    split; [ vm_compute; reflexivity | ].
    split; [ exact Hreq | exact Hts ].
Defined.

(** X16.  A reaction that is no reaction of a guild member to a watched message
    mapped to a reaction role (the message is not watched, the event has no
    member or no guild, the guild is unknown, or no reaction role matches)
    has no effect in [handle_role_reaction]. *)
Theorem unmapped_reaction_is_ignored :
  forall w payload,
    no_faults w ->
    unmapped payload w ->
    let w' := after (handle_role_reaction payload) w in
    result (handle_role_reaction payload) w = Returned tt
    /\ trace w' = trace w
    /\ unchanged_stores w w'.
Proof.
  intros w payload Hnf Hun w'. subst w'.
  change (wp (handle_role_reaction payload) w
            (fun o w' => o = Returned tt /\ trace w' = trace w
                         /\ unchanged_stores w w')).
  destruct (mem_Z (message_id payload) (watched w)) eqn:Hw.
  - unfold handle_role_reaction. wp_run Hnf w.
    match goal with |- wp _ w ?K =>
      assert (HK : forall n, K (Returned (watched w))
                               (set_watched_message_ids (watched w) (set_calls n w)))
    end.
    { intro n. wp_run Hnf w. rewrite Hw. wp_run Hnf w.
      destruct Hun as [Hun | [Hun | Hun]]; [ congruence | | ].
      - rewrite Hun. wp_steps. unfold unchanged_stores. repeat split; reflexivity.
      - destruct (member payload) as [mem |];
          [ | wp_steps; unfold unchanged_stores; repeat split; reflexivity ].
        destruct (guild_id payload) as [gid |];
          [ | wp_steps; unfold unchanged_stores; repeat split; reflexivity ].
        wp_run Hnf w. destruct Hun as [Hun | Hun].
        + rewrite Hun. wp_steps. unfold unchanged_stores. repeat split; reflexivity.
        + destruct (get_guild gid w) as [guild |];
            [ | wp_steps; unfold unchanged_stores; repeat split; reflexivity ].
          wp_run Hnf w. unfold reaction_role_of in Hun. rewrite Hun.
          wp_steps. unfold unchanged_stores. repeat split; reflexivity. }
    unfold watched in *.
    destruct (Nat.ltb 0 (length (watched_message_ids w))).
    + wp_steps. rewrite <- (set_watched_same w) at 2. apply HK.
    + wp_run Hnf w. apply HK.
  - apply wp_handle_role_reaction_unwatched; [ exact Hnf | exact Hw | ].
    intros n ids. unfold unchanged_stores. repeat split; reflexivity.
Qed.

(** A banana on the sign-up post is mapped to nothing. *)
Lemma unmapped_reaction_is_ignored_witness :
  unmapped Sample.unmapped_reaction Sample.world
  /\ result (handle_role_reaction Sample.unmapped_reaction) Sample.world = Returned tt
  /\ trace (after (handle_role_reaction Sample.unmapped_reaction) Sample.world) = [].
Proof.
  assert (Hun : unmapped Sample.unmapped_reaction Sample.world).
  { right. right. right. reflexivity. }
  destruct (@unmapped_reaction_is_ignored Sample.world Sample.unmapped_reaction
              (fun _ _ => eq_refl) Hun) as (Hres & Htr & _).
  split; [ exact Hun | ]. split; [ exact Hres | exact Htr ].
Defined.

(** ** The notification of a request *)

Lemma find_replaced_fresh mid r' l :
  (forall s, In s l -> request_has_message mid s = false) ->
  request_has_message mid r' = true ->
  (exists s, In s l /\ request_id s = request_id r') ->
  find (request_has_message mid) (replace_request r' l) = Some r'.
Proof.
  intros Hpast Hr'. unfold replace_request.
  induction l as [| a l IH]; intros (s & Hin & Hid); [ destruct Hin | ].
  cbn [map find].
  destruct (opt_Z_eqb (request_id a) (request_id r')) eqn:E.
  - rewrite Hr'. reflexivity.
  - rewrite (Hpast a (or_introl eq_refl)).
    apply IH.
    + intros x Hx. apply Hpast. right. exact Hx.
    + destruct Hin as [-> | Hin].
      * rewrite Hid, opt_Z_eqb_refl in E. discriminate.
      * exists s. split; assumption.
Qed.

Lemma cached_message_fresh i l m :
  (forall x, In x l -> message_ident x < i) ->
  cached m = false ->
  find (fun x => (message_ident x =? i) && cached x) (l ++ [m]) = None.
Proof.
  intros Hl Hm. induction l as [| a l IH]; cbn [find List.app].
  - rewrite Hm, andb_false_r. reflexivity.
  - assert (Ha : message_ident a < i) by (apply Hl; left; reflexivity).
    destruct (message_ident a =? i) eqn:E; [ apply Z.eqb_eq in E; lia | ].
    cbn [andb]. apply IH. intros x Hx. apply Hl. right. exact Hx.
Qed.

(** X17.  The notification leads back to the request.  After
    [send_request_notification_message] has notified a request that is on
    record, in a channel that resolves, the new message is a message of the
    bot in that channel, with the notification as its content, and the store
    resolves the id of that message to the request, with its status, tester
    and app: the reaction of a moderator on the notification finds the
    request.  The store keeps the ids it is given, and the ids of messages
    are fresh. *)
Theorem notification_leads_back_to_the_request :
  forall w user t r ch,
    no_faults w ->
    notification_channel r w = Some ch ->
    In r (requests w) ->
    ids_are_fresh w ->
    notes_are_past w ->
    keeps_ids w ->
    let w' := after (send_request_notification_message user t r) w in
    result (send_request_notification_message user t r) w = Returned tt
    /\ (exists m,
          resolve_message ch (next_id w) w' = Some m
          /\ message_author m = bot_user w'
          /\ content m = request_notification user r)
    /\ (exists r',
          find (request_has_message (next_id w)) (requests w') = Some r'
          /\ request_id r' = request_id r
          /\ status r' = status r
          /\ tester r' = tester r
          /\ app r' = app r).
Proof.
  intros w user t r ch Hnf Hch Hin Hfresh Hpast Hkeeps w'. subst w'.
  change (wp (send_request_notification_message user t r) w
            (fun o w' =>
               o = Returned tt
               /\ (exists m,
                     resolve_message ch (next_id w) w' = Some m
                     /\ message_author m = bot_user w'
                     /\ content m = request_notification user r)
               /\ (exists r',
                     find (request_has_message (next_id w)) (requests w') = Some r'
                     /\ request_id r' = request_id r
                     /\ status r' = status r
                     /\ tester r' = tester r
                     /\ app r' = app r))).
  assert (Hreq : forall r',
            request_id r' = request_id r ->
            request_has_message (next_id w) r' = true ->
            find (request_has_message (next_id w)) (replace_request r' (requests w))
            = Some r').
  { intros r' Hid Hhas. apply find_replaced_fresh; [ exact Hpast | exact Hhas | ].
    exists r. split; [ exact Hin | symmetry; exact Hid ]. }
  unfold send_request_notification_message, request_notification.
  unfold notification_channel, default_channel in Hch.
  assert (Hsent : forall text W,
            messages W
            = messages w
              ++ [mkMessage (next_id w) ch (bot_user w) (utcnow w) [] false text] ->
            exists m,
              resolve_message ch (next_id w) W = Some m
              /\ message_author m = bot_user w /\ content m = text).
  { intros text W HW. eexists. split.
    - unfold resolve_message, cached_message, find_message. rewrite HW.
      rewrite cached_message_fresh; [ | exact Hfresh | reflexivity ].
      apply find_message_fresh; [ exact Hfresh | reflexivity | reflexivity ].
    - split; reflexivity. }
  assert (Hrepeat : forall r0,
            request_has_message (next_id w)
              (add_further_notification_message_id
                 (stored_message_id w (next_id w)) r0) = true).
  { intro r0. unfold request_has_message, add_further_notification_message_id.
    cbn [further_notification_message_ids with_further_notification_message_ids
         notification_message_id].
    rewrite existsb_app. cbn [existsb]. rewrite Hkeeps, Z.eqb_refl.
    rewrite !orb_true_r. reflexivity. }
  assert (Hfirst : forall r0,
            request_has_message (next_id w)
              (with_notification_message_id (Some (PInt (next_id w))) r0) = true).
  { intro r0. unfold request_has_message.
    cbn [notification_message_id with_notification_message_id py_int].
    rewrite Z.eqb_refl. reflexivity. }
  destruct (approval_channel_id r) as [c |].
  - wp_run Hnf w. rewrite Hch.
    destruct (py_truthy (notification_message_id r)) eqn:Erepeat;
      wp_run Hnf w; cbn [negb message_ident];
      (split; [ reflexivity | ]); (split; [ apply Hsent; reflexivity | ]);
      (eexists; split; [ apply Hreq; [ reflexivity | ] | repeat split; reflexivity ]);
      first [ apply Hrepeat | apply Hfirst ].
  - wp_run Hnf w.
    destruct (match guild_config (server_id r) w with
              | Some c => default_approvals_channel_id c
              | None => None
              end) as [c |]; [ | discriminate ].
    wp_run Hnf w. rewrite Hch.
    destruct (py_truthy (notification_message_id r)) eqn:Erepeat;
      wp_run Hnf w; cbn [negb message_ident];
      (split; [ reflexivity | ]); (split; [ apply Hsent; reflexivity | ]);
      (eexists; split; [ apply Hreq; [ reflexivity | ] | repeat split; reflexivity ]);
      first [ apply Hrepeat | apply Hfirst ].
Qed.

(** The request of message 600 is notified again, in message 1000. *)
Lemma notification_leads_back_to_the_request_witness :
  let w := Sample.world_with_request PENDING [] [] in
  let r := Sample.request_of PENDING (Some (PStr 600)) [] in
  let w' := after (send_request_notification_message 100 Sample.registered_tester r) w in
  notification_channel r w = Some 20
  /\ next_id w = 1000
  /\ result (send_request_notification_message 100 Sample.registered_tester r) w
     = Returned tt
  /\ find (request_has_message 1000) (requests w')
     = Some (Sample.request_of PENDING (Some (PStr 600)) [PStr 1000])
  /\ exists m, resolve_message 20 1000 w' = Some m /\ message_author m = 1.
Proof.
  cbv zeta.
  destruct (@notification_leads_back_to_the_request
              (Sample.world_with_request PENDING [] []) 100 Sample.registered_tester
              (Sample.request_of PENDING (Some (PStr 600)) []) 20)
    as (Hres & (m & Hm & Hauthor & _) & _).
  - intros n op. reflexivity.
  - reflexivity.
  - left. reflexivity.
  - intros x [<- | [<- | []]]; reflexivity.
  - intros s [<- | []]. reflexivity.
  - intro z. reflexivity.
  - split; [ reflexivity | ]. split; [ reflexivity | ]. split; [ exact Hres | ].
    split; [ vm_compute; reflexivity | ].
    exists m. split; [ exact Hm | exact Hauthor ].
Defined.

(** X18.  A request whose approval channel does not resolve is not notified, and
    is not updated.  When the request names no channel and the guild has no
    default approval channel that resolves, the function returns; when the
    request names a channel that the client does not resolve, it raises an
    AttributeError. *)
Theorem request_without_channel_is_not_notified :
  forall w user t r,
    notification_channel r w = None ->
    let run := send_request_notification_message user t r in
    trace (after run w) = trace w
    /\ requests (after run w) = requests w
    /\ (approval_channel_id r <> None -> result run w = Raised AttributeError)
    /\ (approval_channel_id r = None ->
        (forall n, faults w n OpGetDefaultApprovalsChannelId = None) ->
        result run w = Returned tt).
Proof.
  intros w user t r Hch run. subst run.
  change (wp (send_request_notification_message user t r) w
            (fun o w' =>
               trace w' = trace w
               /\ requests w' = requests w
               /\ (approval_channel_id r <> None -> o = Raised AttributeError)
               /\ (approval_channel_id r = None ->
                   (forall n, faults w n OpGetDefaultApprovalsChannelId = None) ->
                   o = Returned tt))).
  unfold send_request_notification_message.
  unfold notification_channel, default_channel in Hch.
  destruct (approval_channel_id r) as [c |].
  - wp_steps. rewrite Hch.
    destruct (py_truthy (notification_message_id r)); wp_steps;
      repeat split; try reflexivity; intro H; discriminate H.
  - wp_steps.
    destruct (faults w (calls w) OpGetDefaultApprovalsChannelId) as [e |] eqn:E.
    + repeat split; try reflexivity; [ intro H; congruence | ].
      intros _ Hd. rewrite Hd in E. discriminate E.
    + wp_steps. wnorm w.
      destruct (match guild_config (server_id r) w with
                | Some c => default_approvals_channel_id c
                | None => None
                end) as [c |].
      * wp_steps. wnorm w. rewrite Hch. wp_steps.
        repeat split; try reflexivity. intro H; congruence.
      * wp_steps. repeat split; try reflexivity. intro H; congruence.
Qed.

(** A request for channel 99, which the client does not know. *)
Lemma request_without_channel_is_not_notified_witness :
  let r := mkTestingRequest (Some 950) (Some 900) 100 (Some 40) 10 (Some 99)
             PENDING None [] false 10 [30] in
  let w := set_requests [r] (set_testers [Sample.registered_tester] Sample.world) in
  let run := send_request_notification_message 100 Sample.registered_tester r in
  notification_channel r w = None
  /\ result run w = Raised AttributeError
  /\ trace (after run w) = []
  /\ requests (after run w) = [r].
Proof.
  cbv zeta.
  destruct (@request_without_channel_is_not_notified
              (set_requests
                 [mkTestingRequest (Some 950) (Some 900) 100 (Some 40) 10 (Some 99)
                    PENDING None [] false 10 [30]]
                 (set_testers [Sample.registered_tester] Sample.world))
              100 Sample.registered_tester
              (mkTestingRequest (Some 950) (Some 900) 100 (Some 40) 10 (Some 99)
                 PENDING None [] false 10 [30]) eq_refl)
    as (Htr & Hreq & Hres & _).
  split; [ reflexivity | ]. split; [ apply Hres; discriminate | ].
  split; [ exact Htr | exact Hreq ].
Defined.

(** ** A notification that is gone, and removals that remove nothing *)



(** [handle_removal_reaction], run up to [remove_tester_from_app_store];
    [look] consults the fault table. *)
Ltac removal_to_store look w Hreacts Hgid Hem Ht :=
  unfold handle_removal_reaction, configured in *;
  wp_run_with look w;
  eapply wp_check_valid_spared; [ | | exact Hreacts | ];
  [ intro; look; reflexivity | intro; look; reflexivity | ];
  intro; wp_run_with look w;
  rewrite Hgid; wp_run_with look w; rewrite Hem; wp_run_with look w;
  match goal with
  | |- context [find ?P (testers ?W)] =>
      change (find P (testers W)) with (find P (testers w))
  end;
  rewrite Ht; wp_run_with look w;
  unfold remove_tester_from_app_store; wp_run_with look w.

(** X20.  A removal when the distribution API knows no tester with the email of
    the tester record: the moderator is told so in a reply, nothing is
    removed or updated, and the message still gets the door marker and
    [handle_removal_reaction] returns True. *)
Theorem removal_of_unknown_tester_is_reported :
  forall w payload gid guild c msg mem t,
    no_faults w ->
    reacts_to_bot_message payload w gid guild c msg ->
    mem_string (emoji payload) (configured removal_emojis gid w) = true ->
    find (fun t => mem_Z (message_id payload) (leave_message_ids t)) (testers w)
    = Some t ->
    filter (fun b => opt_string_eqb (beta_tester_email b) (email t)) (beta_testers w)
    = [] ->
    member payload = Some mem ->
    let w' := after (handle_removal_reaction payload) w in
    result (handle_removal_reaction payload) w = Returned true
    /\ trace w'
       = EAddReaction (message_id payload) "🚪"
         :: EChannelSend c (TxtNoTestersWithEmail (member_id mem) (email t))
              (Some (message_id payload)) (next_id w)
         :: EAddReaction (message_id payload) processing_emoji :: trace w
    /\ unchanged_stores w w'.
Proof.
  intros w payload gid guild c msg mem t Hnf Hreacts Hem Ht Hnone Hmem w'.
  subst w'.
  assert (Hid : message_ident msg = message_id payload).
  { destruct Hreacts as (_ & _ & _ & _ & Hm & _).
    eapply resolve_message_ident; eauto. }
  assert (Hgid : guild_id payload = Some gid) by apply Hreacts.
  assert (Hc : get_channel (channel_id payload) w = Some c) by apply Hreacts.
  change (wp (handle_removal_reaction payload) w
            (fun o w' =>
               o = Returned true
               /\ trace w'
                  = EAddReaction (message_id payload) "🚪"
                    :: EChannelSend c (TxtNoTestersWithEmail (member_id mem) (email t))
                         (Some (message_id payload)) (next_id w)
                    :: EAddReaction (message_id payload) processing_emoji :: trace w
               /\ unchanged_stores w w')).
  removal_to_store ltac:(rewrite Hnf) w Hreacts Hgid Hem Ht.
  rewrite Hnone, Hc. wp_run Hnf w. rewrite Hmem. wp_run Hnf w.
  rewrite Hid. unfold unchanged_stores. cbn. repeat split; reflexivity.
Qed.

(** The removal on notice 700, when no beta tester has the email of Tess. *)
Lemma removal_of_unknown_tester_is_reported_witness :
  let p := Sample.moderator_reaction "🗑️" 22 700 in
  let w := set_faults Sample.never Sample.departed_world in
  result (handle_removal_reaction p) w = Returned true
  /\ trace (after (handle_removal_reaction p) w)
     = [EAddReaction 700 "🚪";
        EChannelSend 22 (TxtNoTestersWithEmail 200 (Some "tess@example.org"))
          (Some 700) 1000;
        EAddReaction 700 processing_emoji].
Proof.
  cbv zeta.
  destruct (@removal_of_unknown_tester_is_reported
              (set_faults Sample.never Sample.departed_world)
              (Sample.moderator_reaction "🗑️" 22 700)
              10 Sample.the_guild 22 (Sample.bot_message 700 22 [])
              Sample.moderator Sample.departed_tester)
    as (Hres & Htr & _); try reflexivity.
  - intros n op. reflexivity.
  - repeat split; reflexivity.
  - split; [ exact Hres | exact Htr ].
Defined.

(** X21.  A removal when the first lookup in the distribution API fails.  Missing
    credentials and a missing beta group end in a NameError, because the
    report names the local [app], which is not bound yet, and nothing is
    sent; an invalid attribute is reported to the channel and raised again;
    an error of no distinguished class is swallowed, and the message gets
    the door marker and the handler returns True although nothing was
    removed.  In every case the requests, the testers, the member roles and
    the beta groups are as before. *)
Theorem distribution_failures_during_removal :
  forall w failure payload gid guild c msg mem t,
    only_fails OpFindBetaTester (AppStoreConnectError failure) w ->
    reacts_to_bot_message payload w gid guild c msg ->
    mem_string (emoji payload) (configured removal_emojis gid w) = true ->
    find (fun t => mem_Z (message_id payload) (leave_message_ids t)) (testers w)
    = Some t ->
    member payload = Some mem ->
    let w' := after (handle_removal_reaction payload) w in
    let marked := EAddReaction (message_id payload) processing_emoji :: trace w in
    (failure = ApiKeyNotSetError \/ failure = BetaGroupNotSetError ->
     result (handle_removal_reaction payload) w = Raised NameError
     /\ trace w' = marked)
    /\
    (forall details,
       failure = InvalidAttributeError details ->
       result (handle_removal_reaction payload) w
       = Raised (AppStoreConnectError (InvalidAttributeError details))
       /\ trace w'
          = EChannelSend c (TxtInvalidAttribute (member_id mem) details)
              (Some (message_id payload)) (next_id w) :: marked)
    /\
    (failure = GenericAppStoreConnectError ->
     result (handle_removal_reaction payload) w = Returned true
     /\ trace w' = EAddReaction (message_id payload) "🚪" :: marked)
    /\ unchanged_stores w w'.
Proof.
  intros w failure payload gid guild c msg mem t Hof Hreacts Hem Ht Hmem w' marked.
  subst w' marked.
  assert (Hid : message_ident msg = message_id payload).
  { destruct Hreacts as (_ & _ & _ & _ & Hm & _).
    eapply resolve_message_ident; eauto. }
  assert (Hgid : guild_id payload = Some gid) by apply Hreacts.
  assert (Hc : get_channel (channel_id payload) w = Some c) by apply Hreacts.
  change (wp (handle_removal_reaction payload) w
            (fun o w' =>
               (failure = ApiKeyNotSetError \/ failure = BetaGroupNotSetError ->
                o = Raised NameError
                /\ trace w'
                   = EAddReaction (message_id payload) processing_emoji :: trace w)
               /\
               (forall details,
                  failure = InvalidAttributeError details ->
                  o = Raised (AppStoreConnectError (InvalidAttributeError details))
                  /\ trace w'
                     = EChannelSend c (TxtInvalidAttribute (member_id mem) details)
                         (Some (message_id payload)) (next_id w)
                       :: EAddReaction (message_id payload) processing_emoji
                       :: trace w)
               /\
               (failure = GenericAppStoreConnectError ->
                o = Returned true
                /\ trace w'
                   = EAddReaction (message_id payload) "🚪"
                     :: EAddReaction (message_id payload) processing_emoji
                     :: trace w)
               /\ unchanged_stores w w')).
  removal_to_store ltac:(rewrite Hof; cbn [Op_eqb]) w Hreacts Hgid Hem Ht.
  unfold removal_failure_reported. wp_run_failing Hof w. rewrite Hc.
  destruct failure as [| | details |]; wp_run_failing Hof w;
    rewrite ?Hmem; wp_run_failing Hof w; rewrite ?Hid.
  all: split; [ intros [H | H]; try discriminate H; split; reflexivity | ].
  all: split; [ intros d H; try discriminate H;
                try (injection H as <-); split; reflexivity | ].
  all: split; [ intro H; try discriminate H; split; reflexivity | ].
  all: unfold unchanged_stores; cbn; repeat split; reflexivity.
Qed.

(** The removal on notice 700: without credentials a NameError, with an
    error of no distinguished class the door marker. *)
Lemma distribution_failures_during_removal_witness :
  let p := Sample.moderator_reaction "🗑️" 22 700 in
  (only_fails OpFindBetaTester (AppStoreConnectError ApiKeyNotSetError)
     Sample.departed_world
   /\ result (handle_removal_reaction p) Sample.departed_world = Raised NameError
   /\ trace (after (handle_removal_reaction p) Sample.departed_world)
      = [EAddReaction 700 processing_emoji])
  /\
  (only_fails OpFindBetaTester (AppStoreConnectError GenericAppStoreConnectError)
     Cases.flaky_world
   /\ result (handle_removal_reaction p) Cases.flaky_world = Returned true
   /\ trace (after (handle_removal_reaction p) Cases.flaky_world)
      = [EAddReaction 700 "🚪"; EAddReaction 700 processing_emoji]).
Proof.
  cbv zeta. split.
  - assert (Hof : only_fails OpFindBetaTester (AppStoreConnectError ApiKeyNotSetError)
                    Sample.departed_world) by (intros n o; reflexivity).
    destruct (@distribution_failures_during_removal
                Sample.departed_world ApiKeyNotSetError
                (Sample.moderator_reaction "🗑️" 22 700)
                10 Sample.the_guild 22 (Sample.bot_message 700 22 [])
                Sample.moderator Sample.departed_tester Hof)
      as (H & _); try reflexivity.
    + repeat split; reflexivity.
    + destruct (H (or_introl eq_refl)) as (Hres & Htr).
      split; [ exact Hof | ]. split; [ exact Hres | exact Htr ].
  - assert (Hof : only_fails OpFindBetaTester
                    (AppStoreConnectError GenericAppStoreConnectError)
                    Cases.flaky_world) by (intros n o; reflexivity).
    destruct (@distribution_failures_during_removal
                Cases.flaky_world GenericAppStoreConnectError
                (Sample.moderator_reaction "🗑️" 22 700)
                10 Sample.the_guild 22 (Sample.bot_message 700 22 [])
                Sample.moderator Sample.departed_tester Hof)
      as (_ & _ & H & _); try reflexivity.
    + repeat split; reflexivity.
    + destruct (H eq_refl) as (Hres & Htr).
      split; [ exact Hof | ]. split; [ exact Hres | exact Htr ].
Defined.

(** ** A removal carried out *)

Lemma but_for_beta_testers_refl w : but_for_beta_testers w w.
Proof. unfold but_for_beta_testers. repeat split; reflexivity. Qed.

Lemma but_for_beta_testers_trans a b c :
  but_for_beta_testers a b -> but_for_beta_testers b c -> but_for_beta_testers a c.
Proof.
  unfold but_for_beta_testers.
  intros (A1 & A2 & A3 & A4 & A5 & A6 & A7 & A8) (B1 & B2 & B3 & B4 & B5 & B6 & B7 & B8).
  repeat split; congruence.
Qed.

Lemma wp_delete_all bid l :
  forall w (Q : outcome unit -> World -> Prop),
    no_faults w ->
    (forall w',
       but_for_beta_testers w w' ->
       trace w' = rev (map (EDeleteBetaTester bid) l) ++ trace w ->
       Q (Returned tt) w') ->
    wp (forM_ l (fun a => delete_beta_tester bid a)) w Q.
Proof.
  induction l as [| a l IH]; intros w Q Hnf HQ; cbn [forM_].
  - wp_steps. apply HQ; [ apply but_for_beta_testers_refl | reflexivity ].
  - wp_run Hnf w.
    match goal with |- wp _ ?W _ => apply (IH W) end; [ exact Hnf | ].
    intros w' Hrel Htr. apply HQ.
    + eapply but_for_beta_testers_trans; [ | exact Hrel ].
      unfold but_for_beta_testers. repeat split; reflexivity.
    + rewrite Htr. cbn [map rev trace set_trace]. rewrite <- app_assoc. reflexivity.
Qed.

Lemma no_faults_but_for_beta_testers w w' :
  but_for_beta_testers w w' -> no_faults w -> no_faults w'.
Proof. intros (Hf & _) Hnf n op. rewrite Hf. apply Hnf. Qed.

Lemma wp_remove_from_all_groups payload found :
  forall w bound removed (Q : outcome (option (option App * list Z)) -> World -> Prop),
    no_faults w ->
    (forall w' bound',
       but_for_beta_testers w w' ->
       trace w' = rev (deletions found (apps w)) ++ trace w ->
       Q (Returned (Some (bound', removed ++ left_apps found (apps w)))) w') ->
    wp (remove_from_all_groups payload found bound removed) w Q.
Proof.
  induction found as [| b rest IH]; intros w bound removed Q Hnf HQ;
    cbn [remove_from_all_groups].
  - wp_steps. cbn [left_apps deletions flat_map] in HQ.
    specialize (HQ w bound (but_for_beta_testers_refl w) eq_refl).
    rewrite app_nil_r in HQ. exact HQ.
  - wp_run Hnf w.
    match goal with |- wp _ ?W _ => apply (@wp_delete_all (beta_tester_id b) _ W) end;
      [ exact Hnf | ].
    intros w1 Hrel1 Htr1. wp_steps.
    apply IH; [ apply (no_faults_but_for_beta_testers Hrel1); exact Hnf | ].
    intros w2 bound2 Hrel2 Htr2.
    assert (Happs : apps w1 = apps w) by apply Hrel1.
    rewrite Happs in Htr2.
    specialize (HQ w2 bound2).
    cbn [left_apps deletions flat_map] in HQ.
    fold (left_apps rest (apps w)) in HQ. fold (deletions rest (apps w)) in HQ.
    unfold apps_to_leave in HQ at 1 2.
    rewrite app_assoc in HQ. rewrite Happs. apply HQ.
    + eapply but_for_beta_testers_trans; [ | exact Hrel2 ].
      eapply but_for_beta_testers_trans; [ | exact Hrel1 ].
      unfold but_for_beta_testers. repeat split; reflexivity.
    + rewrite Htr2, Htr1. cbn [trace set_calls]. rewrite rev_app_distr.
      rewrite <- app_assoc. reflexivity.
Qed.

(** X22.  A removal is carried out.  When no call fails and the distribution API
    has testers with the email of the tester record, each of them is deleted
    once per API key among the apps on record for its beta groups; the
    approved requests of the tester for these apps that are not removed yet
    are stored as removed, in one write; the message gets the door marker
    and [handle_removal_reaction] returns True. *)
Theorem removal_is_carried_out :
  forall w payload gid guild c msg t,
    no_faults w ->
    reacts_to_bot_message payload w gid guild c msg ->
    mem_string (emoji payload) (configured removal_emojis gid w) = true ->
    find (fun t => mem_Z (message_id payload) (leave_message_ids t)) (testers w)
    = Some t ->
    let found := filter (fun b => opt_string_eqb (beta_tester_email b) (email t))
                        (beta_testers w) in
    found <> [] ->
    let records :=
      filter (request_matches (discord_id t)
                (Some (map Some (left_apps found (apps w)))) FilterAPPROVED true)
             (requests w) in
    let w' := after (handle_removal_reaction payload) w in
    result (handle_removal_reaction payload) w = Returned true
    /\ trace w'
       = EAddReaction (message_id payload) "🚪"
         :: EUpdateRequests (map (with_removed true) records)
         :: rev (deletions found (apps w))
         ++ EAddReaction (message_id payload) processing_emoji :: trace w
    /\ requests w'
       = fold_left (fun acc r => replace_request r acc)
           (map (with_removed true) records) (requests w)
    /\ testers w' = testers w.
Proof.
  intros w payload gid guild c msg t Hnf Hreacts Hem Ht found Hfound records w'.
  subst w' records.
  assert (Hid : message_ident msg = message_id payload).
  { destruct Hreacts as (_ & _ & _ & _ & Hm & _).
    eapply resolve_message_ident; eauto. }
  assert (Hgid : guild_id payload = Some gid) by apply Hreacts.
  assert (Hc : get_channel (channel_id payload) w = Some c) by apply Hreacts.
  change (wp (handle_removal_reaction payload) w
            (fun o w' =>
               o = Returned true
               /\ trace w'
                  = EAddReaction (message_id payload) "🚪"
                    :: EUpdateRequests
                         (map (with_removed true)
                            (filter (request_matches (discord_id t)
                                       (Some (map Some (left_apps found (apps w))))
                                       FilterAPPROVED true) (requests w)))
                    :: rev (deletions found (apps w))
                    ++ EAddReaction (message_id payload) processing_emoji :: trace w
               /\ requests w'
                  = fold_left (fun acc r => replace_request r acc)
                      (map (with_removed true)
                         (filter (request_matches (discord_id t)
                                    (Some (map Some (left_apps found (apps w))))
                                    FilterAPPROVED true) (requests w)))
                      (requests w)
               /\ testers w' = testers w)).
  removal_to_store ltac:(rewrite Hnf) w Hreacts Hgid Hem Ht.
  fold found. rewrite Hc.
  destruct found as [| b0 rest] eqn:Efound; [ congruence | ].
  wp_run Hnf w.
  match goal with |- wp _ ?W _ =>
    apply (@wp_remove_from_all_groups payload (b0 :: rest) W)
  end; [ exact Hnf | ].
  intros w1 bound1 (Hf1 & Ha1 & Hr1 & Ht1 & Hm1 & Hmsg1 & Hb1 & Hn1) Htr1.
  assert (Hnf1 : no_faults w1) by (intros k op; rewrite Hf1; apply Hnf).
  cbn [apps trace set_trace update_message set_messages set_calls] in Htr1.
  cbn [List.app]. wp_run Hnf1 w1.
  rewrite Hr1, Htr1, Ht1, Hid.
  cbn [requests testers set_trace update_message set_messages set_calls].
  repeat split; reflexivity.
Qed.

(** Tess is deleted from app 40, and her approved request is marked as
    removed: she has no approved request left. *)
Lemma removal_is_carried_out_witness :
  let p := Sample.moderator_reaction "🗑️" 22 700 in
  let w := Cases.enrolled_world in
  result (handle_removal_reaction p) w = Returned true
  /\ trace (after (handle_removal_reaction p) w)
     = [EAddReaction 700 "🚪";
        EUpdateRequests
          [with_removed true (Sample.request_of APPROVED (Some (PStr 600)) [])];
        EDeleteBetaTester 800 Sample.app_a;
        EAddReaction 700 processing_emoji]
  /\ map removed (requests (after (handle_removal_reaction p) w)) = [true]
  /\ approved_requests 100 (after (handle_removal_reaction p) w) = [].
Proof.
  cbv zeta.
  destruct (@removal_is_carried_out
              Cases.enrolled_world (Sample.moderator_reaction "🗑️" 22 700)
              10 Sample.the_guild 22 (Sample.bot_message 700 22 [])
              Sample.departed_tester)
    as (Hres & Htr & Hreq & _); try reflexivity.
  - intros n op. reflexivity.
  - repeat split; reflexivity.
  - discriminate.
  - split; [ exact Hres | ]. split; [ rewrite Htr; reflexivity | ].
    unfold approved_requests. rewrite Hreq. split; reflexivity.
Defined.

(** ** A leave and a prompt that cannot be completed *)

Lemma wp_names_missing w rs (Q : outcome (list string) -> World -> Prop) :
  (forall n, faults w n OpFetchApp = None) ->
  names_of rs (apps w) = None ->
  (forall n, Q (Raised AttributeError) (set_calls n w)) ->
  wp (mapM (fun r => a <- fetch_app (app r) ;;
                     (fun t => a <- deref t ;; ret (app_name a)) a) rs) w Q.
Proof.
  intros Hf. revert Q w Hf.
  induction rs as [| r rs IH]; intros Q w Hf Hn HQ; cbn [mapM names_of] in *;
    [ discriminate | ].
  unfold app_of in Hn.
  wp_steps. rewrite Hf. wp_steps.
  destruct (app r) as [a |]; [ | wp_steps; apply HQ ].
  wp_steps.
  destruct (find (fun x => app_id x =? a) (apps w)) as [ap |];
    [ | wp_steps; apply HQ ].
  wp_steps.
  destruct (names_of rs (apps w)) as [l |] eqn:El; [ discriminate | ].
  apply IH; [ exact Hf | exact El | ].
  intro n. apply HQ.
Qed.

(** X23.  A member leaves with an approved request for an app of which the store
    has no record: [on_raw_member_remove] raises an AttributeError while it
    collects the names of the apps, before anything is posted to the exit
    channel, and no tester record changes. *)
Theorem leave_with_unknown_app_fails :
  forall w payload cid,
    no_faults w ->
    exit_channel_of (leaving_guild payload) w = Some cid ->
    all_name_an_app (approved_requests (leaving_user payload) w) = true ->
    names_of (approved_requests (leaving_user payload) w) (apps w) = None ->
    let w' := after (on_raw_member_remove payload) w in
    result (on_raw_member_remove payload) w = Raised AttributeError
    /\ trace w' = trace w
    /\ testers w' = testers w.
Proof.
  intros w payload cid Hnf Hcfg _ Hnames w'. subst w'.
  unfold exit_channel_of, approved_requests in *.
  change (wp (on_raw_member_remove payload) w
            (fun o w' =>
               o = Raised AttributeError /\ trace w' = trace w
               /\ testers w' = testers w)).
  unfold on_raw_member_remove. wp_run Hnf w. rewrite Hcfg.
  unfold fetch_apps_for_tester. wp_run Hnf w.
  match goal with |- wp _ ?W _ => apply wp_names_missing with (w := W) end;
    [ intro n; apply Hnf | exact Hnames | ].
  intro n. repeat split; reflexivity.
Qed.

(** Tess leaves with an approved request for app 41. *)
Lemma leave_with_unknown_app_fails_witness :
  let w := Cases.forgotten_app_world in
  names_of (approved_requests 100 w) (apps w) = None
  /\ result (on_raw_member_remove Sample.tester_leaves) w = Raised AttributeError
  /\ trace (after (on_raw_member_remove Sample.tester_leaves) w) = [].
Proof.
  cbv zeta.
  destruct (@leave_with_unknown_app_fails Cases.forgotten_app_world
              Sample.tester_leaves 22 (fun _ _ => eq_refl) eq_refl eq_refl eq_refl)
    as (Hres & Htr & _).
  split; [ reflexivity | ]. split; [ exact Hres | exact Htr ].
Defined.

(** X24.  A registration prompt that is no longer there.  When the tester record
    of a member without an email names a registration prompt that cannot be
    fetched any more, [handle_role_reaction] raises the Discord failure of
    the fetch and sends nothing: the member is not prompted again. *)
Theorem lost_prompt_blocks_the_member :
  forall w payload mem gid rr,
    no_faults w ->
    asks_for_access payload w mem gid rr ->
    email_on_file mem w = false ->
    any_rejected (existing_requests mem rr w) = false ->
    recent_prompt mem w = None ->
    let w' := after (handle_role_reaction payload) w in
    result (handle_role_reaction payload) w = Raised DiscordException
    /\ sends w' = sends w.
Proof.
  intros w payload mem gid rr Hnf Hacc Hmail Hrej Hrecent w'. subst w'.
  change (wp (handle_role_reaction payload) w
            (fun r w' => r = Raised DiscordException /\ sends w' = sends w)).
  eapply wp_handle_role_reaction_to_email_check; eauto.
  intros W t (Hset & Hmsgs & Hnow & _ & _ & _ & _ & Hreg & Hsends) _.
  assert (HnfW : no_faults W).
  { intros n op. destruct Hset as (_ & _ & _ & _ & _ & Hf & _). rewrite Hf. apply Hnf. }
  unfold recent_prompt in Hrecent. unfold registration_branch. rewrite Hreg.
  destruct (prior_prompt mem w) as [rid |]; [ | discriminate ].
  destruct (find_message (member_id mem) rid w) as [prev |] eqn:Eprev; [ discriminate | ].
  wp_run HnfW W. unfold find_message in *. rewrite Hmsgs, Eprev. wp_run HnfW W.
  split; [ reflexivity | exact Hsends ].
Qed.

(** Tess was prompted in message 777, which is gone: each reaction fails. *)
Lemma lost_prompt_blocks_the_member_witness :
  let w := Cases.lost_prompt_world in
  recent_prompt Sample.tester_member w = None
  /\ result (handle_role_reaction Sample.signup_reaction) w = Raised DiscordException
  /\ sends (after (handle_role_reaction Sample.signup_reaction) w) = []
  /\ result (handle_role_reaction Sample.signup_reaction)
       (after (handle_role_reaction Sample.signup_reaction) w)
     = Raised DiscordException.
Proof.
  cbv zeta.
  assert (Hacc : asks_for_access Sample.signup_reaction Cases.lost_prompt_world
                   Sample.tester_member 10
                   (mkReactionRole 10 500 "🍎" 30 [Some 40] false)).
  { repeat split; try reflexivity; try discriminate.
    exists [Sample.app_a]. split; reflexivity. }
  destruct (@lost_prompt_blocks_the_member Cases.lost_prompt_world
              Sample.signup_reaction Sample.tester_member 10
              (mkReactionRole 10 500 "🍎" 30 [Some 40] false)
              (fun _ _ => eq_refl) Hacc eq_refl eq_refl eq_refl)
    as (Hres & Hs).
  split; [ reflexivity | ]. split; [ exact Hres | ]. split; [ exact Hs | ].
  vm_compute. reflexivity.
Defined.

(** ** Approvals that cannot be completed *)

(** X25.  The approval of a request whose tester or whose app is not on record
    raises a workflow failure that refers to the message and mentions the
    reacting member: the one of the missing tester, or else the one of the
    missing app (the model keeps the fixed part of each message, "could not
    find tester" and "Failed to fetch app").  Nothing is sent, granted or
    stored. *)
Theorem approval_needs_tester_and_app :
  forall w payload gid guild c msg r,
    no_faults w ->
    reacts_to_bot_message payload w gid guild c msg ->
    mem_string (emoji payload) (configured approval_emojis gid w) = true ->
    find (request_has_message (message_id payload)) (requests w) = Some r ->
    status r <> REJECTED ->
    tester_of r w = None \/ app_of r (apps w) = None ->
    let w' := after (handle_role_approval payload) w in
    result (handle_role_approval payload) w
    = Raised (ReactionRoleError
                (match tester_of r w with
                 | None => "could not find tester"
                 | Some _ => "Failed to fetch app"
                 end)
                (message_id payload) (option_map member_id (member payload)))
    /\ trace w' = trace w
    /\ unchanged_stores w w'.
Proof.
  intros w payload gid guild c msg r Hnf Hreacts Hem Hr Hst Hmissing w'. subst w'.
  assert (Hid : message_ident msg = message_id payload).
  { destruct Hreacts as (_ & _ & _ & _ & Hm & _).
    eapply resolve_message_ident; eauto. }
  destruct Hreacts as (Hgid & Hap & Hg & Hc & Hm & Hauth).
  change (wp (handle_role_approval payload) w
            (fun o w' =>
               o = Raised (ReactionRoleError
                             (match tester_of r w with
                              | None => "could not find tester"
                              | Some _ => "Failed to fetch app"
                              end)
                             (message_id payload)
                             (option_map member_id (member payload)))
               /\ trace w' = trace w
               /\ unchanged_stores w w')).
  unfold handle_role_approval, configured, tester_of, app_of in *. wp_run Hnf w.
  eapply wp_check_valid; eauto. intro n. wp_run Hnf w.
  rewrite Hgid. wp_run Hnf w. rewrite Hem.
  wp_run Hnf w. rewrite Hr. wp_run Hnf w.
  rewrite (not_rejected _ Hst). wp_run Hnf w.
  destruct (tester r) as [i |]; wp_run Hnf w.
  - destruct (find (fun t => opt_Z_eqb (tester_id t) (Some i)) (testers w)) as [t |].
    + destruct Hmissing as [H | Happ]; [ discriminate H | ].
      destruct (app r) as [a |]; wp_run Hnf w.
      * rewrite Happ. wp_run Hnf w. rewrite Hid.
        unfold unchanged_stores. cbn. repeat split; reflexivity.
      * rewrite Hid. unfold unchanged_stores. cbn. repeat split; reflexivity.
    + destruct (app r) as [a |]; wp_run Hnf w; rewrite Hid;
        unfold unchanged_stores; cbn; repeat split; reflexivity.
  - destruct (app r) as [a |]; wp_run Hnf w; rewrite Hid;
      unfold unchanged_stores; cbn; repeat split; reflexivity.
Qed.

(** The tester of the request of message 600 has no record. *)
Lemma approval_needs_tester_and_app_witness :
  let p := Sample.moderator_reaction "👍" 20 600 in
  let w := Cases.untested_world in
  tester_of (Sample.request_of PENDING (Some (PStr 600)) []) w = None
  /\ result (handle_role_approval p) w
     = Raised (ReactionRoleError "could not find tester" 600 (Some 200))
  /\ trace (after (handle_role_approval p) w) = []
  /\ map status (requests (after (handle_role_approval p) w)) = [PENDING].
Proof.
  cbv zeta.
  destruct (@approval_needs_tester_and_app
              Cases.untested_world (Sample.moderator_reaction "👍" 20 600)
              10 Sample.the_guild 20 (Sample.bot_message 600 20 [])
              (Sample.request_of PENDING (Some (PStr 600)) []))
    as (Hres & Htr & Hreq & _); try reflexivity.
  - intros n op. reflexivity.
  - repeat split; reflexivity.
  - discriminate.
  - left. reflexivity.
  - split; [ reflexivity | ]. split; [ exact Hres | ]. split; [ exact Htr | ].
    rewrite Hreq. reflexivity.
Defined.

(** X26.  The approval of a request with roles to grant, when the tester is no
    member of the guild any more, raises an AttributeError once the tester
    was added to the beta group: no role is granted, the tester is not
    notified, the request keeps its status and the message is not marked. *)
Theorem approval_of_a_member_who_left :
  forall w payload guild msg c mem r t a,
    no_faults w ->
    approves payload w guild msg c mem r t a ->
    app_reaction_roles_ids r <> [] ->
    guild_get_member guild (discord_id t) w = None ->
    let w' := after (handle_role_approval payload) w in
    result (handle_role_approval payload) w = Raised AttributeError
    /\ requests w' = requests w
    /\ trace w'
       = (if in_beta_group t a w then [] else [ECreateBetaTester a (email t)])
         ++ trace w.
Proof.
  intros w payload guild msg c mem r t a Hnf Happroves Hroles Hgone w'. subst w'.
  destruct (approves_reacts Happroves) as (gid' & Hreacts & _).
  destruct Happroves
    as (gid & Hgid & Hap & Hg & Hc & Hm & Hauth & Hem & Hmem & Hr & Hst & Ht & Ha).
  assert (gid' = gid) by (destruct Hreacts as (H & _); congruence). subst gid'.
  change (wp (handle_role_approval payload) w
            (fun o w' =>
               o = Raised AttributeError
               /\ requests w' = requests w
               /\ trace w'
                  = (if in_beta_group t a w then []
                     else [ECreateBetaTester a (email t)]) ++ trace w)).
  unfold in_beta_group.
  approval_to_group ltac:(rewrite Hnf) w.
  match goal with
  | |- context [mem_Z (beta_group_id ?a) ?groups] =>
      destruct (mem_Z (beta_group_id a) groups) eqn:?
  end;
    wp_run Hnf w;
    try match goal with
        | |- context [existsb ?P (beta_testers w)] =>
            destruct (existsb P (beta_testers w)); wp_run Hnf w
        end;
    cbn [app_reaction_roles_ids with_status];
    (destruct (app_reaction_roles_ids r) as [| role roles]; [ congruence | ]);
    cbn [map]; wp_run Hnf w; rewrite Hgone; wp_run Hnf w;
    repeat split; reflexivity.
Qed.

(** Tess has left the guild when her request is approved. *)
Lemma approval_of_a_member_who_left_witness :
  let p := Sample.moderator_reaction "👍" 20 600 in
  let w := Cases.departed_member_world in
  guild_get_member Sample.the_guild 100 w = None
  /\ result (handle_role_approval p) w = Raised AttributeError
  /\ map status (requests (after (handle_role_approval p) w)) = [PENDING]
  /\ trace (after (handle_role_approval p) w)
     = [ECreateBetaTester Sample.app_a (Some "tess@example.org")].
Proof.
  cbv zeta.
  destruct (@approval_of_a_member_who_left
              Cases.departed_member_world (Sample.moderator_reaction "👍" 20 600)
              Sample.the_guild (Sample.bot_message 600 20 []) 20 Sample.moderator
              (Sample.request_of PENDING (Some (PStr 600)) [])
              Sample.registered_tester Sample.app_a)
    as (Hres & Hreq & Htr); try reflexivity.
  - intros n op. reflexivity.
  - exists 10. repeat split; try reflexivity. discriminate.
  - discriminate.
  - split; [ reflexivity | ]. split; [ exact Hres | ].
    split; [ rewrite Hreq; reflexivity | exact Htr ].
Defined.
